(** * InsightAgent: storage, analytics and question answering

    A shallow embedding of [agent.py] (and of the earlier entry script
    [main.py], in [Module MainPy]) together with the properties the
    specification states about them.

    Conventions.
    - A Python [str] is a Rocq [string]; a character is an [ascii], read as
      the code point 0..255 (Latin-1).  The tables of [str.isalnum],
      [str.lower] and [str.isspace] below are Python's on that range, which
      is closed under every string operation the program uses.
    - Code that may raise returns a [result]; [try]/[except] is a match on it.
    - The remote object store and the local file system are explicit state.
    - [print] is not modelled. *)

From Stdlib Require Import Strings.String Strings.Ascii Lists.List ZArith.ZArith
  NArith.NArith Arith.PeanoNat Bool.Bool micromega.Lia Sorting.Permutation
  Numbers.DecimalString Sorting.Sorted Numbers.DecimalNat.
From stdpp Require Import base option gmap strings.

Import ListNotations.
Set Warnings "-register-all".
Local Open Scope string_scope.
Local Open Scope bool_scope.

(** ** Python's character tables on code points below 256 *)

Module PyChar.

Definition code (c : ascii) : N := N_of_ascii c.

Definition between (lo hi : N) (c : ascii) : bool :=
  ((lo <=? code c) && (code c <=? hi))%N.

Definition is_digit (c : ascii) : bool := between 48 57 c.
Definition is_ascii_upper (c : ascii) : bool := between 65 90 c.
Definition is_ascii_lower (c : ascii) : bool := between 97 122 c.

(** [c.isalnum()]: the ASCII letters and digits, and in the upper half
    U+00AA, U+00B2, U+00B3, U+00B5, U+00B9, U+00BA, U+00BC..U+00BE,
    U+00C0..U+00D6, U+00D8..U+00F6 and U+00F8..U+00FF. *)
Definition isalnum (c : ascii) : bool :=
  is_digit c || is_ascii_upper c || is_ascii_lower c
  || (code c =? 170)%N || between 178 179 c || (code c =? 181)%N
  || (code c =? 185)%N || (code c =? 186)%N || between 188 190 c
  || between 192 214 c || between 216 246 c || between 248 255 c.

(** [c.lower()]: A..Z, U+00C0..U+00D6 and U+00D8..U+00DE move up by 32. *)
Definition lower (c : ascii) : ascii :=
  if is_ascii_upper c || between 192 214 c || between 216 222 c
  then ascii_of_N (code c + 32) else c.

(** [c.isspace()], the characters [str.strip()] removes. *)
Definition isspace (c : ascii) : bool :=
  between 9 13 c || between 28 32 c || (code c =? 133)%N || (code c =? 160)%N.

(** The class [[a-z0-9_-]] of the specification's regular expression. *)
Definition in_key_class (c : ascii) : bool :=
  is_ascii_lower c || is_digit c || (code c =? 95)%N || (code c =? 45)%N.

Definition is_ascii (c : ascii) : bool := (code c <? 128)%N.

End PyChar.

(** ** Python's string operations *)

Module PyStr.

Fixpoint map (f : ascii -> ascii) (s : string) : string :=
  match s with
  | EmptyString => EmptyString
  | String c s' => String (f c) (map f s')
  end.

Fixpoint forallb (p : ascii -> bool) (s : string) : bool :=
  match s with
  | EmptyString => true
  | String c s' => p c && forallb p s'
  end.

(** [s.lower()], on code points below 256: one character for each. *)
Definition lower (s : string) : string := map PyChar.lower s.

(** [s[:n]] for [n >= 0] *)
Fixpoint take (n : nat) (s : string) : string :=
  match n, s with
  | S n', String c s' => String c (take n' s')
  | _, _ => EmptyString
  end.

(** [s[n:]] for [n >= 0] *)
Fixpoint drop (n : nat) (s : string) : string :=
  match n, s with
  | S n', String _ s' => drop n' s'
  | _, _ => s
  end.

(** [s.lstrip(chars)], [s.rstrip(chars)] and [s.strip(chars)], the set of
    characters given as a predicate. *)
Fixpoint lstrip (p : ascii -> bool) (s : string) : string :=
  match s with
  | String c s' => if p c then lstrip p s' else s
  | EmptyString => EmptyString
  end.

Fixpoint rstrip (p : ascii -> bool) (s : string) : string :=
  match s with
  | EmptyString => EmptyString
  | String c s' =>
      match rstrip p s' with
      | EmptyString => if p c then EmptyString else String c EmptyString
      | r => String c r
      end
  end.

Definition strip (p : ascii -> bool) (s : string) : string :=
  rstrip p (lstrip p s).

(** [s.strip()] *)
Definition strip_ws (s : string) : string := strip PyChar.isspace s.

Definition first (s : string) : option ascii :=
  match s with
  | EmptyString => None
  | String c _ => Some c
  end.

Fixpoint last (s : string) : option ascii :=
  match s with
  | EmptyString => None
  | String c EmptyString => Some c
  | String _ s' => last s'
  end.

(** [s.startswith(p)] *)
Fixpoint startswith (p s : string) : bool :=
  match p, s with
  | EmptyString, _ => true
  | String a p', String b s' => Ascii.eqb a b && startswith p' s'
  | String _ _, EmptyString => false
  end.

(** [c * n] *)
Fixpoint repeat (c : ascii) (n : nat) : string :=
  match n with
  | O => EmptyString
  | S n' => String c (repeat c n')
  end.

(** Truthiness of a string: [bool(s)]. *)
Definition nonempty (s : string) : bool :=
  match s with
  | EmptyString => false
  | String _ _ => true
  end.

End PyStr.

(** ** Key sanitizer ([sanitize_for_filename]) *)

Definition is_underscore (c : ascii) : bool := Ascii.eqb c "_".

(** The generator expression [c if c.isalnum() or c in ['_', '-'] else '_']. *)
Definition sanitize_char (c : ascii) : ascii :=
  if PyChar.isalnum c || Ascii.eqb c "_" || Ascii.eqb c "-" then c else "_"%char.

Definition sanitize_for_filename (text : string) : string :=
  PyStr.take 50
    (PyStr.lower (PyStr.strip is_underscore (PyStr.map sanitize_char text))).

(** ** More string operations used by the storage layer *)

Module PyStrOps.

(** [s.replace(old, new)] for a non-empty [old]: leftmost matches, not
    overlapping.  [skip] counts the characters of a match still to drop. *)
Fixpoint replace_from (old new : string) (skip : nat) (s : string) : string :=
  match s with
  | EmptyString => EmptyString
  | String c s' =>
      match skip with
      | S k => replace_from old new k s'
      | O =>
          if PyStr.startswith old s
          then new ++ replace_from old new (String.length old - 1) s'
          else String c (replace_from old new 0 s')
      end
  end.

Definition replace (old new s : string) : string := replace_from old new 0 s.

(** [s.split(sep)] for a one-character separator: never the empty list. *)
Fixpoint split (sep : ascii) (s : string) : list string :=
  match s with
  | EmptyString => [EmptyString]
  | String c s' =>
      if Ascii.eqb c sep then EmptyString :: split sep s'
      else match split sep s' with
           | x :: xs => String c x :: xs
           | [] => [String c EmptyString]
           end
  end.

(** [sep.join(parts)] *)
Definition join (sep : string) (parts : list string) : string :=
  String.concat sep parts.

(** [old in s] *)
Fixpoint contains (old s : string) : bool :=
  PyStr.startswith old s ||
  match s with
  | EmptyString => false
  | String _ s' => contains old s'
  end.

(** [os.path.join(a, b)] on POSIX for a non-empty [a] without a trailing
    slash: an absolute [b] discards [a]. *)
Definition os_path_join (a b : string) : string :=
  if PyStr.startswith "/" b then b else a ++ "/" ++ b.

(** Position just after the last ['/'] of [s], as a pair (head, tail). *)
Fixpoint rsplit_slash (s : string) : string * string :=
  match s with
  | EmptyString => (EmptyString, EmptyString)
  | String c s' =>
      let '(h, t) := rsplit_slash s' in
      if PyStr.nonempty h || Ascii.eqb c "/" then (String c h, t)
      else (EmptyString, String c t)
  end.

(** [os.path.dirname(p)] on POSIX: the head up to the last slash, its
    trailing slashes removed unless it consists of slashes only. *)
Definition os_path_dirname (p : string) : string :=
  let head := fst (rsplit_slash p) in
  if PyStr.forallb (Ascii.eqb "/") head then head
  else PyStr.rstrip (Ascii.eqb "/") head.

End PyStrOps.

(** ** Exceptions *)

Inductive exn : Type :=
| ClientError (code : string)      (* botocore.exceptions.ClientError *)
| OSError (what : string)          (* FileNotFoundError, IsADirectoryError, ENOSPC *)
| UnicodeDecodeError
| JSONDecodeError
| ValueError
| TypeError
| KeyError (key : string)
| AttributeError
| ReError                          (* re.error *)
| OtherError (what : string).

Inductive result (A : Type) : Type :=
| Ok (a : A)
| Raise (e : exn).
Arguments Ok {A} a.
Arguments Raise {A} e.

Definition rbind {A B} (m : result A) (k : A -> result B) : result B :=
  match m with
  | Ok a => k a
  | Raise e => Raise e
  end.

Notation "'let!' x ':=' m 'in' k" := (rbind m (fun x => k))
  (at level 10, x name, m at level 100, k at level 200).

(** [try: body / except Exception: handler] *)
Definition try_except {A} (body : result A) (handler : exn -> result A) : result A :=
  match body with
  | Ok a => Ok a
  | Raise e => handler e
  end.

(** ** JSON values and data frames *)

Inductive json : Type :=
| JNull
| JBool (b : bool)
| JInt (z : Z)
| JFloat (lit : string)            (* a float, by the text [json.dumps] writes for it *)
| JStr (s : string)
| JArr (items : list json)
| JObj (fields : list (string * json)).

(** A record is a [dict] with string keys, in insertion order. *)
Definition row : Type := list (string * json).

(** A [pandas.DataFrame] as its rows; every row carries the frame's columns,
    in the frame's column order. *)
Definition DataFrame : Type := list row.

Definition NaN : json := JFloat "NaN".

Fixpoint row_get (k : string) (r : row) : option json :=
  match r with
  | [] => None
  | (k', v) :: r' => if String.eqb k k' then Some v else row_get k r'
  end.

Definition row_keys (r : row) : list string := List.map fst r.

Definition mem_str (k : string) (l : list string) : bool :=
  List.existsb (String.eqb k) l.

Fixpoint add_new (seen ks : list string) : list string :=
  match ks with
  | [] => seen
  | k :: ks' => if mem_str k seen then add_new seen ks'
                else add_new (seen ++ [k])%list ks'
  end.

(** Column labels of [pd.DataFrame(records)]: the keys in order of first
    appearance. *)
Definition frame_columns (records : list row) : list string :=
  List.fold_left (fun seen r => add_new seen (row_keys r)) records [].

Definition align_row (cols : list string) (r : row) : row :=
  List.map (fun c => (c, match row_get c r with Some v => v | None => NaN end)) cols.

(** [pd.isna(v)] for a cell read from JSON: [None] and the float NaN. *)
Definition isna (v : json) : bool :=
  match v with
  | JNull => true
  | JFloat lit => String.eqb lit "NaN"
  | _ => false
  end.

Definition is_null (v : json) : bool :=
  match v with JNull => true | _ => false end.

Definition is_int (v : json) : bool :=
  match v with JInt _ => true | _ => false end.

Definition is_float (v : json) : bool :=
  match v with JFloat _ => true | _ => false end.

Definition is_str (v : json) : bool :=
  match v with JStr _ => true | _ => false end.

(** The cells of column [c], in row order; a row without the key has NaN. *)
Definition column (c : string) (rows : list row) : list json :=
  List.map (fun r => match row_get c r with Some v => v | None => NaN end) rows.

(** The constructor infers a type for every column from its cells.
    - A column of numbers in which an integer stands beside a float or a
      null becomes a float column, its integers converted: that case is
      not written out here ([int_mixed], left to [frame_other] below).
    - A column of floats, and (from pandas 3 on) a column of strings,
      stores a null as NaN.  Before pandas 3 a column of strings keeps
      [None]; the program reads cells through [isna], [notna] and
      [fillna], which treat the two alike.
    - Every other cell is kept: a column of integers has dtype [int64],
      [uint64] or [object] by their size, any other column dtype
      [object] (or [bool]). *)
Definition int_mixed_column (cells : list json) : bool :=
  List.existsb is_int cells
  && List.existsb (fun v => is_float v || is_null v) cells
  && List.forallb (fun v => is_int v || is_float v || is_null v) cells.

Definition float_column (cells : list json) : bool :=
  List.forallb (fun v => is_float v || is_null v) cells && List.existsb is_float cells.

Definition str_column (cells : list json) : bool :=
  List.forallb (fun v => is_str v || isna v) cells && List.existsb is_str cells.

Definition convert_cell (cells : list json) (v : json) : json :=
  if is_null v && (float_column cells || str_column cells) then NaN else v.

Definition convert_row (rows : list row) (r : row) : row :=
  List.map (fun kv => (fst kv, convert_cell (column (fst kv) rows) (snd kv))) r.

Definition aligned_records (records : list row) : list row :=
  List.map (align_row (frame_columns records)) records.

Definition int_mixed (records : list row) : bool :=
  List.existsb (fun c => int_mixed_column (column c (aligned_records records)))
    (frame_columns records).

(** [pd.DataFrame(records)] for a list of dicts without such a column. *)
Definition frame_of_records (records : list row) : DataFrame :=
  List.map (convert_row (aligned_records records)) (aligned_records records).

Fixpoint all_objects (items : list json) : option (list row) :=
  match items with
  | [] => Some []
  | JObj fields :: items' =>
      match all_objects items' with
      | Some rs => Some (fields :: rs)
      | None => None
      end
  | _ :: _ => None
  end.

(** A dict of lists, [{"a": [...], "b": [...]}]: the lists are the columns. *)
Fixpoint all_arrays (fields : list (string * json)) : option (list (string * list json)) :=
  match fields with
  | [] => Some []
  | (k, JArr cells) :: fields' =>
      match all_arrays fields' with
      | Some cols => Some ((k, cells) :: cols)
      | None => None
      end
  | _ :: _ => None
  end.

Fixpoint distinct (ks : list string) : bool :=
  match ks with
  | [] => true
  | k :: ks' => negb (mem_str k ks') && distinct ks'
  end.

(** The columns of a dict of lists that the constructor takes as they
    are: at least one, of distinct labels and of one length. *)
Definition same_length (cols : list (string * list json)) : option nat :=
  match cols with
  | [] => None
  | (_, cells) :: cols' =>
      if distinct (List.map fst cols)
         && List.forallb (fun c => (List.length (snd c) =? List.length cells)%nat) cols'
      then Some (List.length cells) else None
  end.

Definition rows_of_columns (cols : list (string * list json)) (n : nat) : list row :=
  List.map (fun i => List.map (fun c => (fst c, List.nth i (snd c) NaN)) cols) (List.seq 0 n).

(** [df.empty]: no rows or no columns. *)
Definition df_empty (df : DataFrame) : bool :=
  match df with
  | [] => true
  | [] :: _ => true
  | _ => false
  end.

(** [pd.DataFrame()] *)
Definition empty_frame : DataFrame := [].

(** The JSON document [persist] writes for a collection. *)
Definition json_of_records (records : list row) : json :=
  JArr (List.map JObj records).

(** ** The clock and [strftime('%Y%m%d%H%M%S')] *)

Record datetime : Type := {
  year : nat; month : nat; day : nat; hour : nat; minute : nat; second : nat
}.

Definition decimal (n : nat) : string := NilEmpty.string_of_uint (Nat.to_uint n).

(** [%m], [%d], [%H], [%M], [%S]: two digits, zero padded. *)
Definition pad2 (n : nat) : string :=
  if (n <? 10)%nat then String "0" (decimal n) else decimal n.

Definition strftime_compact (t : datetime) : string :=
  decimal (year t) ++ pad2 (month t) ++ pad2 (day t)
  ++ pad2 (hour t) ++ pad2 (minute t) ++ pad2 (second t).

(** ** The stores *)

(** What a stored object or file holds: UTF-8 text, or bytes that do not
    decode as UTF-8. *)
Inductive blob : Type :=
| Text (s : string)
| Binary.

(** The remote object store as the S3 client sees it. *)
Record remote : Type := {
  online : bool;                               (* endpoint and credentials usable *)
  access_granted : bool;                       (* the credentials may use the buckets *)
  buckets : gmap string (gmap string blob)     (* bucket -> key -> body *)
}.

(** The local file system: existing directories, files, and the number of
    characters the device still takes. *)
Record localfs : Type := {
  dirs : gset string;
  files : gmap string blob;
  free : nat
}.

(** The module's globals [s3_client] and [S3_BUCKET_NAME], and the state of
    the two stores. *)
Record world : Type := {
  s3_client : bool;                            (* [s3_client is not None] *)
  S3_BUCKET_NAME : option string;
  s3 : remote;
  fs : localfs
}.

Definition set_s3 (w : world) (r : remote) : world :=
  {| s3_client := s3_client w; S3_BUCKET_NAME := S3_BUCKET_NAME w; s3 := r; fs := fs w |}.

Definition set_fs (w : world) (f : localfs) : world :=
  {| s3_client := s3_client w; S3_BUCKET_NAME := S3_BUCKET_NAME w; s3 := s3 w; fs := f |}.

(** Truthiness of [S3_BUCKET_NAME]: set and not the empty string. *)
Definition bucket_name (w : world) : option string :=
  match S3_BUCKET_NAME w with
  | Some b => if PyStr.nonempty b then Some b else None
  | None => None
  end.

(** The bucket names the client accepts before it sends anything:
    [^[a-zA-Z0-9.\-_]{1,255}$]. *)
Definition bucket_char (c : ascii) : bool :=
  PyChar.is_digit c || PyChar.is_ascii_upper c || PyChar.is_ascii_lower c
  || Ascii.eqb c "." || Ascii.eqb c "-" || Ascii.eqb c "_".

Definition valid_bucket_name (b : string) : bool :=
  PyStr.nonempty b && (String.length b <=? 255)%nat && PyStr.forallb bucket_char b.

(** [s3_client.put_object(Bucket=b, Key=k, Body=body)] *)
Definition put_object (r : remote) (b k body : string) : result remote :=
  if negb (valid_bucket_name b) then Raise (OtherError "ParamValidationError")
  else if negb (online r) then Raise (OtherError "EndpointConnectionError")
  else match buckets r !! b with
       | None => Raise (ClientError "NoSuchBucket")
       | Some objs =>
           if negb (access_granted r) then Raise (ClientError "AccessDenied")
           else Ok {| online := online r; access_granted := access_granted r;
                      buckets := <[b := <[k := Text body]> objs]> (buckets r) |}
       end.

(** [s3_client.get_object(Bucket=b, Key=k)['Body'].read()] *)
Definition get_object (r : remote) (b k : string) : result blob :=
  if negb (valid_bucket_name b) then Raise (OtherError "ParamValidationError")
  else if negb (online r) then Raise (OtherError "EndpointConnectionError")
  else match buckets r !! b with
       | None => Raise (ClientError "NoSuchBucket")
       | Some objs =>
           if negb (access_granted r) then Raise (ClientError "AccessDenied")
           else match objs !! k with
                | None => Raise (ClientError "NoSuchKey")
                | Some body => Ok body
                end
       end.

(** [bytes.decode('utf-8')], and reading a file opened with
    [encoding='utf-8']. *)
Definition decode_utf8 (b : blob) : result string :=
  match b with
  | Text s => Ok s
  | Binary => Raise UnicodeDecodeError
  end.

Definition is_dir (f : localfs) (p : string) : bool := bool_decide (p ∈ dirs f).

(** [os.path.exists(p)] *)
Definition os_path_exists (f : localfs) (p : string) : bool :=
  is_dir f p || bool_decide (is_Some (files f !! p)).

(** [open(p, 'w')]: the directory of [p] must exist (the empty name is the working
    directory) and [p] must not be a directory; the file is created or
    truncated. *)
Definition open_w (f : localfs) (p : string) : result localfs :=
  if negb (PyStr.nonempty p) then Raise (OSError "FileNotFoundError")
  else if is_dir f p then Raise (OSError "IsADirectoryError")
  else let d := PyStrOps.os_path_dirname p in
       if PyStr.nonempty d && negb (is_dir f d) then Raise (OSError "FileNotFoundError")
       else Ok {| dirs := dirs f; files := <[p := Text EmptyString]> (files f);
                  free := free f |}.

(** Writing [body] to the file opened at [p] and closing it: when the
    device takes fewer characters than [body] has, what fits is written and
    the write raises. *)
Definition write_close (f : localfs) (p body : string) : localfs * result unit :=
  if (String.length body <=? free f)%nat
  then ({| dirs := dirs f; files := <[p := Text body]> (files f);
           free := free f - String.length body |}, Ok tt)
  else ({| dirs := dirs f; files := <[p := Text (PyStr.take (free f) body)]> (files f);
           free := 0 |}, Raise (OSError "ENOSPC")).

(** [open(p, 'r')] followed by reading the whole file. *)
Definition read_file (f : localfs) (p : string) : result blob :=
  if is_dir f p then Raise (OSError "IsADirectoryError")
  else match files f !! p with
       | Some b => Ok b
       | None => Raise (OSError "FileNotFoundError")
       end.

Definition DATA_DIR : string := "data".

(** ** Storage backend ([save_data_to_storage], [load_data_from_storage]) *)

Section Storage.

(** Python's [json] module and the part of the [pandas.DataFrame]
    constructor that is not written out above are libraries: the
    development is parametric in them.
    - [json_dumps v] is [json.dumps(v, ensure_ascii=False, indent=4)], the
      text [json.dump] writes with the same options;
    - [json_loads s] is [json.loads(s)];
    - [frame_other v] is [pd.DataFrame(v)] for a [v] that is neither a
      list of dicts nor a dict of lists of one length, or that has a
      column in which an integer stands beside a float or a null. *)
Variable json_dumps : json -> string.
Variable json_loads : string -> result json.
Variable frame_other : json -> result DataFrame.

(** [pd.DataFrame(data)] for [data] read from JSON. *)
Definition pd_DataFrame (data : json) : result DataFrame :=
  match data with
  | JNull => Ok empty_frame
  | JArr items =>
      match all_objects items with
      | Some records =>
          if int_mixed records then frame_other data else Ok (frame_of_records records)
      | None => frame_other data
      end
  | JObj fields =>
      match all_arrays fields with
      | Some cols =>
          match same_length cols with
          | Some n =>
              let records := rows_of_columns cols n in
              if int_mixed records then frame_other data else Ok (frame_of_records records)
          | None => frame_other data
          end
      | None => frame_other data
      end
  | JBool _ | JInt _ | JFloat _ | JStr _ => Raise ValueError
  end.

Definition base_filename (now : datetime) (source_type query_details : string) : string :=
  source_type ++ "_" ++ sanitize_for_filename query_details
  ++ "_" ++ strftime_compact now ++ ".json".

Definition s3_key (now : datetime) (source_type query_details : string) : string :=
  (source_type ++ "_data/") ++ base_filename now source_type query_details.

(** The remote tier: [Some] is the [return s3_uri] inside the [try];
    [None] is falling through to the local tier, because the backend is
    not configured or because [put_object] raised ([except ClientError]
    and [except Exception] both only print). *)
Definition save_remote (w : world) (now : datetime) (data_to_save : list row)
    (source_type query_details : string) : option (world * string) :=
  match s3_client w, bucket_name w with
  | true, Some b =>
      let key := s3_key now source_type query_details in
      match put_object (s3 w) b key (json_dumps (json_of_records data_to_save)) with
      | Ok r' => Some (set_s3 w r', "s3://" ++ b ++ "/" ++ key)
      | Raise (ClientError _) => None
      | Raise _ => None
      end
  | _, _ => None
  end.

(** The local tier: [with open(path, 'w') as f: json.dump(...)] inside
    [try]/[except Exception], which returns [None]. *)
Definition save_local (w : world) (now : datetime) (data_to_save : list row)
    (source_type query_details : string) : world * option string :=
  let local_file_path :=
    PyStrOps.os_path_join DATA_DIR (base_filename now source_type query_details) in
  match open_w (fs w) local_file_path with
  | Raise _ => (w, None)
  | Ok f1 =>
      match write_close f1 local_file_path (json_dumps (json_of_records data_to_save)) with
      | (f2, Ok _) => (set_fs w f2, Some local_file_path)
      | (f2, Raise _) => (set_fs w f2, None)
      end
  end.

Definition save_data_to_storage (w : world) (now : datetime) (data_to_save : list row)
    (source_type query_details : string) : world * option string :=
  match save_remote w now data_to_save source_type query_details with
  | Some (w', s3_uri) => (w', Some s3_uri)
  | None => save_local w now data_to_save source_type query_details
  end.

(** The body of the [try] of the remote branch of the loader. *)
Definition load_remote_body (w : world) (storage_path : string) : result DataFrame :=
  let path_parts := PyStrOps.split "/" (PyStrOps.replace "s3://" EmptyString storage_path) in
  let bucket := List.hd EmptyString path_parts in
  let key := PyStrOps.join "/" (List.tl path_parts) in
  if negb (PyStr.nonempty bucket) || negb (PyStr.nonempty key) then Ok empty_frame
  else
    let! body := get_object (s3 w) bucket key in
    let! content := decode_utf8 body in
    let! data := json_loads content in
    pd_DataFrame data.

(** The body of the [try] of the local branch of the loader. *)
Definition load_local_body (w : world) (storage_path : string) : result DataFrame :=
  let! body := read_file (fs w) storage_path in
  let! content := decode_utf8 body in
  let! data := json_loads content in
  pd_DataFrame data.

Definition load_data_from_storage (w : world) (storage_path : string) : result DataFrame :=
  if PyStr.startswith "s3://" storage_path then
    if negb (s3_client w) || negb (bool_decide (is_Some (bucket_name w)))
    then Ok empty_frame
    else try_except (load_remote_body w storage_path)
           (fun e => match e with
                     | ClientError _ => Ok empty_frame
                     | _ => Ok empty_frame
                     end)
  else
    if negb (os_path_exists (fs w) storage_path) then Ok empty_frame
    else try_except (load_local_body w storage_path) (fun _ => Ok empty_frame).

End Storage.

(** ** Regular-expression counting ([Series.str.count]) *)

Module Re.

(** [Series.str.count(pat)] counts the matches of [pat] read as a regular
    expression.  The fragment modelled here is a sequence of ordinary
    characters and ['.']; a pattern with any other special character is
    left to the parameter of [Section Analytics]. *)
Inductive atom : Type :=
| Lit (c : ascii)
| AnyChar.

(** The characters to which [re] gives a meaning of their own. *)
Definition is_special (c : ascii) : bool :=
  List.existsb (Ascii.eqb c)
    (list_ascii_of_string ".^$*+?{}[]\|()").

Fixpoint compile (pat : string) : option (list atom) :=
  match pat with
  | EmptyString => Some []
  | String c pat' =>
      match compile pat' with
      | None => None
      | Some atoms =>
          if Ascii.eqb c "." then Some (AnyChar :: atoms)
          else if is_special c then None
          else Some (Lit c :: atoms)
      end
  end.

Definition atom_matches (a : atom) (c : ascii) : bool :=
  match a with
  | Lit c' => Ascii.eqb c' c
  | AnyChar => negb (Ascii.eqb c "010")      (* no DOTALL: not a newline *)
  end.

Fixpoint match_here (p : list atom) (s : string) : bool :=
  match p, s with
  | [], _ => true
  | a :: p', String c s' => atom_matches a c && match_here p' s'
  | _ :: _, EmptyString => false
  end.

(** Matches of a non-empty [p] found scanning left to right, the scan
    resuming after each match. *)
Fixpoint count_from (p : list atom) (skip : nat) (s : string) : nat :=
  match s with
  | EmptyString => 0
  | String _ s' =>
      match skip with
      | S k => count_from p k s'
      | O => if match_here p s then S (count_from p (List.length p - 1) s')
             else count_from p 0 s'
      end
  end.

Definition count_atoms (p : list atom) (s : string) : nat :=
  match p with
  | [] => S (String.length s)                (* the empty pattern matches everywhere *)
  | _ => count_from p 0 s
  end.

End Re.

(** [s.count(sub)] of Python's [str]: occurrences of [sub], not
    overlapping, for a non-empty [sub]. *)
Fixpoint str_count_from (sub : string) (skip : nat) (s : string) : nat :=
  match s with
  | EmptyString => 0
  | String _ s' =>
      match skip with
      | S k => str_count_from sub k s'
      | O => if PyStr.startswith sub s
             then S (str_count_from sub (String.length sub - 1) s')
             else str_count_from sub 0 s'
      end
  end.

Definition str_count (sub s : string) : nat := str_count_from sub 0 s.

(** ** Sorting *)

Section Sorting.

Context {A : Type}.
Variable key : A -> Z.

(** Insertion into a list sorted by decreasing key, before the elements of
    equal key. *)
Fixpoint insert_desc (x : A) (l : list A) : list A :=
  match l with
  | [] => [x]
  | y :: l' => if (key x <? key y)%Z then y :: insert_desc x l' else x :: l
  end.

(** The stable sort by decreasing key: each element is inserted into the
    sorted rest of the list, so it stays before the later elements of equal
    key. *)
Definition stable_sort_desc (l : list A) : list A :=
  List.fold_right (fun x acc => insert_desc x acc) [] l.

Definition descending (l : list A) : Prop :=
  Sorted.StronglySorted (fun a b => (key b <= key a)%Z) l.

(** Rows of key [k], in their order in [l]. *)
Definition with_key (k : Z) (l : list A) : list A :=
  List.filter (fun a => (key a =? k)%Z) l.

(** [l'] is [l] reordered without exchanging elements of equal key. *)
Definition keeps_ties (l l' : list A) : Prop :=
  forall k, with_key k l' = with_key k l.

End Sorting.

(** ** Analytics engine ([analyze_data]) *)

(** One element of [df[col].fillna('')] used as a string operand of [+]. *)
Definition text_cell (r : row) (col : string) : result string :=
  match row_get col r with
  | None => Raise (KeyError col)
  | Some v =>
      if isna v then Ok EmptyString
      else match v with
           | JStr s => Ok s
           | _ => Raise TypeError
           end
  end.

(** [a + ' ' + b + ' ' + ...] over the text columns [cols] of one row. *)
Fixpoint text_for_search (r : row) (cols : list string) : result string :=
  match cols with
  | [] => Ok EmptyString
  | [c] => text_cell r c
  | c :: cols' =>
      let! s := text_cell r c in
      let! rest := text_for_search r cols' in
      Ok (s ++ " " ++ rest)
  end.

(** The key [nlargest] orders by: an integer, or missing ([None]/NaN). *)
Definition rank_key (col : string) (r : row) : result (option Z) :=
  match row_get col r with
  | None => Raise (KeyError col)
  | Some (JInt z) => Ok (Some z)
  | Some v => if isna v then Ok None else Raise TypeError
  end.

Fixpoint rank_keys (col : string) (df : DataFrame) : result (list (row * option Z)) :=
  match df with
  | [] => Ok []
  | r :: df' =>
      let! k := rank_key col r in
      let! ks := rank_keys col df' in
      Ok ((r, k) :: ks)
  end.

Definition present {B} (l : list (row * option B)) : list (row * B) :=
  List.flat_map (fun p => match snd p with Some k => [(fst p, k)] | None => [] end) l.

Definition missing {B} (l : list (row * option B)) : list row :=
  List.flat_map (fun p => match snd p with Some _ => [] | None => [fst p] end) l.

Definition fits_int64 (z : Z) : bool := ((- 2 ^ 63 <=? z) && (z <? 2 ^ 63))%Z.

Definition fits_uint64 (z : Z) : bool := ((0 <=? z) && (z <? 2 ^ 64))%Z.

(** A column of Python integers has dtype [int64] when they all fit,
    [uint64] when none is negative and they all fit that, and dtype
    [object] otherwise. *)
Definition numeric_ints (zs : list Z) : bool :=
  List.forallb fits_int64 zs || List.forallb fits_uint64 zs.

(** [df.nlargest(n, col)] with the default [keep='first'] on a column of
    integers: the [n] rows of largest value, largest first, rows of equal
    value in their original order; rows without a value come last.  A
    column of dtype [object] is refused with a [TypeError]. *)
Definition nlargest (n : nat) (col : string) (df : DataFrame) : result (list row) :=
  let! keyed := rank_keys col df in
  if numeric_ints (List.map snd (present keyed)) then
    Ok (List.firstn n
          (List.map fst (stable_sort_desc snd (present keyed)) ++ missing keyed)%list)
  else Raise TypeError.

Inductive ranking : Type :=
| Ranked (rows : list row)
| ColumnNotFound.

Record report : Type := {
  top : ranking;
  mentioned : option (list (row * nat))      (* [None]: no term given *)
}.

Inductive analysis : Type :=
| NoData
| UnknownSourceType
| Report (r : report).

Section Analytics.

(** [DataFrame.sort_values(by=..., ascending=False)] with the default
    [kind='quicksort'], which pandas documents as not stable: a parameter,
    with its contract as hypotheses where a proof needs it. *)
Variable sort_values_desc : list (row * nat) -> list (row * nat).

(** [Series.str.count] for a pattern outside the fragment of [Re]. *)
Variable re_count_other : string -> string -> result nat.

Definition mentions_key (p : row * nat) : Z := Z.of_nat (snd p).

(** [Series.str.count(pat)] on one element. *)
Definition re_count (pat s : string) : result nat :=
  match Re.compile pat with
  | Some atoms => Ok (Re.count_atoms atoms s)
  | None => re_count_other pat s
  end.

(** The column [df['mentions']], paired with the rows. *)
Fixpoint mention_counts (df : DataFrame) (cols : list string) (library_name : string)
    : result (list (row * nat)) :=
  match df with
  | [] => Ok []
  | r :: df' =>
      let! text := text_for_search r cols in
      let! n := re_count (PyStr.lower library_name) (PyStr.lower text) in
      let! rest := mention_counts df' cols library_name in
      Ok ((r, n) :: rest)
  end.

(** [mentions_df]: [df[df['mentions'] > 0].sort_values(by='mentions',
    ascending=False)]. *)
Definition mentions_df (df : DataFrame) (cols : list string) (library_name : string)
    : result (list (row * nat)) :=
  let! counted := mention_counts df cols library_name in
  Ok (sort_values_desc (List.filter (fun p => (0 <? snd p)%nat) counted)).

(** The rows the mention report prints: [mentions_df.head(5)]; when
    [library_name] is [None] or empty the report has no such part. *)
Definition mention_report (df : DataFrame) (cols : list string)
    (library_name : option string) : result (option (list (row * nat))) :=
  match library_name with
  | None => Ok None
  | Some term =>
      if PyStr.nonempty term
      then let! m := mentions_df df cols term in Ok (Some (List.firstn 5 m))
      else Ok None
  end.

Definition rank_report (df : DataFrame) (col : string) : result ranking :=
  match df with
  | r :: _ =>
      if mem_str col (row_keys r)               (* [col in df.columns] *)
      then let! rows := nlargest 5 col df in Ok (Ranked rows)
      else Ok ColumnNotFound
  | [] => Ok ColumnNotFound
  end.

Definition analyze_data (df : DataFrame) (source_type : string)
    (library_name : option string) : result analysis :=
  if df_empty df then Ok NoData
  else if String.eqb source_type "github" then
    let! t := rank_report df "stars" in
    let! m := mention_report df ["description"; "readme_content"] library_name in
    Ok (Report {| top := t; mentioned := m |})
  else if String.eqb source_type "reddit" then
    let! t := rank_report df "score" in
    let! m := mention_report df ["title"; "selftext"; "comments_sample"] library_name in
    Ok (Report {| top := t; mentioned := m |})
  else Ok UnknownSourceType.

End Analytics.

(** ** Record normalization ([fetch_github_data], [fetch_reddit_data]) *)

(** What the GitHub connector hands over for one repository; [readme] is
    the outcome of [repo.get_readme().decoded_content.decode(...)]. *)
Record repo_item : Type := {
  repo_id : Z;
  full_name : string;
  repo_description : option string;
  stargazers_count : Z;
  forks_count : Z;
  repo_language : option string;
  html_url : string;
  created_at : option string;
  updated_at : option string;
  repo_topics : list string;
  readme : result string
}.

(** What the Reddit connector hands over for one submission; a comment is
    its [body], or [None] for an object without one. *)
Record submission : Type := {
  sub_id : string;
  sub_title : string;
  sub_score : Z;
  sub_url : string;
  sub_permalink : string;
  sub_selftext : string;
  created_utc : string;
  num_comments : Z;
  sub_author : option string;
  link_flair_text : option string;
  sub_comments : result (list (option string))
}.

Definition json_opt (o : option string) : json :=
  match o with
  | Some s => JStr s
  | None => JNull
  end.

Definition README_LIMIT : nat := 200000.

Definition newline : string := String "010" EmptyString.

(** The dict [fetch_github_data] appends for one repository. *)
Definition github_record (repo : repo_item) : row :=
  let readme_content :=
    match readme repo with
    | Ok s => s
    | Raise _ => EmptyString
    end in
  [ ("id", JInt (repo_id repo));
    ("name", JStr (full_name repo));
    ("description", json_opt (repo_description repo));
    ("stars", JInt (stargazers_count repo));
    ("forks", JInt (forks_count repo));
    ("language", json_opt (repo_language repo));
    ("url", JStr (html_url repo));
    ("created_at", json_opt (created_at repo));
    ("updated_at", json_opt (updated_at repo));
    ("topics", JArr (List.map JStr (repo_topics repo)));
    ("readme_content", JStr (PyStr.take README_LIMIT readme_content)) ].

(** The sample of comments: of the first three, those with a body other
    than the two placeholders, each cut to 500 characters. *)
Definition comments_sample (cs : result (list (option string))) : list string :=
  match cs with
  | Raise _ => []
  | Ok l =>
      List.flat_map
        (fun c => match c with
                  | Some body =>
                      if String.eqb body "[deleted]" || String.eqb body "[removed]"
                      then [] else [PyStr.take 500 body]
                  | None => []
                  end)
        (List.firstn 3 l)
  end.

(** The dict [fetch_reddit_data] appends for one submission. *)
Definition reddit_record (p : submission) : row :=
  [ ("id", JStr (sub_id p));
    ("title", JStr (sub_title p));
    ("score", JInt (sub_score p));
    ("url", JStr (sub_url p));
    ("permalink", JStr ("https://www.reddit.com" ++ sub_permalink p));
    ("selftext", JStr (sub_selftext p));
    ("created_utc", JFloat (created_utc p));
    ("num_comments_total", JInt (num_comments p));
    ("author", JStr (match sub_author p with Some a => a | None => "[deleted]" end));
    ("flair", json_opt (link_flair_text p));
    ("comments_sample",
       JStr (PyStrOps.join (newline ++ "---" ++ newline) (comments_sample (sub_comments p)))) ].

(** ** Context selector (the [ask] branch of [main]) *)

(** One arm of the chain: [k in entry and pd.notna(entry[k]) and
    entry[k].strip()], which yields the text to use when it holds. *)
Definition usable_text (entry : row) (k : string) : result (option string) :=
  match row_get k entry with
  | None => Ok None
  | Some v =>
      if isna v then Ok None
      else match v with
           | JStr s => Ok (if PyStr.nonempty (PyStr.strip_ws s) then Some s else None)
           | _ => Raise AttributeError
           end
  end.

(** The [if]/[elif] chain; [context_text] stays empty when no arm holds. *)
Definition select_context (entry : row) : result string :=
  let! a := usable_text entry "readme_content" in
  match a with
  | Some s => Ok s
  | None =>
      let! b := usable_text entry "selftext" in
      match b with
      | Some s => Ok s
      | None =>
          let! c := usable_text entry "description" in
          match c with
          | Some s => Ok s
          | None =>
              let! d := usable_text entry "title" in
              match d with
              | Some s => Ok s
              | None => Ok EmptyString
              end
          end
      end
  end.

(** ** QA adapter ([ask_ai_question]) *)

(** What the question-answering pipeline returns: [result['answer']] and
    [result.get('score')]. *)
Record qa_result : Type := {
  answer : string;
  qa_score : option string
}.

(** The pipeline, called as [qa_pipeline(question=..., context=...)]. *)
Definition capability : Type := string -> string -> result qa_result.

(** A call of the pipeline, as (question, context). *)
Definition call : Type := (string * string)%type.

Definition MSG_UNAVAILABLE : string := "AI Q&A is currently unavailable.".
Definition MSG_EMPTY_CONTEXT : string :=
  "Sorry, I don't have enough information (empty context) to answer that.".
Definition MSG_ERROR : string :=
  "Sorry, I encountered an error trying to answer that question.".

Definition max_chars_for_context : nat := 4000.

(** The value returned, and the calls made of the pipeline.  The argument
    is a [str], so [isinstance(context_text, str)] holds. *)
Definition ask_ai_question (qa_pipeline : option capability)
    (question context_text : string) : string * list call :=
  match qa_pipeline with
  | None => (MSG_UNAVAILABLE, [])
  | Some pipeline =>
      if negb (PyStr.nonempty context_text)
         || (String.length (PyStr.strip_ws context_text) =? 0)%nat
      then (MSG_EMPTY_CONTEXT, [])
      else
        let trimmed_context := PyStr.take max_chars_for_context context_text in
        match pipeline question trimmed_context with
        | Ok r => (answer r, [(question, trimmed_context)])
        | Raise _ => (MSG_ERROR, [(question, trimmed_context)])
        end
  end.

(** What the [ask] command does with the selected entry. *)
Inductive ask_outcome : Type :=
| Answered (text : string) (calls : list call)
| NoSuitableContext.

Definition ask_entry (qa_pipeline : option capability) (question : string)
    (entry : row) : result ask_outcome :=
  let! context_text := select_context entry in
  if PyStr.nonempty context_text
  then let '(a, calls) := ask_ai_question qa_pipeline question context_text in
       Ok (Answered a calls)
  else Ok NoSuitableContext.

(** ** The earlier entry script [main.py] *)

Module MainPy.

(** The dict [fetch_github_data] of [main.py] appends: the README is
    stored as fetched. *)
Definition github_record (repo : repo_item) : row :=
  let readme_content :=
    match readme repo with
    | Ok s => s
    | Raise _ => EmptyString
    end in
  [ ("name", JStr (full_name repo));
    ("description", json_opt (repo_description repo));
    ("stars", JInt (stargazers_count repo));
    ("forks", JInt (forks_count repo));
    ("language", json_opt (repo_language repo));
    ("url", JStr (html_url repo));
    ("readme_content", JStr readme_content);
    ("topics", JArr (List.map JStr (repo_topics repo))) ].

Definition MSG_EMPTY_CONTEXT : string :=
  "Sorry, I don't have enough information to answer that.".

Definition max_context_length : nat := 500.

(** [ask_ai_question] of [main.py]; its pipeline is a module global that
    is always set.  The score is read as [result['score']]: when the
    pipeline reports none, the [KeyError] is caught like any other
    exception. *)
Definition ask_ai_question (qa_pipeline : capability)
    (question context_text : string) : string * list call :=
  if negb (PyStr.nonempty context_text) then (MSG_EMPTY_CONTEXT, [])
  else
    let trimmed_context :=
      if (max_context_length <? String.length context_text)%nat
      then PyStr.take max_context_length context_text ++ "..."
      else context_text in
    match qa_pipeline question trimmed_context with
    | Ok r =>
        match qa_score r with
        | Some _ => (answer r, [(question, trimmed_context)])
        | None => (MSG_ERROR, [(question, trimmed_context)])
        end
    | Raise _ => (MSG_ERROR, [(question, trimmed_context)])
    end.

End MainPy.

(** ** [main.py]'s [analyze_data] *)

Fixpoint each {A B} (f : A -> result B) (l : list A) : result (list B) :=
  match l with
  | [] => Ok []
  | a :: l' =>
      let! b := f a in
      let! bs := each f l' in
      Ok (b :: bs)
  end.

Section MainPyAnalysis.

Variable sort_values_desc : list (row * nat) -> list (row * nat).
Variable re_count_other : string -> string -> result nat.

(** [v[:100]] where the model does not say what [v] is as a Python value:
    a dict, or a number of a row that holds numbers only, which
    [iterrows] yields as numpy scalars. *)
Variable slice_other : json -> result json.

(** [row[col]] *)
Definition mainpy_cell (r : row) (col : string) : result json :=
  match row_get col r with
  | Some v => Ok v
  | None => Raise (KeyError col)
  end.

Definition is_number (v : json) : bool :=
  match v with
  | JInt _ | JFloat _ | JBool _ => true
  | _ => false
  end.

(** A row of numbers only. *)
Definition numeric_row (r : row) : bool :=
  List.forallb (fun kv => is_number (snd kv)) r.

(** [row['description'][:100]]: the slice of a string or of a list; of
    [None], and of a Python number (NaN among them), a [TypeError]. *)
Definition mainpy_cut (numbers_only : bool) (v : json) : result json :=
  match v with
  | JStr s => Ok (JStr (PyStr.take 100 s))
  | JArr l => Ok (JArr (List.firstn 100 l))
  | JNull => Raise TypeError
  | JInt _ | JFloat _ | JBool _ => if numbers_only then slice_other v else Raise TypeError
  | JObj _ => slice_other v
  end.

(** The values one line of the ranking is formatted from:
    [f"- {row['name']} ({row['stars']} stars): {row['description'][:100]}..."] *)
Definition mainpy_repo_line (r : row) : result (json * json * json) :=
  let! name := mainpy_cell r "name" in
  let! stars := mainpy_cell r "stars" in
  let! description := mainpy_cell r "description" in
  let! cut := mainpy_cut (numeric_row r) description in
  Ok (name, stars, cut).

(** [f"- {row['title']} ({row['score']} score) - {row['url']}"] *)
Definition mainpy_post_line (r : row) : result (json * json * json) :=
  let! title := mainpy_cell r "title" in
  let! score := mainpy_cell r "score" in
  let! url := mainpy_cell r "url" in
  Ok (title, score, url).

(** [f"- {row['name']} (Mentions: {row['mentions']}) - {row['description'][:100]}..."];
    the row has the text column [text_content] besides. *)
Definition mainpy_repo_mention_line (p : row * nat) : result (json * nat * json) :=
  let! name := mainpy_cell (fst p) "name" in
  let! description := mainpy_cell (fst p) "description" in
  let! cut := mainpy_cut false description in
  Ok (name, snd p, cut).

(** [f"- {row['title']} (Mentions: {row['mentions']}) - {row['url']}"] *)
Definition mainpy_post_mention_line (p : row * nat) : result (json * nat * json) :=
  let! title := mainpy_cell (fst p) "title" in
  let! url := mainpy_cell (fst p) "url" in
  Ok (title, snd p, url).

(** The mention part: the rows of [mentions_df.head(5)], each of which is
    printed. *)
Definition mainpy_mentions (df : DataFrame) (cols : list string)
    (line : row * nat -> result (json * nat * json)) (library_name : option string)
    : result (option (list (row * nat))) :=
  match library_name with
  | None => Ok None
  | Some term =>
      if PyStr.nonempty term then
        let! m := mentions_df sort_values_desc re_count_other df cols term in
        let! _ := each line (List.firstn 5 m) in
        Ok (Some (List.firstn 5 m))
      else Ok None
  end.

(** [analyze_data] of [main.py]: the rows whose lines it prints, or the
    exception that ends it.  The ranking has no test for its column, and
    its loop runs before the mention part. *)
Definition mainpy_analyze_data (df : DataFrame) (source_type : string)
    (library_name : option string) : result analysis :=
  if df_empty df then Ok NoData
  else if String.eqb source_type "github" then
    let! rows := nlargest 5 "stars" df in
    let! _ := each mainpy_repo_line rows in
    let! m := mainpy_mentions df ["description"; "readme_content"]
                mainpy_repo_mention_line library_name in
    Ok (Report {| top := Ranked rows; mentioned := m |})
  else if String.eqb source_type "reddit" then
    let! rows := nlargest 5 "score" df in
    let! _ := each mainpy_post_line rows in
    let! m := mainpy_mentions df ["title"; "selftext"; "comments"]
                mainpy_post_mention_line library_name in
    Ok (Report {| top := Ranked rows; mentioned := m |})
  else Ok UnknownSourceType.

End MainPyAnalysis.

(** ** A reference JSON codec

    [json.dumps(v, ensure_ascii=False, indent=4)] and [json.loads] on the
    values above, written out so that closed examples can run.  The
    theorems do not depend on it. *)

Module RefJson.

Definition dquote : ascii := "034"%char.

Definition hex_digit (n : N) : ascii :=
  if (n <? 10)%N then ascii_of_N (48 + n) else ascii_of_N (87 + n).

(** One character inside a string literal: the two-character escapes,
    [\u00XX] for the other control characters, anything else as it is. *)
Definition escape_char (c : ascii) : string :=
  let n := PyChar.code c in
  if Ascii.eqb c dquote then String "\" (String dquote EmptyString)
  else if Ascii.eqb c "\" then "\\"
  else if (n =? 10)%N then "\n"
  else if (n =? 13)%N then "\r"
  else if (n =? 9)%N then "\t"
  else if (n =? 8)%N then "\b"
  else if (n =? 12)%N then "\f"
  else if (n <? 32)%N
       then "\u00" ++ String (hex_digit (n / 16)) (String (hex_digit (n mod 16)) EmptyString)
  else String c EmptyString.

Fixpoint escape (s : string) : string :=
  match s with
  | EmptyString => EmptyString
  | String c s' => escape_char c ++ escape s'
  end.

Definition quote (s : string) : string :=
  String dquote (escape s ++ String dquote EmptyString).

Definition int_text (z : Z) : string :=
  match z with
  | Z0 => "0"
  | Zpos p => decimal (Pos.to_nat p)
  | Zneg p => "-" ++ decimal (Pos.to_nat p)
  end.

Fixpoint indent (level : nat) : string :=
  match level with
  | O => EmptyString
  | S l => "    " ++ indent l
  end.

Definition block (opening closing : string) (level : nat) (items : list string) : string :=
  match items with
  | [] => opening ++ closing
  | _ => opening ++ newline ++ indent (S level)
         ++ String.concat ("," ++ newline ++ indent (S level)) items
         ++ newline ++ indent level ++ closing
  end.

Fixpoint dumps_at (level : nat) (v : json) : string :=
  match v with
  | JNull => "null"
  | JBool true => "true"
  | JBool false => "false"
  | JInt z => int_text z
  | JFloat lit => lit
  | JStr s => quote s
  | JArr items => block "[" "]" level (List.map (dumps_at (S level)) items)
  | JObj fields =>
      block "{" "}" level
        (List.map (fun kv => let '(k, x) := kv in quote k ++ ": " ++ dumps_at (S level) x)
           fields)
  end.

Definition dumps (v : json) : string := dumps_at 0 v.

Definition is_json_ws (c : ascii) : bool :=
  let n := PyChar.code c in
  (n =? 32)%N || (n =? 9)%N || (n =? 10)%N || (n =? 13)%N.

Definition skip_ws (s : string) : string := PyStr.lstrip is_json_ws s.

Definition hex_value (c : ascii) : option N :=
  let n := PyChar.code c in
  if PyChar.is_digit c then Some (n - 48)%N
  else if PyChar.between 97 102 c then Some (n - 87)%N
  else if PyChar.between 65 70 c then Some (n - 55)%N
  else None.

(** The rest of a string literal after its opening quote. *)
Fixpoint string_body (s : string) : option (string * string) :=
  match s with
  | EmptyString => None
  | String c s' =>
      if Ascii.eqb c dquote then Some (EmptyString, s')
      else if Ascii.eqb c "\" then
        match s' with
        | String "u" (String a (String b (String h (String l rest)))) =>
            match hex_value a, hex_value b, hex_value h, hex_value l, string_body rest with
            | Some 0%N, Some 0%N, Some x, Some y, Some (r, rest') =>
                Some (String (ascii_of_N (16 * x + y)) r, rest')
            | _, _, _, _, _ => None
            end
        | String e rest =>
            let plain (c' : ascii) :=
              match string_body rest with
              | Some (r, rest') => Some (String c' r, rest')
              | None => None
              end in
            if Ascii.eqb e "n" then plain "010"%char
            else if Ascii.eqb e "r" then plain "013"%char
            else if Ascii.eqb e "t" then plain "009"%char
            else if Ascii.eqb e "b" then plain "008"%char
            else if Ascii.eqb e "f" then plain "012"%char
            else if Ascii.eqb e dquote || Ascii.eqb e "\" || Ascii.eqb e "/" then plain e
            else None
        | EmptyString => None
        end
      else if (PyChar.code c <? 32)%N then None
      else match string_body s' with
           | Some (r, rest') => Some (String c r, rest')
           | None => None
           end
  end.

Fixpoint span (p : ascii -> bool) (s : string) : string * string :=
  match s with
  | String c s' =>
      if p c then let '(a, b) := span p s' in (String c a, b)
      else (EmptyString, s)
  | EmptyString => (EmptyString, EmptyString)
  end.

Definition digits_value (ds : string) : Z :=
  Z.of_N (List.fold_left (fun acc c => (10 * acc + (PyChar.code c - 48))%N)
            (list_ascii_of_string ds) 0%N).

Definition is_float_char (c : ascii) : bool :=
  PyChar.is_digit c || Ascii.eqb c "." || Ascii.eqb c "e" || Ascii.eqb c "E"
  || Ascii.eqb c "+" || Ascii.eqb c "-".

(** A number: an integer, or (with a fraction or an exponent) a float
    kept as its text. *)
Definition number (s : string) : option (json * string) :=
  let '(sign, s1) :=
    match s with
    | String "-" s' => ("-", s')
    | _ => (EmptyString, s)
    end in
  let '(ds, rest) := span PyChar.is_digit s1 in
  if negb (PyStr.nonempty ds) then None
  else match rest with
       | String c _ =>
           if Ascii.eqb c "." || Ascii.eqb c "e" || Ascii.eqb c "E"
           then let '(tail, rest') := span is_float_char rest in
                Some (JFloat (sign ++ ds ++ tail), rest')
           else Some (JInt (if PyStr.nonempty sign then - digits_value ds
                            else digits_value ds), rest)
       | EmptyString =>
           Some (JInt (if PyStr.nonempty sign then - digits_value ds
                       else digits_value ds), rest)
       end.

Fixpoint value (fuel : nat) (s : string) {struct fuel} : option (json * string) :=
  match fuel with
  | O => None
  | S f =>
      let s := skip_ws s in
      if PyStr.startswith "null" s then Some (JNull, PyStr.drop 4 s)
      else if PyStr.startswith "true" s then Some (JBool true, PyStr.drop 4 s)
      else if PyStr.startswith "false" s then Some (JBool false, PyStr.drop 5 s)
      else if PyStr.startswith "NaN" s then Some (JFloat "NaN", PyStr.drop 3 s)
      else match s with
           | String c s' =>
               if Ascii.eqb c dquote then
                 match string_body s' with
                 | Some (str, rest) => Some (JStr str, rest)
                 | None => None
                 end
               else if Ascii.eqb c "[" then
                 let s1 := skip_ws s' in
                 if PyStr.startswith "]" s1 then Some (JArr [], PyStr.drop 1 s1)
                 else match elements f s1 with
                      | Some (items, rest) => Some (JArr items, rest)
                      | None => None
                      end
               else if Ascii.eqb c "{" then
                 let s1 := skip_ws s' in
                 if PyStr.startswith "}" s1 then Some (JObj [], PyStr.drop 1 s1)
                 else match members f s1 with
                      | Some (fields, rest) => Some (JObj fields, rest)
                      | None => None
                      end
               else number s
           | EmptyString => None
           end
  end

with elements (fuel : nat) (s : string) {struct fuel} : option (list json * string) :=
  match fuel with
  | O => None
  | S f =>
      match value f s with
      | None => None
      | Some (v, rest) =>
          match skip_ws rest with
          | String "," rest' =>
              match elements f rest' with
              | Some (vs, rest'') => Some (v :: vs, rest'')
              | None => None
              end
          | String "]" rest' => Some ([v], rest')
          | _ => None
          end
      end
  end

with members (fuel : nat) (s : string) {struct fuel}
    : option (list (string * json) * string) :=
  match fuel with
  | O => None
  | S f =>
      match skip_ws s with
      | String c s' =>
          if negb (Ascii.eqb c dquote) then None
          else
          match string_body s' with
          | None => None
          | Some (k, rest) =>
              match skip_ws rest with
              | String ":" rest1 =>
                  match value f rest1 with
                  | None => None
                  | Some (v, rest2) =>
                      match skip_ws rest2 with
                      | String "," rest3 =>
                          match members f rest3 with
                          | Some (kvs, rest4) => Some ((k, v) :: kvs, rest4)
                          | None => None
                          end
                      | String "}" rest3 => Some ([(k, v)], rest3)
                      | _ => None
                      end
                  end
              | _ => None
              end
          end
      | EmptyString => None
      end
  end.

Definition loads (s : string) : result json :=
  match value (2 * String.length s + 2) s with
  | Some (v, rest) =>
      if PyStr.nonempty (skip_ws rest) then Raise JSONDecodeError else Ok v
  | None => Raise JSONDecodeError
  end.

(** [pd.DataFrame] outside lists of dicts; the closed examples do not
    reach it. *)
Definition frame_other (v : json) : result DataFrame := Raise ValueError.

End RefJson.


(** ** Reference instances of the pandas and [re] parameters

    Used by the closed examples only. *)

(** What numpy's quicksort does on the frames of the examples (at most 16
    rows are sorted by insertion): ties keep their order. *)
Definition ref_sort_values_desc (l : list (row * nat)) : list (row * nat) :=
  stable_sort_desc mentions_key l.


Definition ref_re_count_other (pat s : string) : result nat := Raise ReError.

(** * Properties *)

(** ** Characters and strings *)

Ltac each_char c :=
  destruct c as [[] [] [] [] [] [] [] []].

Lemma take_length n s : String.length (PyStr.take n s) <= n.
Proof.
  revert s; induction n as [|n IH]; intros [|c s]; simpl; try lia.
  specialize (IH s); lia.
Qed.

Lemma take_length_min n s : String.length (PyStr.take n s) = Nat.min n (String.length s).
Proof.
  revert s; induction n as [|n IH]; intros [|c s]; simpl; try reflexivity.
  now rewrite IH.
Qed.

Lemma take_all n s : String.length s <= n -> PyStr.take n s = s.
Proof.
  revert s; induction n as [|n IH]; intros [|c s]; simpl; intros H; try reflexivity; try lia.
  rewrite IH by lia; reflexivity.
Qed.

Lemma forallb_take p n s : PyStr.forallb p s = true -> PyStr.forallb p (PyStr.take n s) = true.
Proof.
  revert s; induction n as [|n IH]; intros [|c s]; simpl; auto.
  intros H; apply andb_prop in H as [Hc Hs]. rewrite Hc; simpl; auto.
Qed.

Lemma forallb_map p f s :
  (forall c, p (f c) = true) -> PyStr.forallb p (PyStr.map f s) = true.
Proof. intros H; induction s as [|c s IH]; simpl; [reflexivity|]. now rewrite H, IH. Qed.

Lemma forallb_map_impl (p q : ascii -> bool) f s :
  (forall c, p c = true -> q (f c) = true) ->
  PyStr.forallb p s = true -> PyStr.forallb q (PyStr.map f s) = true.
Proof.
  intros H; induction s as [|c s IH]; simpl; [reflexivity|].
  intros Hs; apply andb_prop in Hs as [Hc Hs]. now rewrite (H _ Hc), IH.
Qed.

Lemma forallb_lstrip p q s :
  PyStr.forallb p s = true -> PyStr.forallb p (PyStr.lstrip q s) = true.
Proof.
  induction s as [|c s IH]; simpl; [reflexivity|].
  intros H. destruct (q c); [|exact H].
  apply andb_prop in H as [_ H]; auto.
Qed.

Lemma forallb_rstrip p q s :
  PyStr.forallb p s = true -> PyStr.forallb p (PyStr.rstrip q s) = true.
Proof.
  induction s as [|c s IH]; simpl; [reflexivity|].
  intros H; apply andb_prop in H as [Hc Hs]. specialize (IH Hs).
  destruct (PyStr.rstrip q s) eqn:E.
  - destruct (q c); simpl; [reflexivity|now rewrite Hc].
  - simpl in *. now rewrite Hc.
Qed.

Lemma forallb_strip p q s :
  PyStr.forallb p s = true -> PyStr.forallb p (PyStr.strip q s) = true.
Proof. intros H; unfold PyStr.strip; now apply forallb_rstrip, forallb_lstrip. Qed.

Lemma first_take n s : PyStr.first (PyStr.take (S n) s) = PyStr.first s.
Proof. destruct s; reflexivity. Qed.

Lemma first_map f s : PyStr.first (PyStr.map f s) = option_map f (PyStr.first s).
Proof. destruct s; reflexivity. Qed.

Lemma first_lstrip p s c : PyStr.first (PyStr.lstrip p s) = Some c -> p c = false.
Proof.
  induction s as [|a s IH]; simpl; [discriminate|].
  destruct (p a) eqn:E; [exact IH|]. simpl. intros [= <-]. exact E.
Qed.

Lemma first_rstrip p s c : PyStr.first (PyStr.rstrip p s) = Some c -> PyStr.first s = Some c.
Proof.
  destruct s as [|a s]; simpl; [discriminate|].
  destruct (PyStr.rstrip p s); [destruct (p a)|]; simpl; congruence.
Qed.

Lemma first_strip p s c : PyStr.first (PyStr.strip p s) = Some c -> p c = false.
Proof. intros H; apply first_rstrip in H. now apply first_lstrip in H. Qed.

Lemma last_rstrip p s c : PyStr.last (PyStr.rstrip p s) = Some c -> p c = false.
Proof.
  induction s as [|a s IH]; simpl; [discriminate|].
  destruct (PyStr.rstrip p s) as [|b r] eqn:E.
  - destruct (p a) eqn:Ea; simpl; [discriminate|]. now intros [= <-].
  - simpl. exact IH.
Qed.

Lemma last_map f s : PyStr.last (PyStr.map f s) = option_map f (PyStr.last s).
Proof.
  induction s as [|a s IH]; [reflexivity|].
  simpl. destruct s as [|b s]; [reflexivity|]. exact IH.
Qed.

(** ** Key sanitizer *)

(** The characters the sanitizer can produce: ['_'], ['-'], or an
    alphanumeric character that [lower] leaves alone. *)
Definition key_char (c : ascii) : bool :=
  Ascii.eqb c "_" || Ascii.eqb c "-"
  || (PyChar.isalnum c && Ascii.eqb (PyChar.lower c) c).

(** The specification's [^[a-z0-9_-]{0,50}$]. *)
Definition matches_key_regex (s : string) : bool :=
  (String.length s <=? 50)%nat && PyStr.forallb PyChar.in_key_class s.

Definition no_edge_underscore (s : string) : Prop :=
  PyStr.first s <> Some "_"%char /\ PyStr.last s <> Some "_"%char.

Lemma key_char_lower_sanitize c : key_char (PyChar.lower (sanitize_char c)) = true.
Proof. each_char c; reflexivity. Qed.

Lemma key_class_lower_sanitize c :
  implb (PyChar.is_ascii c) (PyChar.in_key_class (PyChar.lower (sanitize_char c))) = true.
Proof. each_char c; reflexivity. Qed.

Lemma lower_underscore c : PyChar.lower c = "_"%char -> is_underscore c = true.
Proof. each_char c; vm_compute; congruence. Qed.

Lemma sanitize_chars text :
  PyStr.forallb key_char (sanitize_for_filename text) = true.
Proof.
  unfold sanitize_for_filename, PyStr.lower.
  apply forallb_take.
  assert (H : PyStr.forallb (fun c => key_char (PyChar.lower c))
                (PyStr.strip is_underscore (PyStr.map sanitize_char text)) = true).
  { apply forallb_strip, forallb_map, key_char_lower_sanitize. }
  revert H. generalize (PyStr.strip is_underscore (PyStr.map sanitize_char text)).
  induction s as [|c s IH]; simpl; [reflexivity|].
  intros H; apply andb_prop in H as [Hc Hs]. now rewrite Hc, IH.
Qed.

Lemma sanitize_ascii text :
  PyStr.forallb PyChar.is_ascii text = true ->
  PyStr.forallb PyChar.in_key_class (sanitize_for_filename text) = true.
Proof.
  intros Hascii. unfold sanitize_for_filename, PyStr.lower.
  apply forallb_take.
  assert (H : PyStr.forallb (fun c => PyChar.in_key_class (PyChar.lower c))
                (PyStr.strip is_underscore (PyStr.map sanitize_char text)) = true).
  { apply forallb_strip. revert Hascii. apply forallb_map_impl.
    intros c Hc. pose proof (key_class_lower_sanitize c) as K.
    rewrite Hc in K. exact K. }
  revert H. generalize (PyStr.strip is_underscore (PyStr.map sanitize_char text)).
  induction s as [|c s IH]; simpl; [reflexivity|].
  intros H; apply andb_prop in H as [Hc Hs]. now rewrite Hc, IH.
Qed.

Lemma sanitize_first text : PyStr.first (sanitize_for_filename text) <> Some "_"%char.
Proof.
  unfold sanitize_for_filename, PyStr.lower.
  rewrite first_take, first_map.
  destruct (PyStr.first (PyStr.strip is_underscore (PyStr.map sanitize_char text)))
    as [c|] eqn:E; simpl; [|discriminate].
  intros [= H]. apply lower_underscore in H.
  apply first_strip in E. congruence.
Qed.

Lemma sanitize_last text :
  String.length (PyStr.strip is_underscore (PyStr.map sanitize_char text)) <= 50 ->
  PyStr.last (sanitize_for_filename text) <> Some "_"%char.
Proof.
  intros Hlen. unfold sanitize_for_filename, PyStr.lower.
  rewrite take_all.
  2:{ clear -Hlen. revert Hlen.
      generalize (PyStr.strip is_underscore (PyStr.map sanitize_char text)).
      intros s. enough (String.length (PyStr.map PyChar.lower s) = String.length s) by lia.
      induction s; simpl; congruence. }
  rewrite last_map.
  destruct (PyStr.last (PyStr.strip is_underscore (PyStr.map sanitize_char text)))
    as [c|] eqn:E; simpl; [|discriminate].
  intros [= H]. apply lower_underscore in H.
  apply last_rstrip in E. congruence.
Qed.

(** C4, as amended.  For every input of characters up to U+00FF (the
    strings of this development; beyond them [lower] can give more than
    one character, as it does for U+0130, and those are not covered) the
    sanitizer's output has at most 50 characters, each of them ['_'],
    ['-'] or a lower-cased alphanumeric character, and it does not begin
    with ['_']; it does not end with ['_'] either when the stripped text
    fits in 50 characters (nothing is cut), and it matches the
    specification's expression when the input is ASCII. *)
Theorem sanitize_for_filename_shape (text : string) :
  String.length (sanitize_for_filename text) <= 50
  /\ PyStr.forallb key_char (sanitize_for_filename text) = true
  /\ PyStr.first (sanitize_for_filename text) <> Some "_"%char
  /\ (String.length (PyStr.strip is_underscore (PyStr.map sanitize_char text)) <= 50 ->
      PyStr.last (sanitize_for_filename text) <> Some "_"%char)
  /\ (PyStr.forallb PyChar.is_ascii text = true ->
      matches_key_regex (sanitize_for_filename text) = true).
Proof.
  repeat split.
  - apply take_length.
  - apply sanitize_chars.
  - apply sanitize_first.
  - apply sanitize_last.
  - intros H. unfold matches_key_regex. rewrite (sanitize_ascii _ H), andb_true_r.
    apply Nat.leb_le, take_length.
Qed.

(** C4, as stated, fails twice: the cut to 50 characters comes after the
    strip, so 49 letters, an underscore and one more letter give a key that
    ends with ['_']; and [isalnum] holds of letters outside ASCII, so U+00E9
    is kept and the key does not match the expression. *)
Lemma sanitize_for_filename_not_as_stated :
  ~ no_edge_underscore (sanitize_for_filename (PyStr.repeat "a" 49 ++ "_b"))
  /\ matches_key_regex (sanitize_for_filename (String (ascii_of_nat 233) EmptyString)) = false.
Proof.
  split; [|reflexivity].
  intros [_ H]. apply H. reflexivity.
Qed.

(** ** Record normalization *)

Lemma repeat_length c n : String.length (PyStr.repeat c n) = n.
Proof. induction n; simpl; congruence. Qed.

(** X2.  The README field of [agent.py]'s repository record is a string of at
    most 200,000 characters, whatever was fetched. *)
Theorem github_record_readme_bounded (repo : repo_item) :
  exists s, row_get "readme_content" (github_record repo) = Some (JStr s)
            /\ String.length s <= README_LIMIT.
Proof.
  eexists; split; [reflexivity|]. apply take_length.
Qed.

(** A repository whose README has 200,001 characters. *)
Definition long_readme_repo : repo_item :=
  {| repo_id := 1; full_name := "octo/long"; repo_description := Some "demo";
     stargazers_count := 3; forks_count := 0; repo_language := None;
     html_url := "https://github.com/octo/long";
     created_at := None; updated_at := None; repo_topics := [];
     readme := Ok (PyStr.repeat "a" (S README_LIMIT)) |}.

(** C9 on [main.py]: its repository record keeps all 200,001 characters of
    that README, where [agent.py]'s keeps 200,000. *)
Theorem mainpy_github_record_readme_unbounded :
  (exists s, row_get "readme_content" (MainPy.github_record long_readme_repo) = Some (JStr s)
             /\ String.length s = S README_LIMIT)
  /\ (exists s, row_get "readme_content" (github_record long_readme_repo) = Some (JStr s)
                /\ String.length s = README_LIMIT).
Proof.
  split.
  - exists (PyStr.repeat "a" (S README_LIMIT)). split; [reflexivity|].
    apply repeat_length.
  - exists (PyStr.take README_LIMIT (PyStr.repeat "a" (S README_LIMIT))).
    split; [reflexivity|].
    rewrite take_length_min, repeat_length. apply Nat.min_l, Nat.le_succ_diag_r.
Qed.

(** ** Context selector *)

Definition usable (s : string) : bool := PyStr.nonempty (PyStr.strip_ws s).

(** The first candidate with a character that is not white space, or the
    empty string. *)
Fixpoint first_usable (candidates : list string) : string :=
  match candidates with
  | [] => EmptyString
  | s :: rest => if usable s then s else first_usable rest
  end.

Definition text_or_empty (o : option string) : string :=
  match o with
  | Some s => s
  | None => EmptyString
  end.

Lemma usable_nonempty s : usable s = true -> PyStr.nonempty s = true.
Proof. destruct s; [discriminate|reflexivity]. Qed.

Lemma usable_text_str entry k s :
  row_get k entry = Some (JStr s) ->
  usable_text entry k = Ok (if usable s then Some s else None).
Proof. intros H; unfold usable_text; rewrite H; reflexivity. Qed.

Lemma usable_text_opt entry k o :
  row_get k entry = Some (json_opt o) ->
  usable_text entry k = Ok (if usable (text_or_empty o) then Some (text_or_empty o) else None).
Proof.
  intros H; unfold usable_text; rewrite H. destruct o; reflexivity.
Qed.

Lemma usable_text_absent entry k : row_get k entry = None -> usable_text entry k = Ok None.
Proof. intros H; unfold usable_text; now rewrite H. Qed.

Definition stored_readme (repo : repo_item) : string :=
  PyStr.take README_LIMIT (match readme repo with Ok s => s | Raise _ => EmptyString end).

Lemma select_context_github repo :
  select_context (github_record repo)
  = Ok (first_usable [stored_readme repo; text_or_empty (repo_description repo)]).
Proof.
  unfold select_context.
  rewrite (usable_text_str _ "readme_content" (stored_readme repo)) by reflexivity.
  cbn [rbind first_usable].
  destruct (usable (stored_readme repo)); [reflexivity|].
  rewrite (usable_text_absent _ "selftext") by reflexivity.
  rewrite (usable_text_opt _ "description" (repo_description repo)) by reflexivity.
  cbn [rbind].
  destruct (usable (text_or_empty (repo_description repo))); [reflexivity|].
  rewrite (usable_text_absent _ "title") by reflexivity. reflexivity.
Qed.

Lemma select_context_reddit p :
  select_context (reddit_record p) = Ok (first_usable [sub_selftext p; sub_title p]).
Proof.
  unfold select_context.
  rewrite (usable_text_absent _ "readme_content") by reflexivity.
  rewrite (usable_text_str _ "selftext" (sub_selftext p)) by reflexivity.
  cbn [rbind first_usable].
  destruct (usable (sub_selftext p)); [reflexivity|].
  rewrite (usable_text_absent _ "description") by reflexivity.
  rewrite (usable_text_str _ "title" (sub_title p)) by reflexivity.
  cbn [rbind].
  destruct (usable (sub_title p)); reflexivity.
Qed.

Lemma first_usable_nonempty cs :
  PyStr.nonempty (first_usable cs) = List.existsb usable cs.
Proof.
  induction cs as [|s cs IH]; simpl; [reflexivity|].
  destruct (usable s) eqn:E; simpl; [now apply usable_nonempty|exact IH].
Qed.

(** C7, as amended.  For a repository record the context is the stored
    README if it has a character that is not white space, else the
    description if it has one; for a discussion post it is the body, else
    the title.  When no candidate qualifies the [ask] command reports that
    there is no context and the pipeline is not called.  The repository's
    name is not a candidate. *)
Theorem select_context_priority :
  (forall repo,
      select_context (github_record repo)
      = Ok (first_usable [stored_readme repo; text_or_empty (repo_description repo)]))
  /\ (forall p,
      select_context (reddit_record p) = Ok (first_usable [sub_selftext p; sub_title p]))
  /\ (forall qa question repo,
      usable (stored_readme repo) = false ->
      usable (text_or_empty (repo_description repo)) = false ->
      ask_entry qa question (github_record repo) = Ok NoSuitableContext)
  /\ (forall qa question p,
      usable (sub_selftext p) = false -> usable (sub_title p) = false ->
      ask_entry qa question (reddit_record p) = Ok NoSuitableContext).
Proof.
  split; [exact select_context_github|].
  split; [exact select_context_reddit|].
  split.
  - intros qa question repo H1 H2. unfold ask_entry.
    rewrite select_context_github. cbn [rbind first_usable].
    rewrite H1, H2. reflexivity.
  - intros qa question p H1 H2. unfold ask_entry.
    rewrite select_context_reddit. cbn [rbind first_usable].
    rewrite H1, H2. reflexivity.
Qed.

(** The priority order of the claim, for a repository record: README,
    then description, then name. *)
Definition spec_candidates_repo (repo : repo_item) : list string :=
  [stored_readme repo; text_or_empty (repo_description repo); full_name repo].

(** A repository with a name, no README and no description. *)
Definition bare_repo : repo_item :=
  {| repo_id := 7; full_name := "octo/hello"; repo_description := None;
     stargazers_count := 0; forks_count := 0; repo_language := None;
     html_url := "https://github.com/octo/hello";
     created_at := None; updated_at := None; repo_topics := [];
     readme := Raise (OtherError "GithubException") |}.

(** C7, as stated, fails on that repository: the claim's order yields its
    name, the program finds no context. *)
Lemma select_context_ignores_name :
  first_usable (spec_candidates_repo bare_repo) = "octo/hello"
  /\ select_context (github_record bare_repo) = Ok EmptyString
  /\ forall qa question,
       ask_entry qa question (github_record bare_repo) = Ok NoSuitableContext.
Proof. repeat split. Qed.

(** ** QA adapter *)

Lemma strip_ws_empty_length s :
  (String.length (PyStr.strip_ws s) =? 0)%nat = negb (usable s).
Proof. unfold usable. destruct (PyStr.strip_ws s); reflexivity. Qed.

Lemma take_empty n s : PyStr.take (S n) s = EmptyString -> s = EmptyString.
Proof. destruct s; [reflexivity|discriminate]. Qed.

(** X1.  [agent.py]'s adapter, with the pipeline initialised: a context without
    a character that is not white space gets the fixed answer and no call
    of the pipeline; any other context gets exactly one call, on the
    question and the first 4000 characters of the context, nothing added.
    In particular an empty cut context means the fixed answer and no call. *)
Theorem ask_ai_question_passes_prefix (pipeline : capability) (question context : string) :
  (usable context = false ->
     ask_ai_question (Some pipeline) question context = (MSG_EMPTY_CONTEXT, []))
  /\ (usable context = true ->
     snd (ask_ai_question (Some pipeline) question context)
     = [(question, PyStr.take 4000 context)])
  /\ (PyStr.take 4000 context = EmptyString ->
     ask_ai_question (Some pipeline) question context = (MSG_EMPTY_CONTEXT, [])).
Proof.
  assert (E : forall b, usable context = b ->
            ask_ai_question (Some pipeline) question context
            = if b then match pipeline question (PyStr.take 4000 context) with
                        | Ok r => (answer r, [(question, PyStr.take 4000 context)])
                        | Raise _ => (MSG_ERROR, [(question, PyStr.take 4000 context)])
                        end
              else (MSG_EMPTY_CONTEXT, [])).
  { intros b Hb. unfold ask_ai_question. rewrite strip_ws_empty_length, Hb.
    destruct b.
    - rewrite (usable_nonempty _ Hb). reflexivity.
    - simpl. now rewrite orb_true_r. }
  split; [intros H; exact (E _ H)|].
  split.
  - intros H. rewrite (E _ H).
    destruct (pipeline question (PyStr.take 4000 context)); reflexivity.
  - intros H. apply take_empty in H. subst context. reflexivity.
Qed.

(** The white-space test looks at the whole context, not at its first 4000
    characters: 4000 blanks followed by a letter reach the pipeline as 4000
    blanks. *)
Example ask_ai_question_blank_prefix (pipeline : capability) :
  snd (ask_ai_question (Some pipeline) "q" (PyStr.repeat " " 4000 ++ "x"))
  = [("q", PyStr.repeat " " 4000)].
Proof.
  set (r := pipeline "q" (PyStr.repeat " " 4000)).
  assert (H : ask_ai_question (Some pipeline) "q" (PyStr.repeat " " 4000 ++ "x")
              = match r with
                | Ok a => (answer a, [("q", PyStr.repeat " " 4000)])
                | Raise _ => (MSG_ERROR, [("q", PyStr.repeat " " 4000)])
                end) by (vm_compute; reflexivity).
  rewrite H. destruct r; reflexivity.
Qed.

(** Without a pipeline the adapter answers that it is unavailable, whatever
    the context, and calls nothing. *)
Lemma ask_ai_question_unavailable question context :
  ask_ai_question None question context = (MSG_UNAVAILABLE, []).
Proof. reflexivity. Qed.

(** C8 on [main.py]: its adapter cuts a context of 501 characters to 500
    and adds three dots, so the pipeline receives 503 characters, not the
    first 4000 (here all 501) of the context. *)
Theorem mainpy_ask_ai_question_appends_dots (pipeline : capability) :
  snd (MainPy.ask_ai_question pipeline "q" (PyStr.repeat "a" 501))
  = [("q", PyStr.repeat "a" 500 ++ "...")]
  /\ PyStr.repeat "a" 500 ++ "..." <> PyStr.take 4000 (PyStr.repeat "a" 501).
Proof.
  split.
  - set (r := pipeline "q" (PyStr.repeat "a" 500 ++ "...")).
    assert (H : MainPy.ask_ai_question pipeline "q" (PyStr.repeat "a" 501)
                = match r with
                  | Ok a =>
                      match qa_score a with
                      | Some _ => (answer a, [("q", PyStr.repeat "a" 500 ++ "...")])
                      | None => (MSG_ERROR, [("q", PyStr.repeat "a" 500 ++ "...")])
                      end
                  | Raise _ => (MSG_ERROR, [("q", PyStr.repeat "a" 500 ++ "...")])
                  end) by (vm_compute; reflexivity).
    rewrite H. destruct r as [a|e]; [destruct (qa_score a)|]; reflexivity.
  - intros H. apply (f_equal String.length) in H. vm_compute in H. discriminate.
Qed.

(** ** Sorting *)

Section SortingFacts.

Context {A : Type}.
Variable key : A -> Z.

Lemma insert_desc_perm x l : Permutation (insert_desc key x l) (x :: l).
Proof.
  induction l as [|y l IH]; simpl; [reflexivity|].
  destruct (key x <? key y)%Z; [|reflexivity].
  rewrite IH. apply perm_swap.
Qed.

Lemma stable_sort_desc_perm l : Permutation (stable_sort_desc key l) l.
Proof.
  induction l as [|x l IH]; simpl; [reflexivity|].
  rewrite insert_desc_perm. now constructor.
Qed.

Lemma insert_desc_descending x l :
  descending key l -> descending key (insert_desc key x l).
Proof.
  unfold descending. induction l as [|y l IH]; simpl; intros H.
  - repeat constructor.
  - apply Sorted.StronglySorted_inv in H as [Hl Hy].
    destruct (key x <? key y)%Z eqn:E.
    + apply Z.ltb_lt in E. constructor; [auto|].
      eapply Permutation_Forall; [symmetry; apply insert_desc_perm|].
      constructor; [lia|exact Hy].
    + apply Z.ltb_ge in E. constructor; [constructor; assumption|].
      constructor; [exact E|].
      eapply List.Forall_impl; [|exact Hy]. simpl. intros a Ha. lia.
Qed.

Lemma stable_sort_desc_descending l : descending key (stable_sort_desc key l).
Proof.
  induction l as [|x l IH]; simpl; [constructor|].
  now apply insert_desc_descending.
Qed.

Lemma with_key_insert_desc k x l :
  with_key key k (insert_desc key x l) = with_key key k (x :: l).
Proof.
  induction l as [|y l IH]; [reflexivity|].
  simpl insert_desc. destruct (key x <? key y)%Z eqn:E; [|reflexivity].
  apply Z.ltb_lt in E.
  change (with_key key k (y :: insert_desc key x l))
    with (if (key y =? k)%Z then y :: with_key key k (insert_desc key x l)
          else with_key key k (insert_desc key x l)).
  rewrite IH. unfold with_key; simpl.
  destruct (key y =? k)%Z eqn:Ey, (key x =? k)%Z eqn:Ex; try reflexivity.
  apply Z.eqb_eq in Ey, Ex. lia.
Qed.

(** The sort is stable: rows of equal key keep their order. *)
Lemma stable_sort_desc_keeps_ties l : keeps_ties key l (stable_sort_desc key l).
Proof.
  intros k. induction l as [|x l IH]; [reflexivity|].
  simpl stable_sort_desc. rewrite with_key_insert_desc.
  unfold with_key in *; simpl. now rewrite IH.
Qed.


End SortingFacts.

Lemma stable_sort_desc_map {A B} (f : A -> B) (kb : B -> Z) (l : list A) :
  stable_sort_desc kb (List.map f l) = List.map f (stable_sort_desc (fun a => kb (f a)) l).
Proof.
  induction l as [|x l IH]; [reflexivity|].
  simpl. rewrite IH. generalize (stable_sort_desc (fun a => kb (f a)) l).
  intros s. induction s as [|y s IHs]; [reflexivity|].
  simpl. destruct (kb (f x) <? kb (f y))%Z; simpl; [now rewrite IHs|reflexivity].
Qed.

(** ** Ranking *)

(** The column [analyze_data] ranks by. *)
Definition rank_column (source_type : string) : option string :=
  if String.eqb source_type "github" then Some "stars"
  else if String.eqb source_type "reddit" then Some "score"
  else None.

Definition int_field (col : string) (r : row) : Z :=
  match row_get col r with
  | Some (JInt z) => z
  | _ => 0%Z
  end.

(** The row has an integer of 64 bits in column [col]. *)
Definition has_int (col : string) (r : row) : Prop :=
  exists z, row_get col r = Some (JInt z) /\ fits_int64 z = true.

Lemma rank_keys_int col df :
  (forall r, In r df -> has_int col r) ->
  rank_keys col df = Ok (List.map (fun r => (r, Some (int_field col r))) df).
Proof.
  induction df as [|r df IH]; intros H; [reflexivity|].
  simpl. destruct (H r (or_introl eq_refl)) as (z & Hz & _).
  unfold rank_key, int_field. rewrite Hz. simpl.
  rewrite IH by (intros r' Hr'; apply H; now right). reflexivity.
Qed.

Lemma numeric_ints_int64 col df :
  (forall r, In r df -> has_int col r) ->
  numeric_ints (List.map snd (List.map (fun r => (r, int_field col r)) df)) = true.
Proof.
  intros H. unfold numeric_ints. apply orb_true_iff. left.
  rewrite List.map_map. cbn [snd]. apply List.forallb_forall.
  intros z Hz. apply List.in_map_iff in Hz as (r & <- & Hr).
  destruct (H r Hr) as (z & Hz & Hfit). unfold int_field. now rewrite Hz.
Qed.

Lemma present_all {B} (f : row -> B) df :
  present (List.map (fun r => (r, Some (f r))) df) = List.map (fun r => (r, f r)) df.
Proof. induction df as [|r df IH]; simpl; [reflexivity|]. now rewrite IH. Qed.

Lemma missing_none {B} (f : row -> B) df :
  missing (List.map (fun r => (r, Some (f r))) df) = [].
Proof. induction df as [|r df IH]; simpl; [reflexivity|]. exact IH. Qed.

Lemma nlargest_int n col df :
  (forall r, In r df -> has_int col r) ->
  nlargest n col df = Ok (List.firstn n (stable_sort_desc (int_field col) df)).
Proof.
  intros H. unfold nlargest. rewrite (rank_keys_int _ _ H). cbn [rbind].
  rewrite present_all, (numeric_ints_int64 _ _ H), missing_none, List.app_nil_r.
  rewrite (stable_sort_desc_map (fun r => (r, int_field col r)) snd).
  rewrite List.map_map. cbn [fst snd]. now rewrite List.map_id.
Qed.

Lemma row_get_mem col r v : row_get col r = Some v -> mem_str col (row_keys r) = true.
Proof.
  induction r as [|[k x] r IH]; simpl; [discriminate|].
  destruct (String.eqb col k); [reflexivity|]. exact IH.
Qed.

Lemma rank_report_int col df :
  df <> [] -> (forall r, In r df -> has_int col r) ->
  rank_report df col = Ok (Ranked (List.firstn 5 (stable_sort_desc (int_field col) df))).
Proof.
  intros Hne H. destruct df as [|r df]; [congruence|].
  unfold rank_report. destruct (H r (or_introl eq_refl)) as (z & Hz & _).
  rewrite (row_get_mem _ _ _ Hz), (nlargest_int _ _ _ H). reflexivity.
Qed.

Lemma df_empty_has_col col df :
  df <> [] -> (forall r, In r df -> has_int col r) -> df_empty df = false.
Proof.
  intros Hne H. destruct df as [|r df]; [congruence|].
  destruct (H r (or_introl eq_refl)) as (z & Hz & _).
  destruct r; [discriminate|reflexivity].
Qed.

(** C5.  On a loaded collection whose records carry the ranking field of
    its source type (the star count of repositories, the score of posts)
    as an integer of 64 bits, the ranking report holds the first five
    records of the collection sorted by decreasing value of that field,
    records of equal value in their original order: the report, followed
    by some [rest], is a permutation of the collection, sorted, with ties
    kept.  (An integer beyond 64 bits gives the column the dtype [object],
    which [nlargest] refuses.) *)
Theorem analyze_data_ranks_top5
    (sort_values_desc : list (row * nat) -> list (row * nat))
    (re_count_other : string -> string -> result nat)
    (df : DataFrame) (source_type col : string) :
  rank_column source_type = Some col ->
  df <> [] ->
  (forall r, In r df -> has_int col r) ->
  exists rows rest,
    analyze_data sort_values_desc re_count_other df source_type None
    = Ok (Report {| top := Ranked rows; mentioned := None |})
    /\ List.length rows = Nat.min 5 (List.length df)
    /\ Permutation (rows ++ rest)%list df
    /\ descending (int_field col) (rows ++ rest)%list
    /\ keeps_ties (int_field col) df (rows ++ rest)%list.
Proof.
  intros Hcol Hne Hint.
  exists (List.firstn 5 (stable_sort_desc (int_field col) df)),
         (List.skipn 5 (stable_sort_desc (int_field col) df)).
  rewrite List.firstn_skipn. repeat split.
  - unfold analyze_data. rewrite (df_empty_has_col _ _ Hne Hint).
    unfold rank_column in Hcol.
    destruct (String.eqb source_type "github").
    + injection Hcol as <-. rewrite (rank_report_int _ _ Hne Hint). reflexivity.
    + destruct (String.eqb source_type "reddit"); [|discriminate].
      injection Hcol as <-. rewrite (rank_report_int _ _ Hne Hint). reflexivity.
  - rewrite List.length_firstn.
    now rewrite (Permutation_length (stable_sort_desc_perm (int_field col) df)).
  - apply stable_sort_desc_perm.
  - apply stable_sort_desc_descending.
  - apply stable_sort_desc_keeps_ties.
Qed.

(** The collection of the specification's ranking example. *)
Definition starred (name : string) (stars : Z) : row :=
  [("name", JStr name); ("stars", JInt stars)].

Definition ranking_example : DataFrame :=
  [starred "A" 5; starred "B" 9; starred "C" 9].

(** On the specification's example the report is [B, C, A]. *)
Lemma analyze_data_ranks_top5_example :
  analyze_data ref_sort_values_desc ref_re_count_other ranking_example "github" None
  = Ok (Report {| top := Ranked [starred "B" 9; starred "C" 9; starred "A" 5];
                  mentioned := None |})
  /\ exists rows rest,
       analyze_data ref_sort_values_desc ref_re_count_other ranking_example "github" None
       = Ok (Report {| top := Ranked rows; mentioned := None |})
       /\ List.length rows = Nat.min 5 (List.length ranking_example)
       /\ Permutation (rows ++ rest)%list ranking_example
       /\ descending (int_field "stars") (rows ++ rest)%list
       /\ keeps_ties (int_field "stars") ranking_example (rows ++ rest)%list.
Proof.
  split; [reflexivity|].
  apply (analyze_data_ranks_top5 ref_sort_values_desc ref_re_count_other
           ranking_example "github" "stars").
  - reflexivity.
  - discriminate.
  - intros r [<-|[<-|[<-|[]]]]; eexists; split; reflexivity.
Defined.

(** C5, as stated for every loaded collection, fails for a star count
    beyond 64 bits: 2^64 beside 5 gives the column [stars] the dtype
    [object], and the ranking ends in a [TypeError] instead of a report. *)
Lemma analyze_data_ranking_beyond_64_bits :
  fits_int64 (2 ^ 64) = false
  /\ fits_uint64 (2 ^ 64) = false
  /\ analyze_data ref_sort_values_desc ref_re_count_other
       [starred "A" 5; starred "B" (2 ^ 64)] "github" None
     = Raise TypeError.
Proof. repeat split. Qed.

(** ** Mention counting *)


(** The case-insensitive count of [term] in [text]. *)
Definition mention_count (term text : string) : nat :=
  str_count (PyStr.lower term) (PyStr.lower text).




















(** The records with at least one mention, each with its count, in the
    order of the collection. *)
Definition counted {X} (record : X -> row) (text : X -> string) (term : string)
    (xs : list X) : list (row * nat) :=
  List.filter (fun p => (0 <? snd p)%nat)
    (List.map (fun x => (record x, mention_count term (text x))) xs).







Definition post (title body : string) : submission :=
  {| sub_id := "t3"; sub_title := title; sub_score := 1; sub_url := "https://redd.it/t3";
     sub_permalink := "/r/rust/t3"; sub_selftext := body; created_utc := "1700000000.0";
     num_comments := 0; sub_author := None; link_flair_text := None;
     sub_comments := Ok [] |}.

(** The post of the specification's example. *)
Definition rust_post : submission := post "Why" "Rust is great, I love rust".



Definition dotless_repo : repo_item :=
  {| repo_id := 2; full_name := "octo/ab"; repo_description := Some "a";
     stargazers_count := 0; forks_count := 0; repo_language := None;
     html_url := "https://github.com/octo/ab";
     created_at := None; updated_at := None; repo_topics := [];
     readme := Ok "b" |}.



(** ** The mention report *)













(** ** Loading *)

(** The container and the key the loader reads from a remote locator. *)
Definition s3_bucket_of (storage_path : string) : string :=
  List.hd EmptyString (PyStrOps.split "/" (PyStrOps.replace "s3://" EmptyString storage_path)).

Definition s3_key_of (storage_path : string) : string :=
  PyStrOps.join "/"
    (List.tl (PyStrOps.split "/" (PyStrOps.replace "s3://" EmptyString storage_path))).

(** Decoding a payload and building the frame: the last three steps of
    both branches of the loader. *)
Definition payload_frame (json_loads : string -> result json)
    (frame_other : json -> result DataFrame) (body : blob) : result DataFrame :=
  let! content := decode_utf8 body in
  let! data := json_loads content in
  pd_DataFrame frame_other data.

Section Loading.

Variable json_loads : string -> result json.
Variable frame_other : json -> result DataFrame.

Abbreviation load := (load_data_from_storage json_loads frame_other).

Definition configured (w : world) : bool :=
  s3_client w && bool_decide (is_Some (bucket_name w)).

Lemma load_remote_eq w path :
  PyStr.startswith "s3://" path = true ->
  configured w = true ->
  load w path
  = try_except
      (if negb (PyStr.nonempty (s3_bucket_of path)) || negb (PyStr.nonempty (s3_key_of path))
       then Ok empty_frame
       else let! body := get_object (s3 w) (s3_bucket_of path) (s3_key_of path) in
            payload_frame json_loads frame_other body)
      (fun _ => Ok empty_frame).
Proof.
  intros Hs Hc. unfold load_data_from_storage, configured in *. rewrite Hs.
  apply andb_prop in Hc as [-> ->]. cbn [negb orb].
  unfold load_remote_body, s3_bucket_of, s3_key_of, payload_frame, try_except.
  match goal with |- match ?a with _ => _ end = match ?b with _ => _ end =>
    change a with b; destruct b as [df|[]] end; reflexivity.
Qed.

Lemma load_local_eq w path :
  PyStr.startswith "s3://" path = false ->
  load w path
  = if negb (os_path_exists (fs w) path) then Ok empty_frame
    else try_except (let! body := read_file (fs w) path in
                     payload_frame json_loads frame_other body)
           (fun _ => Ok empty_frame).
Proof. intros Hs. unfold load_data_from_storage. now rewrite Hs. Qed.

Lemma load_unconfigured w path :
  PyStr.startswith "s3://" path = true -> configured w = false ->
  load w path = Ok empty_frame.
Proof.
  intros Hs Hc. unfold load_data_from_storage, configured in *. rewrite Hs.
  apply andb_false_iff in Hc as [-> | ->]; [reflexivity|].
  now rewrite orb_true_r.
Qed.

Lemma try_except_total {A} (body : result A) (d : A) :
  exists a, try_except body (fun _ => Ok d) = Ok a.
Proof. destruct body; simpl; eauto. Qed.

Lemma load_total w path : exists df, load w path = Ok df.
Proof.
  destruct (PyStr.startswith "s3://" path) eqn:Hs.
  - destruct (configured w) eqn:Hc.
    + rewrite (load_remote_eq _ _ Hs Hc). apply try_except_total.
    + rewrite (load_unconfigured _ _ Hs Hc). eauto.
  - rewrite (load_local_eq _ _ Hs).
    destruct (negb (os_path_exists (fs w) path)); [eauto|apply try_except_total].
Qed.

(** The ways [get_object] fails: backend unreachable, container unknown,
    access denied, object absent. *)
Lemma get_object_unreachable r b k :
  online r = false -> exists e, get_object r b k = Raise e.
Proof.
  intros H. unfold get_object. destruct (valid_bucket_name b); simpl; [|eauto].
  rewrite H. simpl. eauto.
Qed.

Lemma get_object_absent r b k :
  (forall objs, buckets r !! b = Some objs -> objs !! k = None) ->
  exists e, get_object r b k = Raise e.
Proof.
  intros H. unfold get_object. destruct (valid_bucket_name b); simpl; [|eauto].
  destruct (online r); simpl; [|eauto].
  destruct (buckets r !! b) as [objs|] eqn:E; [|eauto].
  destruct (access_granted r); simpl; [|eauto].
  rewrite (H objs eq_refl). eauto.
Qed.

End Loading.

(** C3.  The loader returns a frame for every locator and every state of
    the world, and never raises (its progress messages, the first of
    which is printed outside any [try], are not part of the model: this
    is said of a run in which writing them does not fail).  A remote
    locator (one that starts with [s3://]) yields the empty frame when
    the backend is not configured, when fetching the object fails
    (backend unreachable, object absent, access denied) and when decoding
    the object, parsing it or building a frame from it raises; any other
    locator yields the empty frame when no file exists at that path and
    when reading, decoding, parsing or building the frame raises.  A
    payload that parses and from which [pd.DataFrame] builds a frame is
    returned as that frame, whatever its shape.  The branch is chosen by
    the scheme alone, and a remote locator is never looked up locally:
    the result does not depend on the local file system (nor that of a
    local locator on the remote store). *)
Theorem load_data_from_storage_safe
    (json_loads : string -> result json) (frame_other : json -> result DataFrame)
    (w : world) (storage_path : string) :
  (exists df, load_data_from_storage json_loads frame_other w storage_path = Ok df)
  /\ (PyStr.startswith "s3://" storage_path = true ->
      (configured w = false
       \/ online (s3 w) = false
       \/ (forall objs, buckets (s3 w) !! s3_bucket_of storage_path = Some objs ->
                        objs !! s3_key_of storage_path = None)
       \/ (exists e, get_object (s3 w) (s3_bucket_of storage_path) (s3_key_of storage_path)
                     = Raise e)
       \/ (exists body e,
             get_object (s3 w) (s3_bucket_of storage_path) (s3_key_of storage_path) = Ok body
             /\ payload_frame json_loads frame_other body = Raise e)) ->
      load_data_from_storage json_loads frame_other w storage_path = Ok empty_frame)
  /\ (PyStr.startswith "s3://" storage_path = false ->
      (os_path_exists (fs w) storage_path = false
       \/ (exists e, read_file (fs w) storage_path = Raise e)
       \/ (exists body e,
             read_file (fs w) storage_path = Ok body
             /\ payload_frame json_loads frame_other body = Raise e)) ->
      load_data_from_storage json_loads frame_other w storage_path = Ok empty_frame)
  /\ (PyStr.startswith "s3://" storage_path = true ->
      forall f, load_data_from_storage json_loads frame_other (set_fs w f) storage_path
                = load_data_from_storage json_loads frame_other w storage_path)
  /\ (PyStr.startswith "s3://" storage_path = false ->
      forall w', fs w' = fs w ->
                 load_data_from_storage json_loads frame_other w' storage_path
                 = load_data_from_storage json_loads frame_other w storage_path)
  /\ (forall body df,
      PyStr.startswith "s3://" storage_path = true ->
      configured w = true ->
      PyStr.nonempty (s3_bucket_of storage_path) = true ->
      PyStr.nonempty (s3_key_of storage_path) = true ->
      get_object (s3 w) (s3_bucket_of storage_path) (s3_key_of storage_path) = Ok body ->
      payload_frame json_loads frame_other body = Ok df ->
      load_data_from_storage json_loads frame_other w storage_path = Ok df)
  /\ (forall body df,
      PyStr.startswith "s3://" storage_path = false ->
      os_path_exists (fs w) storage_path = true ->
      read_file (fs w) storage_path = Ok body ->
      payload_frame json_loads frame_other body = Ok df ->
      load_data_from_storage json_loads frame_other w storage_path = Ok df).
Proof.
  split; [apply load_total|].
  split; [|split; [|split; [|split; [|split]]]]; cycle 4.
  - intros body df Hs Hc Hb Hk Hg Hf. rewrite (load_remote_eq _ _ _ _ Hs Hc).
    rewrite Hb, Hk, Hg. cbn [negb orb rbind]. now rewrite Hf.
  - intros body df Hs Hx Hr Hf. rewrite (load_local_eq _ _ _ _ Hs).
    rewrite Hx, Hr. cbn [negb rbind]. now rewrite Hf.
  - intros Hs H. destruct (configured w) eqn:Hc; [|now apply load_unconfigured].
    rewrite (load_remote_eq _ _ _ _ Hs Hc).
    destruct (negb (PyStr.nonempty (s3_bucket_of storage_path))
              || negb (PyStr.nonempty (s3_key_of storage_path))); [reflexivity|].
    assert (K : (exists e, get_object (s3 w) (s3_bucket_of storage_path)
                             (s3_key_of storage_path) = Raise e)
                \/ (exists body e,
                     get_object (s3 w) (s3_bucket_of storage_path) (s3_key_of storage_path)
                     = Ok body
                     /\ payload_frame json_loads frame_other body = Raise e)).
    { destruct H as [H|[H|[H|[H|H]]]]; [discriminate| | |now left|now right].
      - left. now apply get_object_unreachable.
      - left. now apply get_object_absent. }
    destruct K as [[e ->]|(body & e & -> & E)]; [reflexivity|].
    cbn [rbind]. now rewrite E.
  - intros Hs H. rewrite (load_local_eq _ _ _ _ Hs).
    destruct H as [->|[[e ->]|(body & e & -> & E)]]; [reflexivity| |].
    + now destruct (negb (os_path_exists (fs w) storage_path)).
    + cbn [rbind]. rewrite E. now destruct (negb (os_path_exists (fs w) storage_path)).
  - intros Hs f. unfold load_data_from_storage. rewrite Hs. reflexivity.
  - intros Hs w' Hfs. rewrite !(load_local_eq _ _ _ _ Hs).
    unfold load_local_body. now rewrite Hfs.
Qed.

(** A world with a file that holds the JSON text of an object of one
    array, [{a: [1, 2]}]: not a list of records. *)
Definition columns_payload : json := JObj [("a", JArr [JInt 1; JInt 2])].

Definition columns_world : world :=
  {| s3_client := false; S3_BUCKET_NAME := None;
     s3 := {| online := false; access_granted := false; buckets := ∅ |};
     fs := {| dirs := {[ "data" ]};
              files := {[ "data/columns.json" := Text (RefJson.dumps columns_payload) ]};
              free := 100 |} |}.

(** C3, as stated, fails for a payload of another shape from which
    [pd.DataFrame] builds a frame: the file parses to an object of one
    array, not to a list of records, and the loader returns a frame of
    two rows, not the empty frame. *)
Lemma load_data_from_storage_other_shape :
  read_file (fs columns_world) "data/columns.json" = Ok (Text (RefJson.dumps columns_payload))
  /\ RefJson.loads (RefJson.dumps columns_payload) = Ok columns_payload
  /\ load_data_from_storage RefJson.loads RefJson.frame_other columns_world
       "data/columns.json"
     = Ok [[("a", JInt 1)]; [("a", JInt 2)]]
  /\ df_empty [[("a", JInt 1)]; [("a", JInt 2)]] = false.
Proof.
  split; [vm_compute; reflexivity|]. split; [vm_compute; reflexivity|].
  split; [vm_compute; reflexivity|]. reflexivity.
Qed.

(** ** Frames of uniform records *)

(** Every record has the same fields, in the same order, none twice: the
    invariant of a collection. *)
Definition uniform (records : list row) : Prop :=
  exists cols, NoDup cols /\ forall r, In r records -> row_keys r = cols.

Lemma mem_str_In k l : mem_str k l = true <-> In k l.
Proof.
  unfold mem_str. rewrite List.existsb_exists. split.
  - intros (x & Hx & E). apply String.eqb_eq in E. now subst.
  - intros H. exists k. split; [exact H|apply String.eqb_refl].
Qed.

Lemma add_new_fresh seen ks : NoDup (seen ++ ks)%list -> add_new seen ks = (seen ++ ks)%list.
Proof.
  revert seen. induction ks as [|k ks IH]; intros seen H; simpl.
  - now rewrite List.app_nil_r.
  - destruct (mem_str k seen) eqn:E.
    + apply mem_str_In in E. apply NoDup_ListNoDup, List.NoDup_remove_2 in H.
      exfalso. apply H. apply List.in_or_app. now left.
    + rewrite IH; rewrite <- List.app_assoc; [reflexivity|exact H].
Qed.

Lemma add_new_seen seen ks : (forall k, In k ks -> In k seen) -> add_new seen ks = seen.
Proof.
  revert seen. induction ks as [|k ks IH]; intros seen H; [reflexivity|].
  simpl. assert (E : mem_str k seen = true) by (apply mem_str_In, H; now left).
  rewrite E. apply IH. intros k' Hk'. apply H. now right.
Qed.

Lemma frame_columns_uniform cols r records :
  NoDup cols -> (forall r', In r' (r :: records) -> row_keys r' = cols) ->
  frame_columns (r :: records) = cols.
Proof.
  intros Hnd H. unfold frame_columns. simpl.
  rewrite (H r (or_introl eq_refl)), (add_new_fresh [] cols Hnd). simpl.
  assert (K : forall r', In r' records -> row_keys r' = cols)
    by (intros r' Hr'; apply H; now right).
  clear H. induction records as [|r' records IH]; [reflexivity|].
  simpl. rewrite (K r' (or_introl eq_refl)), add_new_seen by auto.
  apply IH. intros r'' Hr''. apply K. now right.
Qed.

Lemma align_row_own r : NoDup (row_keys r) -> align_row (row_keys r) r = r.
Proof.
  unfold align_row, row_keys. induction r as [|[k v] r IH]; intros H; [reflexivity|].
  apply NoDup_ListNoDup in H. inversion H as [|? ? Hk Hr]; subst.
  cbn [List.map fst row_get]. rewrite String.eqb_refl. f_equal.
  rewrite <- IH at 2 by now apply NoDup_ListNoDup.
  apply List.map_ext_in. intros c Hc.
  destruct (String.eqb_spec c k) as [->|_]; [contradiction|reflexivity].
Qed.

(** Uniform records need no alignment. *)
Lemma aligned_records_uniform records :
  uniform records -> aligned_records records = records.
Proof.
  intros (cols & Hnd & H). destruct records as [|r records]; [reflexivity|].
  unfold aligned_records. rewrite (frame_columns_uniform cols) by assumption.
  rewrite <- (List.map_id (r :: records)) at 2.
  apply List.map_ext_in. intros r' Hr'. rewrite <- (H r' Hr').
  apply align_row_own. now rewrite (H r' Hr').
Qed.

(** A stored cell and the cell loaded for it: the same value, or NaN for
    a null. *)
Definition same_cell (stored loaded : json) : Prop :=
  loaded = stored \/ (stored = JNull /\ loaded = NaN).

Definition same_row (stored loaded : row) : Prop :=
  List.Forall2 (fun s l => fst l = fst s /\ same_cell (snd s) (snd l)) stored loaded.

(** The loaded frame has the stored records, in their order, with their
    fields and values, a null cell possibly read back as NaN. *)
Definition same_records (stored : list row) (loaded : DataFrame) : Prop :=
  List.Forall2 same_row stored loaded.

(** No cell is a null. *)
Definition null_free (records : list row) : bool :=
  List.forallb (List.forallb (fun kv => negb (is_null (snd kv)))) records.

Lemma convert_row_same rows r : same_row r (convert_row rows r).
Proof.
  unfold same_row, convert_row. induction r as [|[k v] r IH]; cbn [List.map];
    constructor; [|exact IH].
  cbn [fst snd]. split; [reflexivity|]. unfold convert_cell, same_cell.
  destruct (is_null v) eqn:E; cbn [andb]; [|now left].
  destruct (float_column _ || str_column _); [|now left].
  right. destruct v; try discriminate. auto.
Qed.

Lemma convert_row_null_free rows r :
  List.forallb (fun kv => negb (is_null (snd kv))) r = true -> convert_row rows r = r.
Proof.
  unfold convert_row. induction r as [|[k v] r IH]; cbn [List.map List.forallb fst snd];
    [reflexivity|].
  intros H. apply andb_prop in H as [Hv Hr]. rewrite (IH Hr).
  unfold convert_cell. apply negb_true_iff in Hv. now rewrite Hv.
Qed.

Lemma frame_of_records_same records :
  uniform records -> same_records records (frame_of_records records).
Proof.
  intros H. unfold frame_of_records. rewrite (aligned_records_uniform _ H).
  unfold same_records.
  assert (K : forall (f : row -> row) l,
            (forall r, same_row r (f r)) -> List.Forall2 same_row l (List.map f l)).
  { intros f l Hf. induction l as [|r l IH]; cbn [List.map]; constructor; auto. }
  apply K, convert_row_same.
Qed.

(** Building a frame from uniform records without a null changes nothing. *)
Lemma frame_of_records_null_free records :
  uniform records -> null_free records = true -> frame_of_records records = records.
Proof.
  intros H Hn. unfold frame_of_records. rewrite (aligned_records_uniform _ H).
  rewrite <- (List.map_id records) at 3.
  apply List.map_ext_in. intros r Hr. apply convert_row_null_free.
  unfold null_free in Hn. rewrite List.forallb_forall in Hn. now apply Hn.
Qed.

Lemma all_objects_records records : all_objects (List.map JObj records) = Some records.
Proof. induction records as [|r rs IH]; simpl; [reflexivity|]. now rewrite IH. Qed.

Lemma pd_DataFrame_records other records :
  int_mixed records = false ->
  pd_DataFrame other (json_of_records records) = Ok (frame_of_records records).
Proof.
  intros H. unfold pd_DataFrame, json_of_records.
  now rewrite all_objects_records, H.
Qed.

Lemma same_row_keys r r' : same_row r r' -> row_keys r' = row_keys r.
Proof.
  unfold same_row, row_keys. induction 1 as [|s l r r' [E _] _ IH]; [reflexivity|].
  cbn [List.map]. now rewrite E, IH.
Qed.

Lemma same_row_get k r r' :
  same_row r r' ->
  match row_get k r with
  | Some v => exists v', row_get k r' = Some v' /\ same_cell v v'
  | None => row_get k r' = None
  end.
Proof.
  unfold same_row. induction 1 as [|[ks vs] [kl vl] r r' [E C] _ IH]; [reflexivity|].
  cbn [fst snd] in E, C. subst kl. cbn [row_get].
  destruct (String.eqb k ks); [eauto|exact IH].
Qed.

Lemma same_cell_isna v v' : same_cell v v' -> isna v' = isna v.
Proof. intros [->|[-> ->]]; reflexivity. Qed.

Lemma same_cell_int v v' z : same_cell v v' -> v = JInt z -> v' = JInt z.
Proof. intros [->|[-> ->]] E; [exact E|discriminate]. Qed.

(** Rows whose integers stand in the columns [ks], and nowhere else. *)
Definition ints_at (ks : list string) (r : row) : bool :=
  List.forallb (fun kv => Bool.eqb (is_int (snd kv)) (mem_str (fst kv) ks)) r.

Lemma row_get_In k r v : row_get k r = Some v -> In (k, v) r.
Proof.
  induction r as [|[k' v'] r IH]; cbn [row_get]; [discriminate|].
  destruct (String.eqb_spec k k') as [->|_]; [intros [= ->]; now left|].
  intros H. right. auto.
Qed.

Lemma row_get_key k r : In k (row_keys r) -> exists v, row_get k r = Some v.
Proof.
  unfold row_keys. induction r as [|[k' v'] r IH]; cbn [List.map row_get fst]; [intros []|].
  destruct (String.eqb_spec k k') as [->|Hne]; [eauto|].
  intros [E|H]; [congruence|auto].
Qed.

(** In uniform records whose integers stand in fixed columns, no column
    holds an integer beside a float or a null. *)
Lemma int_mixed_ints_at ks records :
  uniform records -> (forall r, In r records -> ints_at ks r = true) ->
  int_mixed records = false.
Proof.
  intros Hu Hk. unfold int_mixed. rewrite (aligned_records_uniform _ Hu).
  destruct Hu as (cols & Hnd & Hcols).
  apply not_true_is_false. intros H. apply List.existsb_exists in H as (c & Hc & H).
  unfold int_mixed_column in H. apply andb_prop in H as [H _].
  apply andb_prop in H as [Hi Ho].
  assert (Hcell : forall r, In r records ->
            exists v, row_get c r = Some v /\ is_int v = mem_str c ks).
  { intros r Hr.
    assert (Hin : In c (row_keys r)).
    { destruct records as [|r0 records0]; [contradiction|].
      rewrite (Hcols r Hr).
      rewrite (frame_columns_uniform cols r0 records0 Hnd Hcols) in Hc. exact Hc. }
    destruct (row_get_key _ _ Hin) as [v Hv]. exists v. split; [exact Hv|].
    specialize (Hk r Hr). unfold ints_at in Hk. rewrite List.forallb_forall in Hk.
    specialize (Hk (c, v) (row_get_In _ _ _ Hv)). cbn [fst snd] in Hk.
    now apply Bool.eqb_prop in Hk. }
  apply List.existsb_exists in Hi as (vi & Hvi & Ei).
  apply List.existsb_exists in Ho as (vo & Hvo & Eo).
  unfold column in Hvi, Hvo.
  apply List.in_map_iff in Hvi as (ri & <- & Hri).
  apply List.in_map_iff in Hvo as (ro & <- & Hro).
  destruct (Hcell ri Hri) as (v1 & E1 & K1). destruct (Hcell ro Hro) as (v2 & E2 & K2).
  rewrite E1 in Ei. rewrite E2 in Eo. rewrite Ei in K1. rewrite <- K1 in K2.
  destruct v2; discriminate.
Qed.

(** The records the two connectors build are uniform. *)
Lemma uniform_github repos : uniform (List.map github_record repos).
Proof.
  exists (row_keys (github_record long_readme_repo)). split.
  - apply NoDup_ListNoDup. repeat constructor; simpl; intuition discriminate.
  - intros r Hr. apply List.in_map_iff in Hr as (repo & <- & _). reflexivity.
Qed.

Lemma uniform_reddit posts : uniform (List.map reddit_record posts).
Proof.
  exists (row_keys (reddit_record rust_post)). split.
  - apply NoDup_ListNoDup. repeat constructor; simpl; intuition discriminate.
  - intros r Hr. apply List.in_map_iff in Hr as (p & <- & _). reflexivity.
Qed.

(** ** Persisting *)

Lemma open_w_ok f p f1 :
  open_w f p = Ok f1 ->
  is_dir f p = false
  /\ f1 = {| dirs := dirs f; files := <[p := Text EmptyString]> (files f); free := free f |}.
Proof.
  unfold open_w. destruct (negb (PyStr.nonempty p)); [discriminate|].
  destruct (is_dir f p); [discriminate|].
  destruct (PyStr.nonempty (PyStrOps.os_path_dirname p)
            && negb (is_dir f (PyStrOps.os_path_dirname p))); [discriminate|].
  intros [= <-]. auto.
Qed.

Lemma read_after_write f p body n :
  is_dir f p = false ->
  read_file {| dirs := dirs f; files := <[p := Text body]> (files f); free := n |} p
  = Ok (Text body)
  /\ os_path_exists
       {| dirs := dirs f; files := <[p := Text body]> (files f); free := n |} p = true.
Proof.
  intros Hd. unfold read_file, os_path_exists, is_dir in *. cbn [dirs files].
  rewrite Hd, lookup_insert_eq. split; [reflexivity|].
  cbn [orb]. apply bool_decide_eq_true. eauto.
Qed.

Section Persisting.

Variable json_dumps : json -> string.

Abbreviation save := (save_data_to_storage json_dumps).

Definition local_path (now : datetime) (source_type query_details : string) : string :=
  PyStrOps.os_path_join DATA_DIR (base_filename now source_type query_details).

Definition payload (data : list row) : string := json_dumps (json_of_records data).

Lemma save_remote_failed w now data t q b e :
  s3_client w = true -> bucket_name w = Some b ->
  put_object (s3 w) b (s3_key now t q) (payload data) = Raise e ->
  save w now data t q = save_local json_dumps w now data t q.
Proof.
  intros Hc Hb Hp. unfold save_data_to_storage, save_remote.
  rewrite Hc, Hb. unfold payload in Hp. rewrite Hp. now destruct e.
Qed.

Lemma local_path_data now t q :
  PyStr.startswith "/" t = false ->
  local_path now t q = "data/" ++ base_filename now t q.
Proof.
  intros H. unfold local_path, PyStrOps.os_path_join, base_filename.
  destruct t as [|c t]; [reflexivity|].
  simpl in *. now rewrite H.
Qed.

Lemma save_local_open_fails w now data t q e :
  open_w (fs w) (local_path now t q) = Raise e ->
  save_local json_dumps w now data t q = (w, None).
Proof. intros H. unfold save_local. fold (local_path now t q). now rewrite H. Qed.

Lemma save_local_written w now data t q f1 :
  open_w (fs w) (local_path now t q) = Ok f1 ->
  String.length (payload data) <= free f1 ->
  exists w',
    save_local json_dumps w now data t q = (w', Some (local_path now t q))
    /\ s3 w' = s3 w /\ s3_client w' = s3_client w /\ S3_BUCKET_NAME w' = S3_BUCKET_NAME w
    /\ read_file (fs w') (local_path now t q) = Ok (Text (payload data))
    /\ os_path_exists (fs w') (local_path now t q) = true.
Proof.
  intros Ho Hfit. unfold save_local. fold (local_path now t q). rewrite Ho.
  apply open_w_ok in Ho as [Hd ->]. unfold write_close. cbn [free dirs files].
  fold (payload data). cbn [free] in Hfit.
  apply Nat.leb_le in Hfit. rewrite Hfit.
  eexists. split; [reflexivity|]. cbn [set_fs s3 s3_client S3_BUCKET_NAME fs].
  rewrite insert_insert_eq.
  destruct (read_after_write (fs w) (local_path now t q) (payload data)
              (free (fs w) - String.length (payload data)) Hd) as [Hr Hx].
  repeat split; auto.
Qed.

Lemma save_local_partial w now data t q f1 :
  open_w (fs w) (local_path now t q) = Ok f1 ->
  free f1 < String.length (payload data) ->
  exists w',
    save_local json_dumps w now data t q = (w', None)
    /\ read_file (fs w') (local_path now t q)
       = Ok (Text (PyStr.take (free f1) (payload data)))
    /\ os_path_exists (fs w') (local_path now t q) = true.
Proof.
  intros Ho Hfit. unfold save_local. fold (local_path now t q). rewrite Ho.
  apply open_w_ok in Ho as [Hd ->]. unfold write_close. cbn [free dirs files].
  fold (payload data). cbn [free] in Hfit.
  apply Nat.leb_gt in Hfit. rewrite Hfit.
  eexists. split; [reflexivity|]. cbn [set_fs fs]. rewrite insert_insert_eq.
  now apply read_after_write.
Qed.

End Persisting.

(** C2, as amended.  With the remote backend configured and its write
    failing, for whatever reason, [persist] goes on to the local tier with
    the same payload.  The path is [data/{filename}] (for a source type
    that does not begin with a slash).  If the file cannot be opened,
    [persist] returns failure and changes nothing.  If it is opened and the
    device takes the payload, [persist] returns the path, and the file
    exists there and reads back as the payload.  If the device does not
    take all of the payload, [persist] returns failure and the file stays
    behind, holding the part that was written. *)
Theorem save_data_to_storage_fallback
    (json_dumps : json -> string) (w : world) (now : datetime) (data : list row)
    (source_type query_details b : string) (e : exn) :
  s3_client w = true ->
  bucket_name w = Some b ->
  put_object (s3 w) b (s3_key now source_type query_details) (payload json_dumps data)
  = Raise e ->
  (PyStr.startswith "/" source_type = false ->
     local_path now source_type query_details
     = "data/" ++ base_filename now source_type query_details)
  /\ (forall e',
       open_w (fs w) (local_path now source_type query_details) = Raise e' ->
       save_data_to_storage json_dumps w now data source_type query_details = (w, None))
  /\ (forall f1,
       open_w (fs w) (local_path now source_type query_details) = Ok f1 ->
       String.length (payload json_dumps data) <= free f1 ->
       exists w',
         save_data_to_storage json_dumps w now data source_type query_details
         = (w', Some (local_path now source_type query_details))
         /\ s3 w' = s3 w
         /\ read_file (fs w') (local_path now source_type query_details)
            = Ok (Text (payload json_dumps data))
         /\ os_path_exists (fs w') (local_path now source_type query_details) = true)
  /\ (forall f1,
       open_w (fs w) (local_path now source_type query_details) = Ok f1 ->
       free f1 < String.length (payload json_dumps data) ->
       exists w',
         save_data_to_storage json_dumps w now data source_type query_details = (w', None)
         /\ read_file (fs w') (local_path now source_type query_details)
            = Ok (Text (PyStr.take (free f1) (payload json_dumps data)))
         /\ os_path_exists (fs w') (local_path now source_type query_details) = true).
Proof.
  intros Hc Hb Hp.
  pose proof (save_remote_failed json_dumps w now data source_type query_details b e
                Hc Hb Hp) as E.
  split; [apply local_path_data|]. split; [|split].
  - intros e' Ho. rewrite E. eapply save_local_open_fails; eassumption.
  - intros f1 Ho Hfit. rewrite E.
    destruct (save_local_written json_dumps w now data source_type query_details f1 Ho Hfit)
      as (w' & H1 & H2 & _ & _ & H3 & H4).
    exists w'. auto.
  - intros f1 Ho Hfit. rewrite E.
    apply (save_local_partial json_dumps w now data source_type query_details f1 Ho Hfit).
Qed.

(** A moment, and a world whose remote backend is configured but
    unreachable, with room for [room] characters on the local device. *)
Definition a_moment : datetime :=
  {| year := 2024; month := 1; day := 2; hour := 3; minute := 4; second := 5 |}.

Definition offline_world (room : nat) : world :=
  {| s3_client := true;
     S3_BUCKET_NAME := Some "insight-bucket";
     s3 := {| online := false; access_granted := true;
              buckets := {[ "insight-bucket" := ∅ ]} |};
     fs := {| dirs := {[ "data"; "/tmp" ]}; files := ∅; free := room |} |}.

Definition example_path : string := "data/github_top_20240102030405.json".

(** The fallback on a concrete world: the remote write fails, the local
    device has room, and the payload is written to [data/]. *)
Lemma save_data_to_storage_fallback_example :
  (PyStr.startswith "/" "github" = false ->
     local_path a_moment "github" "top" = "data/" ++ base_filename a_moment "github" "top")
  /\ (forall e',
       open_w (fs (offline_world 1000)) (local_path a_moment "github" "top") = Raise e' ->
       save_data_to_storage RefJson.dumps (offline_world 1000) a_moment ranking_example
         "github" "top" = (offline_world 1000, None))
  /\ (forall f1,
       open_w (fs (offline_world 1000)) (local_path a_moment "github" "top") = Ok f1 ->
       String.length (payload RefJson.dumps ranking_example) <= free f1 ->
       exists w',
         save_data_to_storage RefJson.dumps (offline_world 1000) a_moment ranking_example
           "github" "top" = (w', Some (local_path a_moment "github" "top"))
         /\ s3 w' = s3 (offline_world 1000)
         /\ read_file (fs w') (local_path a_moment "github" "top")
            = Ok (Text (payload RefJson.dumps ranking_example))
         /\ os_path_exists (fs w') (local_path a_moment "github" "top") = true)
  /\ (forall f1,
       open_w (fs (offline_world 1000)) (local_path a_moment "github" "top") = Ok f1 ->
       free f1 < String.length (payload RefJson.dumps ranking_example) ->
       exists w',
         save_data_to_storage RefJson.dumps (offline_world 1000) a_moment ranking_example
           "github" "top" = (w', None)
         /\ read_file (fs w') (local_path a_moment "github" "top")
            = Ok (Text (PyStr.take (free f1) (payload RefJson.dumps ranking_example)))
         /\ os_path_exists (fs w') (local_path a_moment "github" "top") = true).
Proof.
  apply (save_data_to_storage_fallback RefJson.dumps (offline_world 1000) a_moment
           ranking_example "github" "top" "insight-bucket"
           (OtherError "EndpointConnectionError")); reflexivity.
Defined.

(** C2, as stated, fails where the local write fails after the file was
    opened: with room for 10 characters [persist] returns failure, and the
    file, which did not exist before, now holds the first 10 characters of
    the payload, which is not a JSON document.  And a source type that
    begins with a slash is not written under [data/]. *)
Lemma save_data_to_storage_leaves_partial_file :
  snd (save_data_to_storage RefJson.dumps (offline_world 10) a_moment ranking_example
         "github" "top") = None
  /\ os_path_exists (fs (offline_world 10)) example_path = false
  /\ read_file
       (fs (fst (save_data_to_storage RefJson.dumps (offline_world 10) a_moment
                   ranking_example "github" "top"))) example_path
     = Ok (Text (PyStr.take 10 (payload RefJson.dumps ranking_example)))
  /\ RefJson.loads (PyStr.take 10 (payload RefJson.dumps ranking_example))
     = Raise JSONDecodeError
  /\ snd (save_data_to_storage RefJson.dumps (offline_world 1000) a_moment ranking_example
            "/tmp/github" "top") = Some "/tmp/github_top_20240102030405.json".
Proof. repeat split; vm_compute; reflexivity. Qed.

(** ** Strings: append, replace, split, join *)

Lemma app_cons c (a b : string) : String c a ++ b = String c (a ++ b).
Proof. reflexivity. Qed.

Lemma app_empty (b : string) : EmptyString ++ b = b.
Proof. reflexivity. Qed.

Lemma str_app_assoc (a b c : string) : (a ++ b) ++ c = a ++ (b ++ c).
Proof. induction a as [|x a IH]; [reflexivity|]. rewrite !app_cons. now f_equal. Qed.

Lemma forallb_app p a b :
  PyStr.forallb p (a ++ b) = PyStr.forallb p a && PyStr.forallb p b.
Proof.
  induction a as [|x a IH]; [reflexivity|].
  rewrite app_cons. cbn [PyStr.forallb]. now rewrite IH, andb_assoc.
Qed.

Lemma forallb_impl (p q : ascii -> bool) s :
  (forall c, p c = true -> q c = true) ->
  PyStr.forallb p s = true -> PyStr.forallb q s = true.
Proof.
  intros H. induction s as [|c s IH]; simpl; [reflexivity|].
  intros K. apply andb_prop in K as [Hc Hs]. now rewrite (H c Hc), IH.
Qed.

Lemma nonempty_app_r a b : PyStr.nonempty b = true -> PyStr.nonempty (a ++ b) = true.
Proof. destruct a; [auto|reflexivity]. Qed.

Lemma contains_cons p c s :
  PyStrOps.contains p s = true -> PyStrOps.contains p (String c s) = true.
Proof. intros H. cbn [PyStrOps.contains]. rewrite H. apply orb_true_r. Qed.

Lemma contains_prefix p s :
  PyStr.startswith p s = true -> PyStrOps.contains p s = true.
Proof. intros H. destruct s; cbn [PyStrOps.contains]; now rewrite H. Qed.

Lemma replace_from_skip old new x rest :
  PyStrOps.replace_from old new (String.length x) (x ++ rest)
  = PyStrOps.replace_from old new 0 rest.
Proof.
  induction x as [|c x IH]; [reflexivity|].
  rewrite app_cons. exact IH.
Qed.

(** Where [old] does not occur, [replace] changes nothing. *)
Lemma replace_absent old new s :
  PyStrOps.contains old s = false -> PyStrOps.replace old new s = s.
Proof.
  unfold PyStrOps.replace. induction s as [|c s IH]; [reflexivity|].
  cbn [PyStrOps.contains PyStrOps.replace_from]. intros H.
  apply orb_false_iff in H as [H1 H2]. rewrite H1. now rewrite IH.
Qed.

(** Removing the scheme of a locator that holds it once, in front. *)
Lemma replace_scheme rest :
  PyStrOps.contains "s3://" rest = false ->
  PyStrOps.replace "s3://" EmptyString ("s3://" ++ rest) = rest.
Proof.
  intros H. unfold PyStrOps.replace.
  change (PyStrOps.replace_from "s3://" EmptyString 0 ("s3://" ++ rest))
    with (PyStrOps.replace_from "s3://" EmptyString (String.length "3://") ("3://" ++ rest)).
  rewrite replace_from_skip. now apply replace_absent.
Qed.

Lemma split_nonempty sep s : PyStrOps.split sep s <> [].
Proof.
  destruct s as [|c s]; simpl; [discriminate|].
  destruct (Ascii.eqb c sep); [discriminate|].
  destruct (PyStrOps.split sep s); discriminate.
Qed.

Lemma split_head sep b k :
  PyStr.forallb (fun c => negb (Ascii.eqb c sep)) b = true ->
  PyStrOps.split sep (b ++ String sep k) = b :: PyStrOps.split sep k.
Proof.
  induction b as [|c b IH]; intros H.
  - simpl. now rewrite Ascii.eqb_refl.
  - simpl in H. apply andb_prop in H as [Hc Hb]. apply negb_true_iff in Hc.
    simpl. rewrite Hc, (IH Hb). reflexivity.
Qed.

Lemma concat_cons_char sep c x xs :
  String.concat sep (String c x :: xs) = String c (String.concat sep (x :: xs)).
Proof. destruct xs; reflexivity. Qed.

(** Joining what was split gives the text back. *)
Lemma join_split sep s :
  PyStrOps.join (String sep EmptyString) (PyStrOps.split sep s) = s.
Proof.
  unfold PyStrOps.join. induction s as [|c s IH]; [reflexivity|].
  cbn [PyStrOps.split]. destruct (Ascii.eqb_spec c sep) as [->|_].
  - pose proof (split_nonempty sep s) as Hne.
    destruct (PyStrOps.split sep s) as [|x xs] eqn:E; [congruence|].
    cbn [String.concat]. simpl. now rewrite <- IH.
  - pose proof (split_nonempty sep s) as Hne.
    destruct (PyStrOps.split sep s) as [|x xs] eqn:E; [congruence|].
    rewrite concat_cons_char. now rewrite IH.
Qed.

(** ** Occurrences of the scheme [s3://]

    A five-state scan for ["s3://"]: the state is the length of the longest
    prefix of the scheme that ends at the current position, and 5 once the
    scheme has been seen. *)

Definition s3_step (q : nat) (c : ascii) : nat :=
  let restart := if Ascii.eqb c "s" then 1 else 0 in
  match q with
  | 5 => 5
  | 4 => if Ascii.eqb c "/" then 5 else restart
  | 3 => if Ascii.eqb c "/" then 4 else restart
  | 2 => if Ascii.eqb c ":" then 3 else restart
  | 1 => if Ascii.eqb c "3" then 2 else restart
  | _ => restart
  end.

Fixpoint s3_scan (q : nat) (s : string) : nat :=
  match s with
  | EmptyString => q
  | String c s' => s3_scan (s3_step q c) s'
  end.

(** Neither [':'] nor ['/']. *)
Definition plain (c : ascii) : bool :=
  negb (Ascii.eqb c ":") && negb (Ascii.eqb c "/").

Lemma s3_scan_app q a b : s3_scan q (a ++ b) = s3_scan (s3_scan q a) b.
Proof. revert q. induction a as [|c a IH]; intros q; [reflexivity|]. apply IH. Qed.

Lemma s3_scan_seen s : s3_scan 5 s = 5.
Proof. induction s as [|c s IH]; [reflexivity|]. exact IH. Qed.

Ltac each_state q :=
  destruct q as [|[|[|[|[|[|q]]]]]].

Lemma s3_step_bound q c : q <= 5 -> s3_step q c <= 5.
Proof.
  intros H. each_state q; try lia; unfold s3_step;
    repeat match goal with |- context [Ascii.eqb ?a ?b] => destruct (Ascii.eqb a b) end; lia.
Qed.

Lemma s3_scan_bound q s : q <= 5 -> s3_scan q s <= 5.
Proof.
  revert q. induction s as [|c s IH]; intros q H; [exact H|].
  apply IH, s3_step_bound, H.
Qed.

Lemma s3_scan_prefix q s : PyStr.startswith "s3://" s = true -> s3_scan q s = 5.
Proof.
  intros H.
  destruct s as [|c1 [|c2 [|c3 [|c4 [|c5 r]]]]]; cbn [PyStr.startswith] in H;
    repeat match type of H with
           | (Ascii.eqb ?a ?b && _) = true =>
               let E := fresh in
               apply andb_prop in H as [E H]; apply Ascii.eqb_eq in E; subst
           end; try discriminate.
  each_state q; apply s3_scan_seen.
Qed.

(** The scan is sound: it reports every occurrence. *)
Lemma s3_scan_sound s : PyStrOps.contains "s3://" s = true -> forall q, s3_scan q s = 5.
Proof.
  induction s as [|c s IH]; intros H q.
  - discriminate.
  - cbn [PyStrOps.contains] in H. apply orb_prop in H as [H|H].
    + now apply s3_scan_prefix.
    + apply IH, H.
Qed.

(** The scan is complete: it reports nothing else. *)
Lemma s3_scan_complete s q :
  q < 5 -> s3_scan q s = 5 -> PyStrOps.contains "s3://" (PyStr.take q "s3://" ++ s) = true.
Proof.
  revert q. induction s as [|c s IH]; intros q Hq H.
  - simpl in H. lia.
  - cbn [s3_scan] in H.
    assert (Hb : s3_step q c <= 5) by (apply s3_step_bound; lia).
    destruct (Nat.eq_dec (s3_step q c) 5) as [E|E].
    + (* the scheme is completed by [c] *)
      each_state q; try lia; unfold s3_step in E;
        repeat match type of E with
               | context [Ascii.eqb ?a ?b] => destruct (Ascii.eqb_spec a b); subst
               end; try discriminate.
      apply contains_prefix. reflexivity.
    + specialize (IH (s3_step q c) ltac:(lia) H).
      each_state q; try lia; unfold s3_step in IH;
        repeat match type of IH with
               | context [Ascii.eqb ?a ?b] => destruct (Ascii.eqb_spec a b); subst
               end;
        cbn [PyStr.take append] in *;
        repeat first [exact IH | apply contains_cons].
Qed.

Lemma s3_scan_absent t : PyStrOps.contains "s3://" t = false -> s3_scan 0 t <= 4.
Proof.
  intros H. pose proof (s3_scan_bound 0 t ltac:(lia)) as Hb.
  destruct (Nat.eq_dec (s3_scan 0 t) 5) as [E|E]; [|lia].
  apply (s3_scan_complete t 0 ltac:(lia)) in E.
  change (PyStr.take 0 "s3://" ++ t) with t in E. congruence.
Qed.

Lemma s3_step_plain q c : q <= 2 -> plain c = true -> s3_step q c <= 2.
Proof.
  unfold plain. intros Hq H. apply andb_prop in H as [H1 H2].
  apply negb_true_iff in H1, H2.
  destruct q as [|[|[|q]]]; try lia; unfold s3_step; rewrite ?H1, ?H2;
    repeat match goal with |- context [Ascii.eqb ?a ?b] => destruct (Ascii.eqb a b) end; lia.
Qed.

Lemma s3_scan_plain q s : q <= 2 -> PyStr.forallb plain s = true -> s3_scan q s <= 2.
Proof.
  revert q. induction s as [|c s IH]; intros q Hq H; [exact Hq|].
  simpl in H. apply andb_prop in H as [Hc Hs].
  apply IH; [now apply s3_step_plain|exact Hs].
Qed.

Lemma s3_step_slash q : q <= 2 -> s3_step q "/" = 0.
Proof. intros H. destruct q as [|[|[|q]]]; [reflexivity..|lia]. Qed.

Lemma s3_step_underscore q : q <= 4 -> s3_step q "_" = 0.
Proof. intros H. each_state q; try reflexivity; lia. Qed.

Lemma s3_scan_data q rest : q <= 4 -> s3_scan q ("_data/" ++ rest) = s3_scan 0 rest.
Proof. intros H. each_state q; try reflexivity; lia. Qed.

(** A locator built from a plain container name, a source type without
    the scheme and a plain tail holds the scheme nowhere. *)
Lemma locator_rest_has_no_scheme b t tail :
  PyStr.forallb plain b = true ->
  PyStrOps.contains "s3://" t = false ->
  PyStr.forallb plain tail = true ->
  PyStrOps.contains "s3://" (b ++ "/" ++ (t ++ "_data/") ++ t ++ "_" ++ tail) = false.
Proof.
  intros Hb Ht Htail.
  match goal with |- ?x = false => destruct x eqn:E end; [|reflexivity].
  exfalso. pose proof (s3_scan_sound _ E 0) as K.
  rewrite str_app_assoc in K.
  rewrite s3_scan_app in K. rewrite app_cons, app_empty in K. cbn [s3_scan] in K.
  rewrite s3_step_slash in K by (apply s3_scan_plain; [lia|assumption]).
  rewrite s3_scan_app, s3_scan_data in K by (apply s3_scan_absent; assumption).
  rewrite s3_scan_app in K. rewrite app_cons, app_empty in K. cbn [s3_scan] in K.
  rewrite s3_step_underscore in K by (apply s3_scan_absent; assumption).
  pose proof (s3_scan_plain 0 tail ltac:(lia) Htail). lia.
Qed.

Lemma digit_plain c : PyChar.is_digit c = true -> plain c = true.
Proof. each_char c; vm_compute; congruence. Qed.

Lemma key_char_plain c : key_char c = true -> plain c = true.
Proof. each_char c; vm_compute; congruence. Qed.

Lemma bucket_char_plain c : bucket_char c = true -> plain c = true.
Proof. each_char c; vm_compute; congruence. Qed.

Lemma plain_not_slash c : plain c = true -> negb (Ascii.eqb c "/") = true.
Proof. unfold plain. intros H. now apply andb_prop in H as [_ H]. Qed.

Lemma uint_digits u : PyStr.forallb PyChar.is_digit (NilEmpty.string_of_uint u) = true.
Proof. induction u; simpl; auto. Qed.

Lemma decimal_digits n : PyStr.forallb PyChar.is_digit (decimal n) = true.
Proof. apply uint_digits. Qed.

Lemma pad2_digits n : PyStr.forallb PyChar.is_digit (pad2 n) = true.
Proof.
  unfold pad2. destruct (n <? 10)%nat; [|apply decimal_digits].
  cbn [PyStr.forallb]. now rewrite decimal_digits.
Qed.

(** The time stamp consists of digits. *)
Lemma strftime_digits now : PyStr.forallb PyChar.is_digit (strftime_compact now) = true.
Proof.
  unfold strftime_compact.
  now rewrite !forallb_app, decimal_digits, !pad2_digits.
Qed.

Definition key_tail (now : datetime) (query_details : string) : string :=
  sanitize_for_filename query_details ++ "_" ++ strftime_compact now ++ ".json".

Lemma key_tail_plain now q : PyStr.forallb plain (key_tail now q) = true.
Proof.
  unfold key_tail. rewrite !forallb_app.
  rewrite (forallb_impl _ _ _ key_char_plain (sanitize_chars q)).
  rewrite (forallb_impl _ _ _ digit_plain (strftime_digits now)).
  reflexivity.
Qed.

Lemma s3_key_shape now t q :
  s3_key now t q = (t ++ "_data/") ++ t ++ "_" ++ key_tail now q.
Proof. reflexivity. Qed.

Lemma valid_bucket_plain b : valid_bucket_name b = true -> PyStr.forallb plain b = true.
Proof.
  unfold valid_bucket_name. intros H. apply andb_prop in H as [_ H].
  revert H. apply forallb_impl, bucket_char_plain.
Qed.

Lemma valid_bucket_nonempty b : valid_bucket_name b = true -> PyStr.nonempty b = true.
Proof.
  unfold valid_bucket_name. intros H. apply andb_prop in H as [H _].
  now apply andb_prop in H as [H _].
Qed.

(** The loader recovers the container and the key of a remote locator
    that [persist] built. *)
Lemma parse_remote_locator b now t q :
  valid_bucket_name b = true ->
  PyStrOps.contains "s3://" t = false ->
  s3_bucket_of ("s3://" ++ b ++ "/" ++ s3_key now t q) = b
  /\ s3_key_of ("s3://" ++ b ++ "/" ++ s3_key now t q) = s3_key now t q.
Proof.
  intros Hb Ht. unfold s3_bucket_of, s3_key_of.
  rewrite replace_scheme.
  2:{ rewrite s3_key_shape. apply locator_rest_has_no_scheme;
        auto using valid_bucket_plain, key_tail_plain. }
  rewrite app_cons, app_empty, split_head.
  2:{ eapply forallb_impl; [|apply valid_bucket_plain, Hb].
      intros c Hc. now apply plain_not_slash. }
  split; [reflexivity|]. cbn [List.tl]. apply (join_split "/").
Qed.

Lemma put_then_get r b k body r' :
  put_object r b k body = Ok r' ->
  valid_bucket_name b = true /\ get_object r' b k = Ok (Text body).
Proof.
  unfold put_object. destruct (valid_bucket_name b) eqn:Hv; [|discriminate].
  destruct (online r) eqn:Ho; [|discriminate]. cbn [negb].
  destruct (buckets r !! b) as [objs|] eqn:Hb; [|discriminate].
  destruct (access_granted r) eqn:Ha; [|discriminate]. cbn [negb].
  intros [= <-]. split; [reflexivity|].
  unfold get_object. rewrite Hv. cbn [negb online access_granted buckets].
  now rewrite !lookup_insert_eq.
Qed.

Lemma local_path_not_remote now t q :
  PyStr.startswith "s3://" (local_path now t q) = false.
Proof.
  unfold local_path, PyStrOps.os_path_join.
  destruct (base_filename now t q) as [|c s]; [reflexivity|].
  cbn [PyStr.startswith]. destruct (Ascii.eqb_spec "/" c) as [<-|_]; reflexivity.
Qed.

(** The round trip of the storage backend: what is loaded is the frame
    that the constructor builds from the records stored. *)
Lemma saved_then_loaded
    (json_dumps : json -> string) (json_loads : string -> result json)
    (frame_other : json -> result DataFrame)
    (w : world) (now : datetime) (records : list row)
    (source_type query_details : string) (w' : world) (location : string) :
  int_mixed records = false ->
  json_loads (json_dumps (json_of_records records)) = Ok (json_of_records records) ->
  PyStrOps.contains "s3://" source_type = false ->
  save_data_to_storage json_dumps w now records source_type query_details
  = (w', Some location) ->
  load_data_from_storage json_loads frame_other w' location
  = Ok (frame_of_records records).
Proof.
  intros Hmix Hcodec Ht Hsave.
  assert (Hframe : payload_frame json_loads frame_other
                     (Text (payload json_dumps records)) = Ok (frame_of_records records)).
  { unfold payload_frame, payload. cbn [decode_utf8 rbind]. rewrite Hcodec.
    cbn [rbind]. now apply pd_DataFrame_records. }
  unfold save_data_to_storage in Hsave.
  destruct (save_remote json_dumps w now records source_type query_details)
    as [[w1 uri]|] eqn:Hr.
  - (* the remote tier took the payload *)
    injection Hsave as <- <-. unfold save_remote in Hr.
    destruct (s3_client w) eqn:Hc; [|discriminate].
    destruct (bucket_name w) as [b|] eqn:Hb; [|discriminate].
    destruct (put_object _ _ _ _) as [r'|e] eqn:Hp; [|destruct e; discriminate].
    injection Hr as <- <-.
    apply put_then_get in Hp as [Hv Hg].
    destruct (parse_remote_locator b now source_type query_details Hv Ht) as [Eb Ek].
    rewrite load_remote_eq.
    + rewrite Eb, Ek, (valid_bucket_nonempty _ Hv).
      rewrite s3_key_shape at 1. rewrite str_app_assoc, nonempty_app_r by reflexivity.
      cbn [negb orb set_s3 s3]. rewrite Hg. cbn [rbind].
      fold (payload json_dumps records). now rewrite Hframe.
    + reflexivity.
    + unfold configured, bucket_name in *. cbn [set_s3 s3_client S3_BUCKET_NAME].
      rewrite Hc. cbn [andb]. apply bool_decide_eq_true.
      destruct (S3_BUCKET_NAME w) as [n|]; [|discriminate].
      destruct (PyStr.nonempty n); [eauto|discriminate].
  - (* the local tier took it *)
    fold (local_path now source_type query_details) in *.
    unfold save_local in Hsave. fold (local_path now source_type query_details) in Hsave.
    destruct (open_w (fs w) (local_path now source_type query_details)) as [f1|e] eqn:Ho;
      [|discriminate].
    destruct (Nat.le_gt_cases (String.length (payload json_dumps records)) (free f1))
      as [Hfit|Hfit].
    + destruct (save_local_written json_dumps w now records source_type query_details
                  f1 Ho Hfit) as (w2 & E & _ & _ & _ & Hread & Hex).
      unfold save_local in E. fold (local_path now source_type query_details) in E.
      rewrite Ho in E. rewrite E in Hsave. injection Hsave as <- <-.
      rewrite load_local_eq by apply local_path_not_remote.
      rewrite Hex, Hread. cbn [negb rbind]. now rewrite Hframe.
    + destruct (save_local_partial json_dumps w now records source_type query_details
                  f1 Ho Hfit) as (w2 & E & _).
      unfold save_local in E. fold (local_path now source_type query_details) in E.
      rewrite Ho in E. rewrite E in Hsave. discriminate.
Qed.


(** C1, as amended.  Let [persist] return a Location for a collection of
    uniform records, in no column of which an integer stands beside a
    float or a null, under a source type in which [s3://] does not occur;
    let the JSON text of the collection parse back to it.  Then loading
    that Location in the state [persist] left yields the records, with
    their fields and values, in their order, except that a null cell may
    be read back as NaN (it is, in a column of floats or of strings); a
    collection without a null cell is read back as it is.  This holds for
    both tiers. *)
Theorem load_after_save
    (json_dumps : json -> string) (json_loads : string -> result json)
    (frame_other : json -> result DataFrame)
    (w : world) (now : datetime) (records : list row)
    (source_type query_details : string) (w' : world) (location : string) :
  uniform records ->
  int_mixed records = false ->
  json_loads (json_dumps (json_of_records records)) = Ok (json_of_records records) ->
  PyStrOps.contains "s3://" source_type = false ->
  save_data_to_storage json_dumps w now records source_type query_details
  = (w', Some location) ->
  exists df,
    load_data_from_storage json_loads frame_other w' location = Ok df
    /\ same_records records df
    /\ (null_free records = true -> df = records).
Proof.
  intros Hu Hmix Hcodec Ht Hsave. exists (frame_of_records records).
  split; [eapply saved_then_loaded; eassumption|].
  split; [now apply frame_of_records_same|].
  intros Hn. now apply frame_of_records_null_free.
Qed.

(** A world whose remote backend is configured and reachable. *)
Definition online_world : world :=
  {| s3_client := true;
     S3_BUCKET_NAME := Some "insight-bucket";
     s3 := {| online := true; access_granted := true;
              buckets := {[ "insight-bucket" := ∅ ]} |};
     fs := {| dirs := {[ "data" ]}; files := ∅; free := 1000 |} |}.

Lemma uniform_ranking_example : uniform ranking_example.
Proof.
  exists ["name"; "stars"]. split.
  - apply NoDup_ListNoDup. repeat constructor; simpl; intuition discriminate.
  - intros r [<-|[<-|[<-|[]]]]; reflexivity.
Qed.

(** The round trip through the remote tier on a concrete world. *)
Lemma load_after_save_example :
  exists df,
    load_data_from_storage RefJson.loads RefJson.frame_other
      (fst (save_data_to_storage RefJson.dumps online_world a_moment ranking_example
              "github" "top"))
      "s3://insight-bucket/github_data/github_top_20240102030405.json"
    = Ok df
    /\ same_records ranking_example df
    /\ (null_free ranking_example = true -> df = ranking_example).
Proof.
  apply (load_after_save RefJson.dumps RefJson.loads RefJson.frame_other
           online_world a_moment ranking_example "github" "top").
  - exact uniform_ranking_example.
  - reflexivity.
  - vm_compute. reflexivity.
  - reflexivity.
  - vm_compute. reflexivity.
Defined.

(** A collection with a missing description: the null is read back as NaN. *)
Definition described (name : string) (description : json) : row :=
  [("name", JStr name); ("description", description)].

Lemma load_after_save_null_as_nan :
  load_data_from_storage RefJson.loads RefJson.frame_other
    (fst (save_data_to_storage RefJson.dumps online_world a_moment
            [described "A" (JStr "first"); described "B" JNull] "github" "top"))
    "s3://insight-bucket/github_data/github_top_20240102030405.json"
  = Ok [described "A" (JStr "first"); described "B" NaN].
Proof. vm_compute. reflexivity. Qed.

(** C1, as stated, fails for a source type that holds the scheme: the
    loader removes every [s3://] from the locator, not only the leading
    one, so it asks for a key under which nothing was stored and returns
    the empty frame. *)
Lemma load_after_save_scheme_in_source_type :
  snd (save_data_to_storage RefJson.dumps online_world a_moment ranking_example
         "s3://x" "top")
  = Some "s3://insight-bucket/s3://x_data/s3://x_top_20240102030405.json"
  /\ s3_key_of "s3://insight-bucket/s3://x_data/s3://x_top_20240102030405.json"
     = "x_data/x_top_20240102030405.json"
  /\ load_data_from_storage RefJson.loads RefJson.frame_other
       (fst (save_data_to_storage RefJson.dumps online_world a_moment ranking_example
               "s3://x" "top"))
       "s3://insight-bucket/s3://x_data/s3://x_top_20240102030405.json"
     = Ok empty_frame
  /\ empty_frame <> ranking_example.
Proof.
  split; [vm_compute; reflexivity|]. split; [vm_compute; reflexivity|].
  split; [vm_compute; reflexivity|]. discriminate.
Qed.

(** * The connectors and the command line *)

(** ** Fetching ([fetch_github_data], [fetch_reddit_data]) *)

(** What iterating over a search result does: it yields items and then
    ends, or raises.  [Raised] also stands for a failure in the body of the
    loop before the record of the next item is appended (reading one of
    its fields raised): either way the loop is left through [except] with
    the records appended so far. *)
Inductive stream (A : Type) : Type :=
| Done
| Raised (e : exn)
| Next (a : A) (rest : stream A).
Arguments Done {A}.
Arguments Raised {A} e.
Arguments Next {A} a rest.

(** The items a stream yields before it ends or raises. *)
Fixpoint yielded {A} (s : stream A) : list A :=
  match s with
  | Done | Raised _ => []
  | Next a rest => a :: yielded rest
  end.

Fixpoint stream_of {A} (l : list A) (ending : option exn) : stream A :=
  match l with
  | [] => match ending with Some e => Raised e | None => Done end
  | a :: l' => Next a (stream_of l' ending)
  end.

(** [g.search_repositories(query=query, sort="stars", order="desc")], as
    what iterating over it does. *)
Definition github_client : Type := string -> stream repo_item.

(** [reddit.subreddit(name).search(query, limit=..., sort=...,
    time_filter=...)], likewise. *)
Definition reddit_client : Type :=
  string -> string -> Z -> string -> string -> stream submission.

(** The [for i, repo in enumerate(repositories)] loop: the records
    appended, and the exception that ended the loop, if one did. *)
Fixpoint github_loop (limit : Z) (i : nat) (repositories : stream repo_item)
    (repos_data : list row) : list row * option exn :=
  match repositories with
  | Done => (repos_data, None)
  | Raised e => (repos_data, Some e)
  | Next repo rest =>
      if (limit <=? Z.of_nat i)%Z then (repos_data, None)        (* [break] *)
      else github_loop limit (S i) rest (repos_data ++ [github_record repo])%list
  end.

(** The [for submission in subreddit.search(...)] loop. *)
Fixpoint reddit_loop (submissions : stream submission) (posts_data : list row)
    : list row * option exn :=
  match submissions with
  | Done => (posts_data, None)
  | Raised e => (posts_data, Some e)
  | Next p rest => reddit_loop rest (posts_data ++ [reddit_record p])%list
  end.

Definition is_nil {A} (l : list A) : bool :=
  match l with
  | [] => true
  | _ => false
  end.

Section Fetching.

Variable json_dumps : json -> string.

Definition fetch_github_data (g : option github_client) (w : world) (now : datetime)
    (query : string) (limit : Z) : world * option string :=
  match g with
  | None => (w, None)
  | Some search =>
      let '(repos_data, raised) := github_loop limit 0 (search query) [] in
      match raised with
      | Some _ =>
          (* both [except] branches: [if not repos_data: return None] *)
          if is_nil repos_data then (w, None)
          else if is_nil repos_data then (w, None)
          else save_data_to_storage json_dumps w now repos_data "github" query
      | None =>
          if is_nil repos_data then (w, None)
          else save_data_to_storage json_dumps w now repos_data "github" query
      end
  end.

Definition fetch_reddit_data (reddit : option reddit_client) (w : world) (now : datetime)
    (subreddit_name query : string) (limit : Z) (sort_type time_filter : string)
    : world * option string :=
  match reddit with
  | None => (w, None)
  | Some search =>
      let '(posts_data, raised) :=
        reddit_loop (search subreddit_name query limit sort_type time_filter) [] in
      match raised with
      | Some _ =>
          if is_nil posts_data then (w, None)
          else if is_nil posts_data then (w, None)
          else save_data_to_storage json_dumps w now posts_data "reddit"
                 (subreddit_name ++ "_" ++ query)
      | None =>
          if is_nil posts_data then (w, None)
          else save_data_to_storage json_dumps w now posts_data "reddit"
                 (subreddit_name ++ "_" ++ query)
      end
  end.

End Fetching.

(** ** The command line ([main]) *)

(** [c.isdigit()] on code points below 256: the ASCII digits and the
    superscripts U+00B2, U+00B3, U+00B9. *)
Definition char_isdigit (c : ascii) : bool :=
  PyChar.is_digit c || PyChar.between 178 179 c || (PyChar.code c =? 185)%N.

(** The superscripts two, three and one (U+00B2, U+00B3, U+00B9). *)
Definition superscript_digit (c : ascii) : bool :=
  PyChar.between 178 179 c || (PyChar.code c =? 185)%N.

(** [s.isdigit()]: false for the empty string. *)
Definition py_isdigit (s : string) : bool :=
  PyStr.nonempty s && PyStr.forallb char_isdigit s.

Fixpoint decimal_value (acc : Z) (s : string) : Z :=
  match s with
  | EmptyString => acc
  | String c s' => decimal_value (10 * acc + Z.of_N (PyChar.code c - 48)) s'
  end.

Definition INT_MAX_STR_DIGITS : nat := 4300.

(** [int(s)] for an [s] of code points below 256 with [s.isdigit()]: the
    superscripts are digits to [isdigit] but not to [int], which raises;
    so it does (CPython 3.11 and later, by default) on more than 4300
    digits.  The decimal digits of other scripts, which [int] reads as
    well, lie above U+00FF and are not characters of these strings. *)
Definition py_int (s : string) : result Z :=
  if PyStr.forallb PyChar.is_digit s then
    if (INT_MAX_STR_DIGITS <? String.length s)%nat then Raise ValueError
    else Ok (decimal_value 0 s)
  else Raise ValueError.

(** [int(arg) if arg is given and arg.isdigit() else default] *)
Definition number_or (arg : option string) (default : Z) : result Z :=
  match arg with
  | Some s => if py_isdigit s then py_int s else Ok default
  | None => Ok default
  end.

Definition arg_or (arg : option string) (default : string) : string :=
  match arg with
  | Some s => s
  | None => default
  end.

(** ['github' if 'github' in path.lower() else 'reddit' if 'reddit' in
    path.lower() else 'unknown'] *)
Definition infer_source_type (storage_path : string) : string :=
  if PyStrOps.contains "github" (PyStr.lower storage_path) then "github"
  else if PyStrOps.contains "reddit" (PyStr.lower storage_path) then "reddit"
  else "unknown".

(** The module's client handles. *)
Record services : Type := {
  g : option github_client;
  reddit : option reddit_client;
  qa_pipeline : option capability
}.

(** What one run of [main] did, apart from what it printed. *)
Inductive outcome : Type :=
| ShowedUsage                                   (* a usage or rejection message only *)
| FetchFinished (storage_path : option string)
| Analysed (a : analysis)
| NothingLoaded                                 (* "Failed to load data ... or data is empty." *)
| Asked (o : ask_outcome)
| IndexOutOfBounds (entry_index : Z) (rows : nat).

Section Main.

Variable json_dumps : json -> string.
Variable json_loads : string -> result json.
Variable frame_other : json -> result DataFrame.
Variable sort_values_desc : list (row * nat) -> list (row * nat).
Variable re_count_other : string -> string -> result nat.

(** The [fetch] branch, [args] being [sys.argv[1:]]. *)
Definition main_fetch (sv : services) (w : world) (now : datetime) (args : list string)
    : world * result outcome :=
  match args with
  | _ :: source :: query_or_subreddit :: rest =>
      if String.eqb (PyStr.lower source) "github" then
        match number_or (List.nth_error args 3) 10 with
        | Raise e => (w, Raise e)
        | Ok limit =>
            let '(w', storage_path) :=
              fetch_github_data json_dumps (g sv) w now query_or_subreddit limit in
            (w', Ok (FetchFinished storage_path))
        end
      else if String.eqb (PyStr.lower source) "reddit" then
        match rest with
        | [] => (w, Ok ShowedUsage)
        | query :: _ =>
            match number_or (List.nth_error args 4) 10 with
            | Raise e => (w, Raise e)
            | Ok limit =>
                let sort_type := arg_or (List.nth_error args 5) "relevance" in
                let time_filter := arg_or (List.nth_error args 6) "all" in
                let '(w', storage_path) :=
                  fetch_reddit_data json_dumps (reddit sv) w now query_or_subreddit query
                    limit sort_type time_filter in
                (w', Ok (FetchFinished storage_path))
            end
        end
      else (w, Ok ShowedUsage)
  | _ => (w, Ok ShowedUsage)
  end.

(** The [analyze] branch. *)
Definition main_analyze (w : world) (args : list string) : result outcome :=
  match args with
  | _ :: storage_path :: rest =>
      let library_name := List.nth_error args 2 in
      let! df := load_data_from_storage json_loads frame_other w storage_path in
      if negb (df_empty df) then
        let! a := analyze_data sort_values_desc re_count_other df
                    (infer_source_type storage_path) library_name in
        Ok (Analysed a)
      else Ok NothingLoaded
  | _ => Ok ShowedUsage
  end.

(** The [ask] branch. *)
Definition main_ask (sv : services) (w : world) (args : list string) : result outcome :=
  match args with
  | _ :: question :: storage_path :: _ =>
      let! entry_index := number_or (List.nth_error args 3) 0 in
      let! df := load_data_from_storage json_loads frame_other w storage_path in
      if negb (df_empty df) then
        if (0 <=? entry_index)%Z && (entry_index <? Z.of_nat (List.length df))%Z then
          match List.nth_error df (Z.to_nat entry_index) with
          | Some entry =>
              let! o := ask_entry (qa_pipeline sv) question entry in
              Ok (Asked o)
          | None => Raise (OtherError "IndexError")
          end
        else Ok (IndexOutOfBounds entry_index (List.length df))
      else Ok NothingLoaded
  | _ => Ok ShowedUsage
  end.

Definition main (sv : services) (w : world) (now : datetime) (args : list string)
    : world * result outcome :=
  match args with
  | [] => (w, Ok ShowedUsage)
  | command :: _ =>
      if String.eqb (PyStr.lower command) "fetch" then main_fetch sv w now args
      else if String.eqb (PyStr.lower command) "analyze" then (w, main_analyze w args)
      else if String.eqb (PyStr.lower command) "ask" then (w, main_ask sv w args)
      else (w, Ok ShowedUsage)
  end.

End Main.

(** ** [main.py]'s loader *)

(** [load_data_from_file] of [main.py]: the same steps as the local branch
    of [agent.py]'s loader, without the [try]. *)
Definition mainpy_load_data_from_file (json_loads : string -> result json)
    (frame_other : json -> result DataFrame) (w : world) (file_path : string)
    : result DataFrame :=
  if negb (os_path_exists (fs w) file_path) then Ok empty_frame
  else
    let! body := read_file (fs w) file_path in
    let! content := decode_utf8 body in
    let! data := json_loads content in
    pd_DataFrame frame_other data.

(** ** Properties of the connectors *)

Lemma is_nil_app_cons {A} (l : list A) x : is_nil (l ++ [x])%list = false.
Proof. destruct l; reflexivity. Qed.

Lemma github_loop_records limit s : forall i acc,
  fst (github_loop limit i s acc)
  = (acc ++ List.map github_record
              (List.firstn (Z.to_nat (limit - Z.of_nat i)) (yielded s)))%list.
Proof.
  induction s as [|e|repo rest IH]; intros i acc; cbn [github_loop yielded].
  - now rewrite List.firstn_nil, List.app_nil_r.
  - now rewrite List.firstn_nil, List.app_nil_r.
  - destruct (limit <=? Z.of_nat i)%Z eqn:E.
    + apply Z.leb_le in E.
      replace (Z.to_nat (limit - Z.of_nat i)) with 0 by lia.
      cbn. now rewrite List.app_nil_r.
    + apply Z.leb_gt in E. rewrite IH.
      replace (Z.to_nat (limit - Z.of_nat i))
        with (S (Z.to_nat (limit - Z.of_nat (S i)))) by lia.
      cbn [List.firstn List.map]. now rewrite <- List.app_assoc.
Qed.

Lemma reddit_loop_records s : forall acc,
  fst (reddit_loop s acc) = (acc ++ List.map reddit_record (yielded s))%list.
Proof.
  induction s as [|e|p rest IH]; intros acc; cbn [reddit_loop yielded].
  - now rewrite List.app_nil_r.
  - now rewrite List.app_nil_r.
  - rewrite IH. cbn [List.map]. now rewrite <- List.app_assoc.
Qed.

(** The records [fetch_github_data] collects: those of the first [limit]
    repositories the search yields before it ends or raises. *)
Definition collected_repos (search : github_client) (query : string) (limit : Z)
    : list row :=
  List.map github_record (List.firstn (Z.to_nat limit) (yielded (search query))).

Definition collected_posts (search : reddit_client) (subreddit_name query : string)
    (limit : Z) (sort_type time_filter : string) : list row :=
  List.map reddit_record (yielded (search subreddit_name query limit sort_type time_filter)).

Lemma fetch_github_data_eq json_dumps search w now query limit :
  fetch_github_data json_dumps (Some search) w now query limit
  = (if is_nil (collected_repos search query limit) then (w, None)
     else save_data_to_storage json_dumps w now (collected_repos search query limit)
            "github" query).
Proof.
  unfold fetch_github_data, collected_repos.
  pose proof (github_loop_records limit (search query) 0 []) as H.
  destruct (github_loop limit 0 (search query) []) as [repos_data raised].
  cbn [fst] in H. rewrite Z.sub_0_r in H. cbn [List.app] in H. subst repos_data.
  destruct raised; destruct (is_nil _); reflexivity.
Qed.

Lemma fetch_reddit_data_eq json_dumps search w now sub query limit st tf :
  fetch_reddit_data json_dumps (Some search) w now sub query limit st tf
  = (if is_nil (collected_posts search sub query limit st tf) then (w, None)
     else save_data_to_storage json_dumps w now
            (collected_posts search sub query limit st tf) "reddit" (sub ++ "_" ++ query)).
Proof.
  unfold fetch_reddit_data, collected_posts.
  pose proof (reddit_loop_records (search sub query limit st tf) []) as H.
  destruct (reddit_loop _ []) as [posts_data raised].
  cbn [fst List.app] in H. subst posts_data.
  destruct raised; destruct (is_nil _); reflexivity.
Qed.

(** X3.  [fetch_github_data] without a client returns [None] and touches
    nothing.  With a client it collects the records of the first [limit]
    repositories that the search yields before it ends or raises, in the
    order of the search; a README that cannot be fetched leaves its record
    in the batch, and a search that fails midway keeps what was collected.
    If nothing was collected it returns [None] and touches nothing;
    otherwise it persists exactly those records, as source type [github],
    under the query as label. *)
Theorem fetch_github_data_persists_prefix
    (json_dumps : json -> string) (search : github_client) (w : world) (now : datetime)
    (query : string) (limit : Z) :
  fetch_github_data json_dumps None w now query limit = (w, None)
  /\ fetch_github_data json_dumps (Some search) w now query limit
     = (if is_nil (collected_repos search query limit) then (w, None)
        else save_data_to_storage json_dumps w now (collected_repos search query limit)
               "github" query)
  /\ List.length (collected_repos search query limit) <= Z.to_nat limit.
Proof.
  split; [reflexivity|]. split.
  - apply fetch_github_data_eq.
  - unfold collected_repos. rewrite List.length_map, List.length_firstn. lia.
Qed.

(** X4.  [fetch_reddit_data] without a client returns [None] and touches
    nothing.  With a client it collects a record for every submission the
    search yields before it ends or raises (the limit is left to the
    search); if there is none it returns [None] and touches nothing,
    otherwise it persists exactly those records, as source type [reddit],
    under the label [{subreddit}_{query}]. *)
Theorem fetch_reddit_data_persists_yielded
    (json_dumps : json -> string) (search : reddit_client) (w : world) (now : datetime)
    (subreddit_name query : string) (limit : Z) (sort_type time_filter : string) :
  fetch_reddit_data json_dumps None w now subreddit_name query limit sort_type time_filter
  = (w, None)
  /\ fetch_reddit_data json_dumps (Some search) w now subreddit_name query limit
       sort_type time_filter
     = (if is_nil (collected_posts search subreddit_name query limit sort_type time_filter)
        then (w, None)
        else save_data_to_storage json_dumps w now
               (collected_posts search subreddit_name query limit sort_type time_filter)
               "reddit" (subreddit_name ++ "_" ++ query)).
Proof.
  split; [reflexivity|apply fetch_reddit_data_eq].
Qed.

Lemma fetch_github_saved json_dumps search w now query limit w' loc :
  fetch_github_data json_dumps (Some search) w now query limit = (w', Some loc) ->
  collected_repos search query limit <> []
  /\ save_data_to_storage json_dumps w now (collected_repos search query limit)
       "github" query = (w', Some loc).
Proof.
  intros H.
  rewrite fetch_github_data_eq in H.
  destruct (collected_repos search query limit); [discriminate|]. now split.
Qed.

Lemma fetch_reddit_saved json_dumps search w now sub query limit st tf w' loc :
  fetch_reddit_data json_dumps (Some search) w now sub query limit st tf = (w', Some loc) ->
  collected_posts search sub query limit st tf <> []
  /\ save_data_to_storage json_dumps w now (collected_posts search sub query limit st tf)
       "reddit" (sub ++ "_" ++ query) = (w', Some loc).
Proof.
  intros H.
  rewrite fetch_reddit_data_eq in H.
  destruct (collected_posts search sub query limit st tf); [discriminate|]. now split.
Qed.

Lemma no_scheme_in_github : PyStrOps.contains "s3://" "github" = false.
Proof. reflexivity. Qed.

Lemma no_scheme_in_reddit : PyStrOps.contains "s3://" "reddit" = false.
Proof. reflexivity. Qed.

(** Loading [loc] gives back [records]: a frame with these records, in
    their order, with their fields and values, a null cell possibly read
    back as NaN. *)
Definition loads_as (json_loads : string -> result json)
    (frame_other : json -> result DataFrame) (w : world) (loc : string)
    (records : list row) : Prop :=
  exists df,
    load_data_from_storage json_loads frame_other w loc = Ok df /\ same_records records df.

Lemma saved_loads_as json_dumps json_loads frame_other w now records source_type
    query_details w' location :
  uniform records ->
  int_mixed records = false ->
  json_loads (json_dumps (json_of_records records)) = Ok (json_of_records records) ->
  PyStrOps.contains "s3://" source_type = false ->
  save_data_to_storage json_dumps w now records source_type query_details
  = (w', Some location) ->
  loads_as json_loads frame_other w' location records.
Proof.
  intros Hu Hmix Hcodec Ht Hsave. exists (frame_of_records records). split.
  - eapply saved_then_loaded; eassumption.
  - now apply frame_of_records_same.
Qed.

Lemma github_ints_at repo : ints_at ["id"; "stars"; "forks"] (github_record repo) = true.
Proof.
  unfold ints_at, github_record.
  destruct (repo_description repo), (repo_language repo), (created_at repo),
    (updated_at repo); reflexivity.
Qed.

Lemma reddit_ints_at p :
  ints_at ["score"; "num_comments_total"] (reddit_record p) = true.
Proof.
  unfold ints_at, reddit_record. destruct (link_flair_text p); reflexivity.
Qed.

Lemma int_mixed_github repos : int_mixed (List.map github_record repos) = false.
Proof.
  apply (int_mixed_ints_at ["id"; "stars"; "forks"]); [apply uniform_github|].
  intros r Hr. apply List.in_map_iff in Hr as (repo & <- & _). apply github_ints_at.
Qed.

Lemma int_mixed_reddit posts : int_mixed (List.map reddit_record posts) = false.
Proof.
  apply (int_mixed_ints_at ["score"; "num_comments_total"]); [apply uniform_reddit|].
  intros r Hr. apply List.in_map_iff in Hr as (p & <- & _). apply reddit_ints_at.
Qed.

(** What is loaded after a fetch: the frame of the records collected. *)
Lemma fetch_github_loaded json_dumps json_loads frame_other search w now query limit
    w' loc :
  json_loads (json_dumps (json_of_records (collected_repos search query limit)))
  = Ok (json_of_records (collected_repos search query limit)) ->
  fetch_github_data json_dumps (Some search) w now query limit = (w', Some loc) ->
  collected_repos search query limit <> []
  /\ save_data_to_storage json_dumps w now (collected_repos search query limit)
       "github" query = (w', Some loc)
  /\ load_data_from_storage json_loads frame_other w' loc
     = Ok (frame_of_records (collected_repos search query limit))
  /\ same_records (collected_repos search query limit)
       (frame_of_records (collected_repos search query limit)).
Proof.
  intros Hcodec H. apply fetch_github_saved in H as [Hne Hsave].
  split; [exact Hne|]. split; [exact Hsave|]. split.
  - eapply saved_then_loaded; eauto using no_scheme_in_github.
    apply int_mixed_github.
  - apply frame_of_records_same, uniform_github.
Qed.

Lemma fetch_reddit_loaded json_dumps json_loads frame_other search w now sub query limit
    st tf w' loc :
  json_loads (json_dumps (json_of_records (collected_posts search sub query limit st tf)))
  = Ok (json_of_records (collected_posts search sub query limit st tf)) ->
  fetch_reddit_data json_dumps (Some search) w now sub query limit st tf = (w', Some loc) ->
  collected_posts search sub query limit st tf <> []
  /\ save_data_to_storage json_dumps w now (collected_posts search sub query limit st tf)
       "reddit" (sub ++ "_" ++ query) = (w', Some loc)
  /\ load_data_from_storage json_loads frame_other w' loc
     = Ok (frame_of_records (collected_posts search sub query limit st tf))
  /\ same_records (collected_posts search sub query limit st tf)
       (frame_of_records (collected_posts search sub query limit st tf)).
Proof.
  intros Hcodec H. apply fetch_reddit_saved in H as [Hne Hsave].
  split; [exact Hne|]. split; [exact Hsave|]. split.
  - eapply saved_then_loaded; eauto using no_scheme_in_reddit.
    apply int_mixed_reddit.
  - apply frame_of_records_same, uniform_reddit.
Qed.

(** X5.  What a fetch stored is what a load of the returned locator gives
    back: a frame with the records of the repositories (at most [limit],
    and at least one), or of the submissions, in the order of the search,
    with their fields and values, except that a null cell (a missing
    description, language, date or flair) may be read back as NaN.  The
    JSON text of the records is assumed to parse back to them. *)
Theorem fetch_then_load
    (json_dumps : json -> string) (json_loads : string -> result json)
    (frame_other : json -> result DataFrame) (w : world) (now : datetime) :
  (forall search query limit w' loc,
      json_loads (json_dumps (json_of_records (collected_repos search query limit)))
      = Ok (json_of_records (collected_repos search query limit)) ->
      fetch_github_data json_dumps (Some search) w now query limit = (w', Some loc) ->
      exists df,
        load_data_from_storage json_loads frame_other w' loc = Ok df
        /\ same_records (collected_repos search query limit) df
        /\ 1 <= List.length (collected_repos search query limit) <= Z.to_nat limit)
  /\ (forall search sub query limit st tf w' loc,
      json_loads (json_dumps (json_of_records (collected_posts search sub query limit st tf)))
      = Ok (json_of_records (collected_posts search sub query limit st tf)) ->
      fetch_reddit_data json_dumps (Some search) w now sub query limit st tf
      = (w', Some loc) ->
      exists df,
        load_data_from_storage json_loads frame_other w' loc = Ok df
        /\ same_records (collected_posts search sub query limit st tf) df
        /\ 1 <= List.length (collected_posts search sub query limit st tf)).
Proof.
  split.
  - intros search query limit w' loc Hcodec H.
    destruct (fetch_github_loaded _ json_loads frame_other _ _ _ _ _ _ _ Hcodec H)
      as (Hne & _ & Hload & Hsame).
    eexists. split; [exact Hload|]. split; [exact Hsame|]. split.
    + destruct (collected_repos search query limit); [congruence|simpl; lia].
    + unfold collected_repos. rewrite List.length_map, List.length_firstn. lia.
  - intros search sub query limit st tf w' loc Hcodec H.
    destruct (fetch_reddit_loaded _ json_loads frame_other _ _ _ _ _ _ _ _ _ _ Hcodec H)
      as (Hne & _ & Hload & Hsame).
    eexists. split; [exact Hload|]. split; [exact Hsame|].
    destruct (collected_posts search sub query limit st tf); [congruence|simpl; lia].
Qed.

(** A search that yields two repositories and then fails. *)
Definition failing_search : github_client :=
  fun _ => stream_of [bare_repo; dotless_repo] (Some (OtherError "GithubException")).

Lemma fetch_then_load_example :
  exists df,
    load_data_from_storage RefJson.loads RefJson.frame_other
      (fst (fetch_github_data RefJson.dumps (Some failing_search) online_world a_moment
              "hello world" 5))
      "s3://insight-bucket/github_data/github_hello_world_20240102030405.json"
    = Ok df
    /\ same_records (collected_repos failing_search "hello world" 5) df
    /\ 1 <= List.length (collected_repos failing_search "hello world" 5) <= Z.to_nat 5.
Proof.
  apply (proj1 (fetch_then_load RefJson.dumps RefJson.loads RefJson.frame_other
                  online_world a_moment)
           failing_search "hello world" 5%Z).
  - vm_compute. reflexivity.
  - vm_compute. reflexivity.
Defined.

(** ** The comment sample and the field sets of the records *)

Lemma take_neq_short n s t :
  String.length t < n -> s <> t -> PyStr.take n s <> t.
Proof.
  intros Ht Hne E. apply Hne. rewrite <- E.
  symmetry. apply take_all.
  pose proof (take_length_min n s) as L. rewrite E in L. lia.
Qed.

(** X6.  The comment sample of a submission has at most three entries, taken
    from its first three comments only; each entry is a comment body cut
    to 500 characters, and none is a placeholder of a deleted or removed
    comment.  When the comments cannot be fetched the sample is empty. *)
Theorem comments_sample_bounded (cs : result (list (option string))) :
  List.length (comments_sample cs) <= 3
  /\ (forall s, In s (comments_sample cs) ->
        String.length s <= 500 /\ s <> "[deleted]" /\ s <> "[removed]"
        /\ exists l body, cs = Ok l /\ In (Some body) (List.firstn 3 l)
                          /\ s = PyStr.take 500 body)
  /\ (forall e, comments_sample (Raise e) = []).
Proof.
  split; [|split; [|reflexivity]].
  - destruct cs as [l|e]; [|simpl; lia]. unfold comments_sample.
    assert (H : List.length (List.firstn 3 l) <= 3) by (rewrite List.length_firstn; lia).
    revert H. generalize (List.firstn 3 l). intros l3.
    assert (K : forall k, List.length l3 <= k ->
              List.length
                (List.flat_map
                   (fun c : option string =>
                      match c with
                      | Some body =>
                          if String.eqb body "[deleted]" || String.eqb body "[removed]"
                          then [] else [PyStr.take 500 body]
                      | None => []
                      end) l3) <= k).
    { induction l3 as [|c l3 IH]; intros k Hk; [simpl; lia|].
      cbn [List.flat_map]. rewrite List.length_app. simpl in Hk.
      destruct k as [|k]; [lia|]. specialize (IH k ltac:(lia)).
      destruct c as [body|]; [|cbn [List.length Nat.add]; lia].
      destruct (String.eqb body "[deleted]" || String.eqb body "[removed]");
        cbn [List.length Nat.add]; lia. }
    apply K.
  - intros s Hs. destruct cs as [l|e]; [|contradiction].
    unfold comments_sample in Hs. apply List.in_flat_map in Hs as (c & Hc & Hs).
    destruct c as [body|]; [|contradiction].
    destruct (String.eqb body "[deleted]") eqn:Ed; [contradiction|].
    destruct (String.eqb body "[removed]") eqn:Er; [contradiction|].
    cbn [orb] in Hs. destruct Hs as [<-|[]].
    apply String.eqb_neq in Ed, Er.
    split; [apply take_length|].
    split; [apply take_neq_short; [simpl; lia|exact Ed]|].
    split; [apply take_neq_short; [simpl; lia|exact Er]|].
    exists l, body. auto.
Qed.

(** ** More on persisting and loading *)

Lemma save_local_remote_untouched json_dumps w now data t q :
  s3 (fst (save_local json_dumps w now data t q)) = s3 w
  /\ s3_client (fst (save_local json_dumps w now data t q)) = s3_client w
  /\ S3_BUCKET_NAME (fst (save_local json_dumps w now data t q)) = S3_BUCKET_NAME w
  /\ (forall loc, snd (save_local json_dumps w now data t q) = Some loc ->
        loc = local_path now t q).
Proof.
  unfold save_local. fold (local_path now t q).
  destruct (open_w (fs w) (local_path now t q)) as [f1|e]; [|repeat split; discriminate].
  destruct (write_close f1 (local_path now t q) _) as [f2 [[]|e]];
    repeat split; cbn; congruence.
Qed.

Lemma save_remote_shape json_dumps w now data t q w1 uri :
  save_remote json_dumps w now data t q = Some (w1, uri) ->
  exists b r',
    s3_client w = true /\ bucket_name w = Some b
    /\ put_object (s3 w) b (s3_key now t q) (payload json_dumps data) = Ok r'
    /\ w1 = set_s3 w r' /\ uri = "s3://" ++ b ++ "/" ++ s3_key now t q.
Proof.
  unfold save_remote, payload.
  destruct (s3_client w); [|discriminate].
  destruct (bucket_name w) as [b|]; [|discriminate].
  destruct (put_object _ _ _ _) as [r'|e] eqn:Hp; [|destruct e; discriminate].
  intros [= <- <-]. exists b, r'. auto.
Qed.

(** X8.  [persist] writes to one tier only and never changes the configuration:
    a remote locator means the local file system is as it was, a local
    locator or a failure means the remote store is as it was. *)
Theorem save_data_to_storage_one_tier
    (json_dumps : json -> string) (w : world) (now : datetime) (data : list row)
    (source_type query_details : string) :
  let after := fst (save_data_to_storage json_dumps w now data source_type query_details) in
  let returned := snd (save_data_to_storage json_dumps w now data source_type query_details) in
  s3_client after = s3_client w
  /\ S3_BUCKET_NAME after = S3_BUCKET_NAME w
  /\ match returned with
     | Some location =>
         (PyStr.startswith "s3://" location = true /\ fs after = fs w
          /\ exists b, bucket_name w = Some b
                       /\ location = "s3://" ++ b ++ "/" ++ s3_key now source_type query_details)
         \/ (PyStr.startswith "s3://" location = false /\ s3 after = s3 w
             /\ location = local_path now source_type query_details)
     | None => s3 after = s3 w
     end.
Proof.
  cbv zeta. unfold save_data_to_storage.
  destruct (save_remote json_dumps w now data source_type query_details)
    as [[w1 uri]|] eqn:Hr.
  - apply save_remote_shape in Hr as (b & r' & Hc & Hb & Hp & -> & ->).
    cbn [fst snd set_s3 s3_client S3_BUCKET_NAME fs].
    split; [reflexivity|]. split; [reflexivity|]. left.
    split; [reflexivity|]. split; [reflexivity|]. exists b. auto.
  - destruct (save_local_remote_untouched json_dumps w now data source_type query_details)
      as (H1 & H2 & H3 & H4).
    split; [exact H2|]. split; [exact H3|].
    destruct (snd (save_local json_dumps w now data source_type query_details))
      as [loc|] eqn:E; [|exact H1].
    right. rewrite (H4 loc eq_refl). split; [apply local_path_not_remote|]. auto.
Qed.

Lemma put_object_failure_any_body r b k body e k' body' :
  put_object r b k body = Raise e -> put_object r b k' body' = Raise e.
Proof.
  unfold put_object. destruct (negb (valid_bucket_name b)); [auto|].
  destruct (negb (online r)); [auto|].
  destruct (buckets r !! b); [|auto].
  destruct (negb (access_granted r)); [auto|discriminate].
Qed.

Lemma put_object_again r b k body r' k' body' :
  put_object r b k body = Ok r' -> exists r'', put_object r' b k' body' = Ok r''.
Proof.
  unfold put_object. destruct (valid_bucket_name b) eqn:Hv; [|discriminate].
  destruct (online r) eqn:Ho; [|discriminate]. cbn [negb].
  destruct (buckets r !! b) as [objs|] eqn:Hb; [|discriminate].
  destruct (access_granted r) eqn:Ha; [|discriminate]. cbn [negb].
  intros [= <-]. cbn [online access_granted buckets].
  rewrite lookup_insert_eq. eauto.
Qed.

Lemma base_filename_same_key now t q1 q2 :
  sanitize_for_filename q1 = sanitize_for_filename q2 ->
  base_filename now t q1 = base_filename now t q2
  /\ s3_key now t q1 = s3_key now t q2
  /\ local_path now t q1 = local_path now t q2.
Proof.
  intros H. unfold local_path, s3_key, base_filename. now rewrite H.
Qed.

(** X9.  Two collections persisted within the same second, under the same
    source type and labels that sanitize to the same key, get the same
    locator, and the second replaces the first: loading the locator gives
    the second collection (a null cell possibly read back as NaN).  The
    second collection has uniform records, no column of which holds an
    integer beside a float or a null. *)
Theorem save_data_to_storage_same_key_overwrites
    (json_dumps : json -> string) (json_loads : string -> result json)
    (frame_other : json -> result DataFrame)
    (w : world) (now : datetime) (first second : list row)
    (source_type label1 label2 : string) (w1 w2 : world) (loc1 loc2 : string) :
  sanitize_for_filename label1 = sanitize_for_filename label2 ->
  uniform second ->
  int_mixed second = false ->
  json_loads (json_dumps (json_of_records second)) = Ok (json_of_records second) ->
  PyStrOps.contains "s3://" source_type = false ->
  save_data_to_storage json_dumps w now first source_type label1 = (w1, Some loc1) ->
  save_data_to_storage json_dumps w1 now second source_type label2 = (w2, Some loc2) ->
  loc2 = loc1
  /\ loads_as json_loads frame_other w2 loc1 second.
Proof.
  intros Hkey Hu Hmix Hcodec Ht H1 H2.
  destruct (base_filename_same_key now source_type label1 label2 Hkey) as (_ & Ek & El).
  assert (E : loc2 = loc1).
  { unfold save_data_to_storage in H1, H2.
    destruct (save_remote json_dumps w now first source_type label1)
      as [[wa ua]|] eqn:Ha.
    - injection H1 as <- <-.
      apply save_remote_shape in Ha as (b & r' & Hc & Hb & Hp & -> & ->).
      destruct (put_object_again _ _ _ _ _ (s3_key now source_type label2)
                  (payload json_dumps second) Hp) as [r'' Hp'].
      unfold save_remote in H2. cbn [set_s3 s3_client s3] in H2.
      rewrite Hc in H2.
      assert (Hb' : bucket_name (set_s3 w r') = Some b) by exact Hb.
      rewrite Hb' in H2. unfold payload in Hp'. rewrite Hp' in H2.
      injection H2 as _ <-. now rewrite Ek.
    - pose proof (save_local_remote_untouched json_dumps w now first source_type label1)
        as (S1 & S2 & S3 & S4).
      rewrite H1 in S1, S2, S3, S4. cbn [fst snd] in *.
      specialize (S4 loc1 eq_refl).
      assert (Hn : save_remote json_dumps w1 now second source_type label2 = None).
      { unfold save_remote in Ha |- *. unfold bucket_name in *. rewrite S1, S2, S3.
        destruct (s3_client w); [|reflexivity].
        destruct (S3_BUCKET_NAME w) as [n|]; [|reflexivity].
        destruct (PyStr.nonempty n); [|reflexivity].
        destruct (put_object (s3 w) n (s3_key now source_type label1) _) as [r'|e] eqn:Hp;
          [discriminate|].
        rewrite (put_object_failure_any_body _ _ _ _ _ (s3_key now source_type label2)
                   (json_dumps (json_of_records second)) Hp).
        now destruct e. }
      rewrite Hn in H2.
      pose proof (save_local_remote_untouched json_dumps w1 now second source_type label2)
        as (_ & _ & _ & S4').
      rewrite H2 in S4'. cbn [snd] in S4'. rewrite (S4' loc2 eq_refl), S4. now rewrite El. }
  split; [exact E|]. subst loc2.
  eapply saved_loads_as; eauto.
Qed.

Definition other_records : list row := [starred "Z" 1].

Lemma uniform_other_records : uniform other_records.
Proof.
  exists ["name"; "stars"]. split.
  - apply NoDup_ListNoDup. repeat constructor; simpl; intuition discriminate.
  - intros r [<-|[]]; reflexivity.
Qed.

(** Two labels that differ in case and punctuation only, in the same
    second: one locator, and the second collection is what it holds. *)
Lemma save_data_to_storage_same_key_overwrites_example :
  "s3://insight-bucket/github_data/github_hello_world_20240102030405.json"
  = "s3://insight-bucket/github_data/github_hello_world_20240102030405.json"
  /\ loads_as RefJson.loads RefJson.frame_other
       (fst (save_data_to_storage RefJson.dumps
               (fst (save_data_to_storage RefJson.dumps online_world a_moment
                       ranking_example "github" "Hello World"))
               a_moment other_records "github" "hello_world!"))
       "s3://insight-bucket/github_data/github_hello_world_20240102030405.json"
       other_records.
Proof.
  apply (save_data_to_storage_same_key_overwrites RefJson.dumps RefJson.loads
           RefJson.frame_other online_world a_moment ranking_example other_records
           "github" "Hello World" "hello_world!"
           (fst (save_data_to_storage RefJson.dumps online_world a_moment
                   ranking_example "github" "Hello World"))).
  - reflexivity.
  - exact uniform_other_records.
  - reflexivity.
  - vm_compute. reflexivity.
  - reflexivity.
  - vm_compute. reflexivity.
  - vm_compute. reflexivity.
Defined.

Definition set_bucket_name (w : world) (b : option string) : world :=
  {| s3_client := s3_client w; S3_BUCKET_NAME := b; s3 := s3 w; fs := fs w |}.

Lemma load_local_any_bucket json_loads frame_other w o path :
  PyStr.startswith "s3://" path = false ->
  load_data_from_storage json_loads frame_other (set_bucket_name w o) path
  = load_data_from_storage json_loads frame_other w path.
Proof. intros Hs. now rewrite !load_local_eq by exact Hs. Qed.

Lemma load_remote_any_bucket json_loads frame_other w other path :
  PyStr.nonempty other = true -> is_Some (bucket_name w) ->
  load_data_from_storage json_loads frame_other (set_bucket_name w (Some other)) path
  = load_data_from_storage json_loads frame_other w path.
Proof.
  intros Hn Hb.
  destruct (PyStr.startswith "s3://" path) eqn:Hs; [|now apply load_local_any_bucket].
  destruct (s3_client w) eqn:Hc.
  - rewrite !load_remote_eq; try assumption; [reflexivity| |].
    + unfold configured. rewrite Hc. now apply bool_decide_eq_true.
    + unfold configured, bucket_name. cbn [set_bucket_name s3_client S3_BUCKET_NAME].
      rewrite Hc, Hn. apply bool_decide_eq_true. eauto.
  - rewrite !load_unconfigured; try assumption; [reflexivity| |].
    + unfold configured. now rewrite Hc.
    + unfold configured. cbn [set_bucket_name s3_client]. now rewrite Hc.
Qed.

(** X11.  A locator that [persist] returned loads the same after the
    configured bucket name has been changed to any other non-empty name:
    the loader reads the container named in the locator, and of the
    configured name it uses only that there is one.  So the collection is
    still loaded from it (null cells possibly as NaN), under the
    conditions of the round trip.  With the name unset, a remote locator
    loads as the empty frame. *)
Theorem saved_locator_outlives_bucket_setting
    (json_dumps : json -> string) (json_loads : string -> result json)
    (frame_other : json -> result DataFrame)
    (w : world) (now : datetime) (records : list row)
    (source_type query_details : string) (w' : world) (location : string) :
  save_data_to_storage json_dumps w now records source_type query_details
  = (w', Some location) ->
  (forall other,
      PyStr.nonempty other = true ->
      load_data_from_storage json_loads frame_other (set_bucket_name w' (Some other)) location
      = load_data_from_storage json_loads frame_other w' location)
  /\ (forall other,
      PyStr.nonempty other = true ->
      uniform records ->
      int_mixed records = false ->
      json_loads (json_dumps (json_of_records records)) = Ok (json_of_records records) ->
      PyStrOps.contains "s3://" source_type = false ->
      loads_as json_loads frame_other (set_bucket_name w' (Some other)) location records)
  /\ (PyStr.startswith "s3://" location = true ->
      load_data_from_storage json_loads frame_other (set_bucket_name w' None) location
      = Ok empty_frame).
Proof.
  intros Hsave.
  assert (Hsame : forall other,
            PyStr.nonempty other = true ->
            load_data_from_storage json_loads frame_other
              (set_bucket_name w' (Some other)) location
            = load_data_from_storage json_loads frame_other w' location).
  { intros other Hn. pose proof Hsave as Hsave'. unfold save_data_to_storage in Hsave'.
    destruct (save_remote json_dumps w now records source_type query_details)
      as [[w1 uri]|] eqn:Hr.
    + injection Hsave' as <- <-.
      apply save_remote_shape in Hr as (b & r' & Hc & Hb & Hp & -> & ->).
      apply load_remote_any_bucket; [exact Hn|]. exists b. exact Hb.
    + destruct (save_local_remote_untouched json_dumps w now records source_type
                  query_details) as (_ & _ & _ & H4).
      rewrite Hsave' in H4. cbn [snd] in H4. rewrite (H4 location eq_refl).
      apply load_local_any_bucket, local_path_not_remote. }
  split; [exact Hsame|]. split.
  - intros other Hn Hu Hmix Hcodec Ht.
    destruct (saved_loads_as json_dumps json_loads frame_other w now records source_type
                query_details w' location Hu Hmix Hcodec Ht Hsave) as (df & Hload & Hdf).
    exists df. split; [|exact Hdf]. now rewrite Hsame.
  - intros Hs. apply load_unconfigured; [exact Hs|].
    unfold configured, bucket_name. cbn [set_bucket_name S3_BUCKET_NAME].
    apply andb_false_iff. right. apply bool_decide_eq_false. intros [x Hx]. discriminate.
Qed.

Lemma saved_locator_outlives_bucket_setting_example :
  loads_as RefJson.loads RefJson.frame_other
    (set_bucket_name
       (fst (save_data_to_storage RefJson.dumps online_world a_moment other_records
               "github" "hello"))
       (Some "another-bucket"))
    "s3://insight-bucket/github_data/github_hello_20240102030405.json"
    other_records.
Proof.
  apply (proj1 (proj2 (saved_locator_outlives_bucket_setting RefJson.dumps RefJson.loads
                         RefJson.frame_other online_world a_moment other_records
                         "github" "hello"
                         (fst (save_data_to_storage RefJson.dumps online_world a_moment
                                 other_records "github" "hello"))
                         "s3://insight-bucket/github_data/github_hello_20240102030405.json"
                         ltac:(vm_compute; reflexivity)))
           "another-bucket").
  - reflexivity.
  - exact uniform_other_records.
  - reflexivity.
  - vm_compute. reflexivity.
  - reflexivity.
Defined.

(** ** [main.py]'s loader against [agent.py]'s *)

(** X13.  On a locator that does not start with [s3://], whatever [main.py]'s
    loader returns, [agent.py]'s returns too; and where [main.py]'s raises
    (a directory, bytes that are not UTF-8, text that is not JSON, JSON
    that does not build a frame), [agent.py]'s returns the empty frame. *)
Theorem mainpy_load_against_agent
    (json_loads : string -> result json) (frame_other : json -> result DataFrame)
    (w : world) (file_path : string) :
  PyStr.startswith "s3://" file_path = false ->
  (forall df,
      mainpy_load_data_from_file json_loads frame_other w file_path = Ok df ->
      load_data_from_storage json_loads frame_other w file_path = Ok df)
  /\ (forall e,
      mainpy_load_data_from_file json_loads frame_other w file_path = Raise e ->
      load_data_from_storage json_loads frame_other w file_path = Ok empty_frame)
  /\ (os_path_exists (fs w) file_path = false ->
      mainpy_load_data_from_file json_loads frame_other w file_path = Ok empty_frame).
Proof.
  intros Hs. unfold mainpy_load_data_from_file, load_data_from_storage. rewrite Hs.
  fold (load_local_body json_loads frame_other w file_path).
  destruct (negb (os_path_exists (fs w) file_path)) eqn:E.
  - split; [|split]; [auto|discriminate|reflexivity].
  - split; [|split].
    + intros df H. now rewrite H.
    + intros e H. now rewrite H.
    + intros H. rewrite H in E. discriminate.
Qed.

(** A world with a file that is not JSON. *)
Definition garbled_world : world :=
  {| s3_client := false; S3_BUCKET_NAME := None;
     s3 := {| online := false; access_granted := false; buckets := ∅ |};
     fs := {| dirs := {[ "data" ]};
              files := {[ "data/broken.json" := Text "[{" ]};
              free := 100 |} |}.

Lemma mainpy_load_against_agent_example :
  mainpy_load_data_from_file RefJson.loads RefJson.frame_other garbled_world
    "data/broken.json" = Raise JSONDecodeError
  /\ load_data_from_storage RefJson.loads RefJson.frame_other garbled_world
       "data/broken.json" = Ok empty_frame.
Proof.
  split; [vm_compute; reflexivity|].
  apply (proj1 (proj2 (mainpy_load_against_agent RefJson.loads RefJson.frame_other
                         garbled_world "data/broken.json" eq_refl))
           JSONDecodeError).
  vm_compute. reflexivity.
Defined.

(** ** The [ask] command *)

Definition CONTEXT_FIELDS : list string :=
  ["readme_content"; "selftext"; "description"; "title"].

Lemma usable_text_some entry k s :
  usable_text entry k = Ok (Some s) ->
  row_get k entry = Some (JStr s) /\ usable s = true.
Proof.
  unfold usable_text. destruct (row_get k entry) as [v|]; [|discriminate].
  destruct (isna v); [discriminate|].
  destruct v as [| | | |t| |]; try discriminate.
  fold (usable t). destruct (usable t) eqn:E; [|discriminate].
  intros [= <-]. auto.
Qed.

Lemma select_context_chosen entry ctx :
  select_context entry = Ok ctx ->
  ctx = EmptyString
  \/ (usable ctx = true
      /\ exists k, In k CONTEXT_FIELDS /\ row_get k entry = Some (JStr ctx)).
Proof.
  unfold select_context, CONTEXT_FIELDS.
  destruct (usable_text entry "readme_content") as [[a|]|e] eqn:Ha; cbn [rbind];
    [intros [= <-]; apply usable_text_some in Ha as [? ?]; right; split; [assumption|];
     eexists; split; [|eassumption]; simpl; tauto| |discriminate].
  destruct (usable_text entry "selftext") as [[b|]|e] eqn:Hb; cbn [rbind];
    [intros [= <-]; apply usable_text_some in Hb as [? ?]; right; split; [assumption|];
     eexists; split; [|eassumption]; simpl; tauto| |discriminate].
  destruct (usable_text entry "description") as [[c|]|e] eqn:Hc; cbn [rbind];
    [intros [= <-]; apply usable_text_some in Hc as [? ?]; right; split; [assumption|];
     eexists; split; [|eassumption]; simpl; tauto| |discriminate].
  destruct (usable_text entry "title") as [[d|]|e] eqn:Hd; cbn [rbind];
    [intros [= <-]; apply usable_text_some in Hd as [? ?]; right; split; [assumption|];
     eexists; split; [|eassumption]; simpl; tauto| |discriminate].
  intros [= <-]. now left.
Qed.

(** X14.  What the [ask] command does with an entry.  When it answers, the
    context is the text of one of the four context fields of the entry and
    has a character that is not white space; with a pipeline, the pipeline
    is called exactly once, on the question and the first 4000 characters
    of that text, and the answer is the pipeline's, or the fixed error
    answer when the pipeline raises: the adapter's answer for an empty
    context cannot come out of the command.  Without a pipeline nothing is
    called.  When it does not answer, no field was usable. *)
Theorem ask_entry_calls_pipeline_once
    (qa : option capability) (question : string) (entry : row) (o : ask_outcome) :
  ask_entry qa question entry = Ok o ->
  match o with
  | NoSuitableContext => select_context entry = Ok EmptyString
  | Answered text calls =>
      exists ctx k,
        In k CONTEXT_FIELDS /\ row_get k entry = Some (JStr ctx) /\ usable ctx = true
        /\ match qa with
           | None => text = MSG_UNAVAILABLE /\ calls = []
           | Some pipeline =>
               calls = [(question, PyStr.take 4000 ctx)]
               /\ text = match pipeline question (PyStr.take 4000 ctx) with
                         | Ok r => answer r
                         | Raise _ => MSG_ERROR
                         end
           end
  end.
Proof.
  unfold ask_entry. destruct (select_context entry) as [ctx|e] eqn:Hs; cbn [rbind];
    [|discriminate].
  destruct (PyStr.nonempty ctx) eqn:Hn.
  - destruct (ask_ai_question qa question ctx) as [a calls] eqn:Ha. intros [= <-].
    destruct (select_context_chosen _ _ Hs) as [->|(Hu & k & Hk & Hr)]; [discriminate|].
    exists ctx, k. split; [exact Hk|]. split; [exact Hr|]. split; [exact Hu|].
    destruct qa as [pipeline|].
    + unfold ask_ai_question in Ha. rewrite Hn, strip_ws_empty_length, Hu in Ha.
      cbn [negb orb] in Ha. change max_chars_for_context with 4000 in Ha.
      destruct (pipeline question (PyStr.take 4000 ctx)); injection Ha as <- <-; auto.
    + injection Ha as <- <-. auto.
  - intros [= <-]. destruct ctx; [reflexivity|discriminate].
Qed.

(** A pipeline that answers with the context it was given. *)
Definition echo_pipeline : capability :=
  fun _ context => Ok {| answer := context; qa_score := None |}.

Lemma ask_entry_calls_pipeline_once_example :
  exists ctx k,
    In k CONTEXT_FIELDS /\ row_get k (reddit_record rust_post) = Some (JStr ctx)
    /\ usable ctx = true
    /\ [("Which language?", "Rust is great, I love rust")]
       = [("Which language?", PyStr.take 4000 ctx)]
    /\ "Rust is great, I love rust"
       = match echo_pipeline "Which language?" (PyStr.take 4000 ctx) with
         | Ok r => answer r
         | Raise _ => MSG_ERROR
         end.
Proof.
  apply (ask_entry_calls_pipeline_once (Some echo_pipeline) "Which language?"
           (reddit_record rust_post)
           (Answered "Rust is great, I love rust"
              [("Which language?", "Rust is great, I love rust")])).
  vm_compute. reflexivity.
Defined.

(** ** The index argument of [ask] *)

Lemma string_of_uint_digits d :
  PyStr.forallb PyChar.is_digit (NilEmpty.string_of_uint d) = true.
Proof.
  induction d; cbn [NilEmpty.string_of_uint PyStr.forallb];
    [reflexivity|rewrite IHd; reflexivity ..].
Qed.

Lemma string_of_uint_nonempty d :
  d <> Decimal.Nil -> PyStr.nonempty (NilEmpty.string_of_uint d) = true.
Proof. destruct d; [congruence|reflexivity ..]. Qed.

Lemma decimal_value_string_of_uint d : forall a,
  decimal_value (Z.of_nat a) (NilEmpty.string_of_uint d) = Z.of_nat (Nat.of_uint_acc d a).
Proof.
  induction d; intros a; cbn [NilEmpty.string_of_uint decimal_value Nat.of_uint_acc];
    [reflexivity|rewrite <- IHd; f_equal; rewrite Nat.tail_mul_spec;
                 match goal with
                 | |- context [Z.of_N ?x] =>
                     let v := eval vm_compute in (Z.of_N x) in change (Z.of_N x) with v
                 end; lia ..].
Qed.

Lemma ascii_digits_isdigit s :
  PyStr.nonempty s = true -> PyStr.forallb PyChar.is_digit s = true -> py_isdigit s = true.
Proof.
  intros Hn Hd. unfold py_isdigit. rewrite Hn. cbn [andb].
  revert Hd. apply forallb_impl. intros c Hc. unfold char_isdigit. now rewrite Hc.
Qed.

Section MainProperties.

Variable json_dumps : json -> string.
Variable json_loads : string -> result json.
Variable frame_other : json -> result DataFrame.
Variable sort_values_desc : list (row * nat) -> list (row * nat).
Variable re_count_other : string -> string -> result nat.

Abbreviation run := (main json_dumps json_loads frame_other sort_values_desc re_count_other).

Lemma main_is_ask sv w now command rest :
  PyStr.lower command = "ask" ->
  run sv w now (command :: rest) = (w, main_ask json_loads frame_other sv w (command :: rest)).
Proof. intros H. unfold main. rewrite H. reflexivity. Qed.

Lemma main_is_analyze sv w now command rest :
  PyStr.lower command = "analyze" ->
  run sv w now (command :: rest)
  = (w, main_analyze json_loads frame_other sort_values_desc re_count_other w
          (command :: rest)).
Proof. intros H. unfold main. rewrite H. reflexivity. Qed.

(** X15.  The optional last argument of [ask], the index of the entry.
    - An argument that is not made of digits only (a sign, a blank, a
      decimal point, the empty string) is ignored without a message: the
      command runs as if no index had been given, on entry 0.
    - An argument of ASCII digits (at most 4300) is read in base ten,
      leading zeros allowed: the entry at that position is handed to the
      context selection, and a position past the last entry is reported
      as out of bounds, nothing being asked.
    - An argument of ASCII digits and superscripts two, three and one
      (U+00B2, U+00B3, U+00B9), at least one of them a superscript, passes
      [isdigit] and makes [int] raise: the command ends in a
      [ValueError], before anything is loaded.
    The argument is a string of characters up to U+00FF, as all strings
    here; digits of other scripts are not covered. *)
Theorem main_ask_entry_index
    (sv : services) (w : world) (now : datetime)
    (command question storage_path idx : string) (more : list string) :
  PyStr.lower command = "ask" ->
  (py_isdigit idx = false ->
     run sv w now (command :: question :: storage_path :: idx :: more)
     = run sv w now [command; question; storage_path])
  /\ (forall d df,
        d <> Decimal.Nil -> idx = NilEmpty.string_of_uint d ->
        String.length idx <= 4300 ->
        load_data_from_storage json_loads frame_other w storage_path = Ok df ->
        df_empty df = false ->
        run sv w now (command :: question :: storage_path :: idx :: more)
        = (w, match List.nth_error df (Nat.of_uint d) with
              | Some entry =>
                  let! o := ask_entry (qa_pipeline sv) question entry in Ok (Asked o)
              | None => Ok (IndexOutOfBounds (Z.of_nat (Nat.of_uint d)) (List.length df))
              end))
  /\ (py_isdigit idx = true ->
     PyStr.forallb (fun c => negb (superscript_digit c)) idx = false ->
     run sv w now (command :: question :: storage_path :: idx :: more)
     = (w, Raise ValueError)).
Proof.
  intros Hc. rewrite !main_is_ask by exact Hc. unfold main_ask.
  cbn [List.nth_error number_or]. split; [|split].
  - intros Hd. now rewrite Hd.
  - intros d df Hnil -> Hlen Hload Hne.
    rewrite (ascii_digits_isdigit _ (string_of_uint_nonempty d Hnil)
               (string_of_uint_digits d)).
    unfold py_int. rewrite string_of_uint_digits.
    replace (INT_MAX_STR_DIGITS <? String.length (NilEmpty.string_of_uint d))%nat
      with false by (symmetry; apply Nat.ltb_ge; exact Hlen).
    change 0%Z with (Z.of_nat 0). rewrite decimal_value_string_of_uint.
    fold (Nat.of_uint d). cbn [rbind]. rewrite Hload. cbn [rbind]. rewrite Hne.
    cbn [negb]. rewrite Nat2Z.id.
    replace (Z.of_nat 0 <=? Z.of_nat (Nat.of_uint d))%Z with true
      by (symmetry; apply Z.leb_le; lia).
    cbn [andb].
    destruct (Z.of_nat (Nat.of_uint d) <? Z.of_nat (List.length df))%Z eqn:E.
    + apply Z.ltb_lt in E.
      destruct (List.nth_error df (Nat.of_uint d)) as [entry|] eqn:En; [reflexivity|].
      apply List.nth_error_None in En. lia.
    + apply Z.ltb_ge in E.
      replace (List.nth_error df (Nat.of_uint d)) with (@None row); [reflexivity|].
      symmetry. apply List.nth_error_None. lia.
  - intros Hd Hi. rewrite Hd. unfold py_int.
    replace (PyStr.forallb PyChar.is_digit idx) with false; [reflexivity|].
    symmetry. apply not_true_is_false. intros K. clear Hd.
    induction idx as [|c idx IH]; [discriminate|].
    cbn [PyStr.forallb] in Hi, K. apply andb_prop in K as [Kc K].
    destruct (superscript_digit c) eqn:Ec; cbn [negb andb] in Hi; [|auto].
    unfold superscript_digit, PyChar.is_digit, PyChar.between in Ec, Kc.
    destruct (PyChar.code c =? 185)%N eqn:E185.
    + apply N.eqb_eq in E185. rewrite E185 in Kc. discriminate.
    + rewrite Bool.orb_false_r in Ec. apply andb_prop in Ec as [E1 _], Kc as [_ K2].
      apply N.leb_le in E1, K2. lia.
Qed.

End MainProperties.

Definition stored_rust_world : world :=
  fst (save_data_to_storage RefJson.dumps online_world a_moment
         [reddit_record rust_post] "reddit" "rust").

Definition ask_services : services :=
  {| g := None; reddit := None; qa_pipeline := Some echo_pipeline |}.

(** Index 7 on a collection of one entry. *)
Lemma main_ask_entry_index_example :
  main RefJson.dumps RefJson.loads RefJson.frame_other ref_sort_values_desc
    ref_re_count_other ask_services stored_rust_world a_moment
    ["ASK"; "Which language?";
     "s3://insight-bucket/reddit_data/reddit_rust_20240102030405.json"; "07"]
  = (stored_rust_world, Ok (IndexOutOfBounds 7 1)).
Proof.
  apply (proj1 (proj2 (main_ask_entry_index RefJson.dumps RefJson.loads RefJson.frame_other
                         ref_sort_values_desc ref_re_count_other ask_services
                         stored_rust_world a_moment "ASK" "Which language?"
                         "s3://insight-bucket/reddit_data/reddit_rust_20240102030405.json"
                         "07" [] eq_refl))
           (Decimal.D0 (Decimal.D7 Decimal.Nil)) [reddit_record rust_post]).
  - discriminate.
  - reflexivity.
  - cbn. lia.
  - vm_compute. reflexivity.
  - reflexivity.
Defined.

(** ** The source type read off a locator *)

Lemma map_app f a b : PyStr.map f (a ++ b) = PyStr.map f a ++ PyStr.map f b.
Proof.
  induction a as [|c a IH]; [now rewrite !app_empty|].
  rewrite app_cons. cbn [PyStr.map]. now rewrite IH, app_cons.
Qed.

Lemma startswith_refl p : PyStr.startswith p p = true.
Proof. induction p as [|c p IH]; cbn [PyStr.startswith]; [reflexivity|]. now rewrite Ascii.eqb_refl. Qed.

Lemma startswith_app p a b :
  PyStr.startswith p a = true -> PyStr.startswith p (a ++ b) = true.
Proof.
  revert a. induction p as [|c p IH]; intros a H; [reflexivity|].
  destruct a as [|d a]; [discriminate|]. rewrite app_cons.
  cbn [PyStr.startswith] in *. apply andb_prop in H as [-> H]. now rewrite IH.
Qed.

Lemma contains_app_l p a b :
  PyStrOps.contains p a = true -> PyStrOps.contains p (a ++ b) = true.
Proof.
  induction a as [|c a IH]; intros H.
  - apply contains_prefix. cbn [PyStrOps.contains] in H. rewrite orb_false_r in H.
    now apply startswith_app.
  - cbn [PyStrOps.contains] in H. apply orb_prop in H as [H|H].
    + apply contains_prefix. now apply startswith_app.
    + rewrite app_cons. apply contains_cons. auto.
Qed.

Lemma contains_app_r p a b :
  PyStrOps.contains p b = true -> PyStrOps.contains p (a ++ b) = true.
Proof.
  intros H. induction a as [|c a IH]; [now rewrite app_empty|].
  rewrite app_cons. now apply contains_cons.
Qed.

Lemma startswith_map f p s :
  PyStr.startswith p s = true -> PyStr.startswith (PyStr.map f p) (PyStr.map f s) = true.
Proof.
  revert s. induction p as [|c p IH]; intros s H; [reflexivity|].
  destruct s as [|d s]; [discriminate|]. cbn [PyStr.startswith PyStr.map] in *.
  apply andb_prop in H as [E H]. apply Ascii.eqb_eq in E. subst d.
  now rewrite Ascii.eqb_refl, IH.
Qed.

Lemma contains_map f p s :
  PyStrOps.contains p s = true -> PyStrOps.contains (PyStr.map f p) (PyStr.map f s) = true.
Proof.
  induction s as [|c s IH]; intros H; cbn [PyStrOps.contains PyStr.map] in *.
  - rewrite orb_false_r in *. now apply (startswith_map f p EmptyString).
  - apply orb_prop in H as [H|H].
    + pose proof (startswith_map f p (String c s) H) as K. cbn [PyStr.map] in K.
      now rewrite K.
    + rewrite (IH H). apply orb_true_r.
Qed.

(** Where [persist] stored a collection: some prefix, then the file name. *)
Lemma saved_locator_shape json_dumps w now data t q w' loc :
  save_data_to_storage json_dumps w now data t q = (w', Some loc) ->
  (exists b, bucket_name w = Some b /\ PyStr.startswith "s3://" loc = true
             /\ loc = "s3://" ++ b ++ ("/" ++ t ++ "_data/") ++ base_filename now t q)
  \/ exists pre, PyStr.startswith "s3://" loc = false /\ loc = pre ++ base_filename now t q.
Proof.
  unfold save_data_to_storage.
  destruct (save_remote json_dumps w now data t q) as [[w1 uri]|] eqn:Hr.
  - intros [= <- <-]. apply save_remote_shape in Hr as (b & r' & Hc & Hb & Hp & -> & ->).
    left. exists b. split; [exact Hb|]. split; [reflexivity|].
    unfold s3_key. now rewrite !str_app_assoc.
  - intros H. right.
    destruct (save_local_remote_untouched json_dumps w now data t q) as (_ & _ & _ & H4).
    rewrite H in H4. cbn [snd] in H4. rewrite (H4 loc eq_refl).
    unfold local_path, PyStrOps.os_path_join.
    destruct (PyStr.startswith "/" (base_filename now t q)) eqn:E.
    + exists EmptyString. rewrite app_empty. split; [|reflexivity].
      pose proof (local_path_not_remote now t q) as L.
      unfold local_path, PyStrOps.os_path_join in L. now rewrite E in L.
    + exists "data/". split; reflexivity.
Qed.

Lemma lower_mentions p pre mid post :
  PyStrOps.contains p mid = true ->
  PyStrOps.contains (PyStr.lower p) (PyStr.lower (pre ++ mid ++ post)) = true.
Proof.
  intros H. unfold PyStr.lower. rewrite !map_app.
  apply contains_app_r, contains_app_l, contains_map, H.
Qed.

Lemma saved_locator_mentions json_dumps w now data t q w' loc :
  save_data_to_storage json_dumps w now data t q = (w', Some loc) ->
  PyStrOps.contains (PyStr.lower t) (PyStr.lower loc) = true
  /\ (forall p, PyStrOps.contains p (sanitize_for_filename q) = true ->
        PyStrOps.contains (PyStr.lower p) (PyStr.lower loc) = true)
  /\ (forall p b, PyStr.startswith "s3://" loc = true -> bucket_name w = Some b ->
        PyStrOps.contains p b = true ->
        PyStrOps.contains (PyStr.lower p) (PyStr.lower loc) = true).
Proof.
  intros H. apply saved_locator_shape in H.
  assert (Hbase : forall pre,
            PyStrOps.contains (PyStr.lower t) (PyStr.lower (pre ++ base_filename now t q)) = true
            /\ forall p, PyStrOps.contains p (sanitize_for_filename q) = true ->
                 PyStrOps.contains (PyStr.lower p)
                   (PyStr.lower (pre ++ base_filename now t q)) = true).
  { intros pre. unfold base_filename. split.
    - apply lower_mentions, contains_prefix, startswith_refl.
    - intros p Hp.
      replace (pre ++ t ++ "_" ++ sanitize_for_filename q ++ "_" ++ strftime_compact now
               ++ ".json")
        with ((pre ++ t ++ "_") ++ sanitize_for_filename q ++ "_" ++ strftime_compact now
              ++ ".json") by (now rewrite !str_app_assoc).
      now apply lower_mentions. }
  destruct H as [(b & Hb & Hs & ->)|(pre & Hs & ->)].
  - replace ("s3://" ++ b ++ ("/" ++ t ++ "_data/") ++ base_filename now t q)
      with (("s3://" ++ b ++ "/" ++ t ++ "_data/") ++ base_filename now t q)
      by (now rewrite !str_app_assoc).
    destruct (Hbase ("s3://" ++ b ++ "/" ++ t ++ "_data/")) as [H1 H2].
    split; [exact H1|]. split; [exact H2|].
    intros p b' _ Hb' Hp. rewrite Hb in Hb'. injection Hb' as <-.
    rewrite !str_app_assoc. now apply lower_mentions.
  - destruct (Hbase pre) as [H1 H2]. split; [exact H1|]. split; [exact H2|].
    intros p b Hs'. rewrite Hs in Hs'. discriminate.
Qed.

(** X16.  The source type [analyze] reads off a locator that [persist] returned.
    A collection persisted as [github] is read as [github].  One persisted
    as [reddit] is never read as unknown, but it is read as [github]
    whenever the sanitized label (subreddit and query) contains the word,
    or the name of the bucket of a remote locator does. *)
Theorem infer_source_type_of_saved
    (json_dumps : json -> string) (w : world) (now : datetime) (data : list row)
    (query_details : string) (w' : world) (loc : string) :
  (save_data_to_storage json_dumps w now data "github" query_details = (w', Some loc) ->
     infer_source_type loc = "github")
  /\ (save_data_to_storage json_dumps w now data "reddit" query_details = (w', Some loc) ->
     (infer_source_type loc = "reddit" \/ infer_source_type loc = "github")
     /\ (PyStrOps.contains "github" (sanitize_for_filename query_details) = true ->
         infer_source_type loc = "github")
     /\ (forall b, PyStr.startswith "s3://" loc = true -> bucket_name w = Some b ->
           PyStrOps.contains "github" b = true -> infer_source_type loc = "github")).
Proof.
  split.
  - intros H. apply saved_locator_mentions in H as (H & _).
    unfold infer_source_type. change (PyStr.lower "github") with "github" in H.
    now rewrite H.
  - intros H. apply saved_locator_mentions in H as (H1 & H2 & H3).
    change (PyStr.lower "reddit") with "reddit" in H1. split; [|split].
    + unfold infer_source_type. rewrite H1.
      destruct (PyStrOps.contains "github" (PyStr.lower loc)); auto.
    + intros Hq. unfold infer_source_type.
      now rewrite (H2 "github" Hq : PyStrOps.contains "github" (PyStr.lower loc) = true).
    + intros b Hs Hb Hc. unfold infer_source_type.
      now rewrite (H3 "github" b Hs Hb Hc : PyStrOps.contains "github" (PyStr.lower loc) = true).
Qed.

(** Posts of the subreddit [github]: the locator says [reddit_github_...]. *)
Lemma infer_source_type_of_saved_example :
  infer_source_type "s3://insight-bucket/reddit_data/reddit_github_actions_20240102030405.json"
  = "github".
Proof.
  apply (proj1 (proj2 (proj2 (infer_source_type_of_saved RefJson.dumps online_world a_moment
                                [reddit_record rust_post] "github_actions"
                                (fst (save_data_to_storage RefJson.dumps online_world a_moment
                                        [reddit_record rust_post] "reddit" "github_actions"))
                                "s3://insight-bucket/reddit_data/reddit_github_actions_20240102030405.json")
                         ltac:(vm_compute; reflexivity)))).
  vm_compute. reflexivity.
Defined.

(** ** The [analyze] command on what [fetch] stored *)

Lemma github_records_have_stars repos r :
  (forall repo, In repo repos -> fits_int64 (stargazers_count repo) = true) ->
  In r (List.map github_record repos) -> has_int "stars" r.
Proof.
  intros Hfit H. apply List.in_map_iff in H as (repo & <- & Hr).
  exists (stargazers_count repo). split; [reflexivity|auto].
Qed.

Lemma reddit_records_have_score posts r :
  (forall p, In p posts -> fits_int64 (sub_score p) = true) ->
  In r (List.map reddit_record posts) -> has_int "score" r.
Proof.
  intros Hfit H. apply List.in_map_iff in H as (p & <- & Hr).
  exists (sub_score p). split; [reflexivity|auto].
Qed.

Lemma same_records_In stored df r' :
  same_records stored df -> In r' df -> exists r, In r stored /\ same_row r r'.
Proof.
  unfold same_records. induction 1 as [|r0 r0' stored df H0 _ IH]; [intros []|].
  intros [<-|H]; [exists r0; split; [now left|exact H0]|].
  destruct (IH H) as (r & Hr & Hs). exists r. split; [now right|exact Hs].
Qed.

(** The loaded rows carry the integers of the stored ones. *)
Lemma same_records_has_int col stored df :
  same_records stored df -> (forall r, In r stored -> has_int col r) ->
  forall r', In r' df -> has_int col r'.
Proof.
  intros Hs H r' Hr'. destruct (same_records_In _ _ _ Hs Hr') as (r & Hr & Hrow).
  destruct (H r Hr) as (z & Hz & Hfit).
  pose proof (same_row_get col r r' Hrow) as K. rewrite Hz in K.
  destruct K as (v' & Hv' & Hc). exists z. split; [|exact Hfit].
  now rewrite Hv', (same_cell_int _ _ z Hc eq_refl).
Qed.

Lemma same_records_nonempty stored df :
  same_records stored df -> stored <> [] -> df <> [].
Proof. intros H Hne ->. inversion H. congruence. Qed.

Lemma usable_text_same r r' k : same_row r r' -> usable_text r' k = usable_text r k.
Proof.
  intros H. pose proof (same_row_get k r r' H) as K. unfold usable_text.
  destruct (row_get k r) as [v|]; [|now rewrite K].
  destruct K as (v' & -> & [->|[-> ->]]); reflexivity.
Qed.

(** The context selected from a loaded row is that of the stored record. *)
Lemma select_context_same r r' : same_row r r' -> select_context r' = select_context r.
Proof. intros H. unfold select_context. now rewrite !(usable_text_same r r'). Qed.

Lemma reddit_record_has_no_stars p :
  mem_str "stars" (row_keys (reddit_record p)) = false.
Proof. reflexivity. Qed.

Lemma reddit_record_has_no_description p :
  row_get "description" (reddit_record p) = None.
Proof. reflexivity. Qed.

Lemma saved_github_inferred json_dumps w now data q w' loc :
  save_data_to_storage json_dumps w now data "github" q = (w', Some loc) ->
  infer_source_type loc = "github".
Proof.
  intros H. apply saved_locator_mentions in H as (H & _).
  unfold infer_source_type. change (PyStr.lower "github") with "github" in H.
  now rewrite H.
Qed.

Lemma saved_reddit_inferred json_dumps w now data q w' loc :
  save_data_to_storage json_dumps w now data "reddit" q = (w', Some loc) ->
  infer_source_type loc
  = if PyStrOps.contains "github" (PyStr.lower loc) then "github" else "reddit".
Proof.
  intros H. apply saved_locator_mentions in H as (H & _).
  unfold infer_source_type. change (PyStr.lower "reddit") with "reddit" in H.
  now rewrite H.
Qed.

Lemma saved_reddit_labelled_github json_dumps w now data q w' loc :
  save_data_to_storage json_dumps w now data "reddit" q = (w', Some loc) ->
  PyStrOps.contains "github" (sanitize_for_filename q) = true ->
  infer_source_type loc = "github".
Proof.
  intros H Hq. apply saved_locator_mentions in H as (_ & H & _).
  unfold infer_source_type.
  now rewrite (H "github" Hq : PyStrOps.contains "github" (PyStr.lower loc) = true).
Qed.

Section AnalyzeCommand.

Variable json_dumps : json -> string.
Variable json_loads : string -> result json.
Variable frame_other : json -> result DataFrame.
Variable sort_values_desc : list (row * nat) -> list (row * nat).
Variable re_count_other : string -> string -> result nat.

Abbreviation run_main :=
  (main json_dumps json_loads frame_other sort_values_desc re_count_other).

Lemma analyze_loaded sv w now command loc df source_type library_name :
  PyStr.lower command = "analyze" ->
  load_data_from_storage json_loads frame_other w loc = Ok df ->
  df_empty df = false ->
  infer_source_type loc = source_type ->
  (run_main sv w now [command; loc]
   = (w, let! a := analyze_data sort_values_desc re_count_other df source_type None in
         Ok (Analysed a)))
  /\ (run_main sv w now [command; loc; library_name]
      = (w, let! a := analyze_data sort_values_desc re_count_other df source_type
                        (Some library_name) in
            Ok (Analysed a))).
Proof.
  intros Hc Hl He Hi. rewrite !main_is_analyze by exact Hc. unfold main_analyze.
  cbn [List.nth_error]. rewrite Hl. cbn [rbind]. rewrite He, Hi. cbn [negb]. now split.
Qed.

(** X17.  [analyze] on the locator that a fetch returned, without a
    term, when the star counts (the scores) fetched are integers of 64
    bits.  After a GitHub fetch the frame loaded holds the repositories
    fetched (a missing description, language or date possibly as NaN),
    and the report ranks its rows: the first five by decreasing star
    count, equal counts in the order of the search.  After a Reddit fetch
    whose locator does not contain the word [github] it ranks the posts
    by score in the same way. *)
Theorem analyze_after_fetch_ranks
    (sv : services) (w : world) (now later : datetime) (command : string) :
  PyStr.lower command = "analyze" ->
  (forall search query limit w' loc,
      (forall repo, In repo (List.firstn (Z.to_nat limit) (yielded (search query))) ->
                    fits_int64 (stargazers_count repo) = true) ->
      json_loads (json_dumps (json_of_records (collected_repos search query limit)))
      = Ok (json_of_records (collected_repos search query limit)) ->
      fetch_github_data json_dumps (Some search) w now query limit = (w', Some loc) ->
      exists df,
        load_data_from_storage json_loads frame_other w' loc = Ok df
        /\ same_records (collected_repos search query limit) df
        /\ run_main sv w' later [command; loc]
           = (w', Ok (Analysed (Report
                    {| top := Ranked (List.firstn 5
                                        (stable_sort_desc (int_field "stars") df));
                       mentioned := None |}))))
  /\ (forall search sub query limit st tf w' loc,
      (forall p, In p (yielded (search sub query limit st tf)) ->
                 fits_int64 (sub_score p) = true) ->
      json_loads (json_dumps (json_of_records (collected_posts search sub query limit st tf)))
      = Ok (json_of_records (collected_posts search sub query limit st tf)) ->
      fetch_reddit_data json_dumps (Some search) w now sub query limit st tf
      = (w', Some loc) ->
      PyStrOps.contains "github" (PyStr.lower loc) = false ->
      exists df,
        load_data_from_storage json_loads frame_other w' loc = Ok df
        /\ same_records (collected_posts search sub query limit st tf) df
        /\ run_main sv w' later [command; loc]
           = (w', Ok (Analysed (Report
                    {| top := Ranked (List.firstn 5
                                        (stable_sort_desc (int_field "score") df));
                       mentioned := None |})))).
Proof.
  intros Hc. split.
  - intros search query limit w' loc Hfit Hcodec H.
    destruct (fetch_github_loaded _ json_loads frame_other _ _ _ _ _ _ _ Hcodec H)
      as (Hne & Hsave & Hload & Hsame).
    exists (frame_of_records (collected_repos search query limit)).
    split; [exact Hload|]. split; [exact Hsame|].
    pose proof (same_records_has_int "stars" _ _ Hsame
                  (fun r => github_records_have_stars _ r Hfit)) as Hint.
    pose proof (same_records_nonempty _ _ Hsame Hne) as Hne'.
    destruct (analyze_loaded sv w' later command loc _ "github" EmptyString Hc Hload
                (df_empty_has_col "stars" _ Hne' Hint)
                (saved_github_inferred _ _ _ _ _ _ _ Hsave)) as [-> _].
    unfold analyze_data.
    rewrite (df_empty_has_col "stars" _ Hne' Hint), (rank_report_int "stars" _ Hne' Hint).
    reflexivity.
  - intros search sub query limit st tf w' loc Hfit Hcodec H Hg.
    destruct (fetch_reddit_loaded _ json_loads frame_other _ _ _ _ _ _ _ _ _ _ Hcodec H)
      as (Hne & Hsave & Hload & Hsame).
    exists (frame_of_records (collected_posts search sub query limit st tf)).
    split; [exact Hload|]. split; [exact Hsame|].
    pose proof (same_records_has_int "score" _ _ Hsame
                  (fun r => reddit_records_have_score _ r Hfit)) as Hint.
    pose proof (same_records_nonempty _ _ Hsame Hne) as Hne'.
    pose proof (saved_reddit_inferred _ _ _ _ _ _ _ Hsave) as Hi. rewrite Hg in Hi.
    destruct (analyze_loaded sv w' later command loc _ "reddit" EmptyString Hc Hload
                (df_empty_has_col "score" _ Hne' Hint) Hi) as [-> _].
    unfold analyze_data.
    rewrite (df_empty_has_col "score" _ Hne' Hint), (rank_report_int "score" _ Hne' Hint).
    reflexivity.
Qed.

(** The frame loaded after a Reddit fetch begins with a row that has the
    fields of a post. *)
Lemma loaded_posts_shape search sub query limit st tf df :
  collected_posts search sub query limit st tf <> [] ->
  same_records (collected_posts search sub query limit st tf) df ->
  exists p r' df',
    df = r' :: df' /\ same_row (reddit_record p) r' /\ df_empty df = false.
Proof.
  unfold collected_posts. intros Hne Hs.
  destruct (yielded (search sub query limit st tf)) as [|p ps]; [now elim Hne|].
  cbn [List.map] in Hs. inversion Hs as [|? r' ? df' Hrow _]; subst.
  exists p, r', df'. split; [reflexivity|]. split; [exact Hrow|].
  apply same_row_keys in Hrow. destruct r'; [discriminate|reflexivity].
Qed.

(** X18.  [analyze] on the locator of a Reddit fetch whose label (subreddit and
    query, sanitized) contains the word [github]: the posts are taken for
    repositories.  Without a term the report has no ranking, the column
    [stars] not being found; with a term the command ends in a [KeyError]
    on the column [description], which posts do not have. *)
Theorem analyze_takes_reddit_for_github
    (sv : services) (w : world) (now later : datetime) (command : string)
    (search : reddit_client) (sub query : string) (limit : Z) (st tf : string)
    (w' : world) (loc : string) :
  PyStr.lower command = "analyze" ->
  json_loads (json_dumps (json_of_records (collected_posts search sub query limit st tf)))
  = Ok (json_of_records (collected_posts search sub query limit st tf)) ->
  fetch_reddit_data json_dumps (Some search) w now sub query limit st tf = (w', Some loc) ->
  PyStrOps.contains "github" (sanitize_for_filename (sub ++ "_" ++ query)) = true ->
  run_main sv w' later [command; loc]
  = (w', Ok (Analysed (Report {| top := ColumnNotFound; mentioned := None |})))
  /\ forall term,
       PyStr.nonempty term = true ->
       run_main sv w' later [command; loc; term] = (w', Raise (KeyError "description")).
Proof.
  intros Hc Hcodec H Hq.
  destruct (fetch_reddit_loaded _ json_loads frame_other _ _ _ _ _ _ _ _ _ _ Hcodec H)
    as (Hne & Hsave & Hload & Hsame).
  pose proof (saved_reddit_labelled_github _ _ _ _ _ _ _ Hsave Hq) as Hi.
  destruct (loaded_posts_shape _ _ _ _ _ _ _ Hne Hsame) as (p & r' & df' & Hshape & Hrow & He).
  assert (Hstars : mem_str "stars" (row_keys r') = false)
    by (rewrite (same_row_keys _ _ Hrow); apply reddit_record_has_no_stars).
  assert (Hdescr : row_get "description" r' = None).
  { pose proof (same_row_get "description" _ _ Hrow) as K.
    now rewrite reddit_record_has_no_description in K. }
  split.
  - destruct (analyze_loaded sv w' later command loc _ "github" EmptyString
                Hc Hload He Hi) as [-> _].
    unfold analyze_data. rewrite He, Hshape. unfold rank_report.
    rewrite Hstars. reflexivity.
  - intros term Hterm.
    destruct (analyze_loaded sv w' later command loc _ "github" term
                Hc Hload He Hi) as [_ ->].
    unfold analyze_data. rewrite He, Hshape. unfold rank_report.
    rewrite Hstars.
    change (String.eqb "github" "github") with true. cbn [rbind].
    unfold mention_report. rewrite Hterm. unfold mentions_df.
    cbn [mention_counts text_for_search]. unfold text_cell.
    rewrite Hdescr. reflexivity.
Qed.

End AnalyzeCommand.

Definition popular_repo : repo_item :=
  {| repo_id := 3; full_name := "octo/popular"; repo_description := Some "much used";
     stargazers_count := 9; forks_count := 1; repo_language := Some "Python";
     html_url := "https://github.com/octo/popular";
     created_at := None; updated_at := None; repo_topics := ["tools"];
     readme := Ok "Popular things." |}.

(** A search that yields the less starred repository first. *)
Definition two_repos_search : github_client :=
  fun _ => stream_of [bare_repo; popular_repo] None.

Definition fetched_world : world :=
  fst (fetch_github_data RefJson.dumps (Some two_repos_search) online_world a_moment
         "hello world" 5).

Lemma analyze_after_fetch_ranks_example :
  exists df,
    load_data_from_storage RefJson.loads RefJson.frame_other fetched_world
      "s3://insight-bucket/github_data/github_hello_world_20240102030405.json" = Ok df
    /\ same_records (collected_repos two_repos_search "hello world" 5) df
    /\ main RefJson.dumps RefJson.loads RefJson.frame_other ref_sort_values_desc
         ref_re_count_other ask_services fetched_world a_moment
         ["analyze";
          "s3://insight-bucket/github_data/github_hello_world_20240102030405.json"]
       = (fetched_world,
          Ok (Analysed (Report
                {| top := Ranked (List.firstn 5
                                    (stable_sort_desc (int_field "stars") df));
                   mentioned := None |}))).
Proof.
  apply (proj1 (analyze_after_fetch_ranks RefJson.dumps RefJson.loads RefJson.frame_other
                  ref_sort_values_desc ref_re_count_other ask_services online_world
                  a_moment a_moment "analyze" eq_refl)
           two_repos_search "hello world" 5%Z).
  - intros repo Hin. cbn in Hin. destruct Hin as [<-|[<-|[]]]; reflexivity.
  - vm_compute. reflexivity.
  - vm_compute. reflexivity.
Defined.

(** Posts found in the subreddit [github]. *)
Definition github_subreddit_search : reddit_client :=
  fun _ _ _ _ _ => stream_of [rust_post] None.

Definition fetched_posts_world : world :=
  fst (fetch_reddit_data RefJson.dumps (Some github_subreddit_search) online_world a_moment
         "github" "actions" 10 "relevance" "all").

Lemma analyze_takes_reddit_for_github_example :
  main RefJson.dumps RefJson.loads RefJson.frame_other ref_sort_values_desc
    ref_re_count_other ask_services fetched_posts_world a_moment
    ["analyze"; "s3://insight-bucket/reddit_data/reddit_github_actions_20240102030405.json"]
  = (fetched_posts_world,
     Ok (Analysed (Report {| top := ColumnNotFound; mentioned := None |})))
  /\ forall term,
       PyStr.nonempty term = true ->
       main RefJson.dumps RefJson.loads RefJson.frame_other ref_sort_values_desc
         ref_re_count_other ask_services fetched_posts_world a_moment
         ["analyze";
          "s3://insight-bucket/reddit_data/reddit_github_actions_20240102030405.json"; term]
       = (fetched_posts_world, Raise (KeyError "description")).
Proof.
  apply (analyze_takes_reddit_for_github RefJson.dumps RefJson.loads RefJson.frame_other
           ref_sort_values_desc ref_re_count_other ask_services online_world
           a_moment a_moment "analyze" github_subreddit_search "github" "actions" 10%Z
           "relevance" "all").
  - reflexivity.
  - vm_compute. reflexivity.
  - vm_compute. reflexivity.
  - vm_compute. reflexivity.
Defined.

(** ** From [fetch] to [ask] *)

(** What [ask] does with a context. *)
Definition context_outcome (qa : option capability) (question context_text : string)
    : ask_outcome :=
  if PyStr.nonempty context_text
  then let '(a, calls) := ask_ai_question qa question context_text in Answered a calls
  else NoSuitableContext.

Section FetchThenAsk.

Variable json_dumps : json -> string.
Variable json_loads : string -> result json.
Variable frame_other : json -> result DataFrame.
Variable sort_values_desc : list (row * nat) -> list (row * nat).
Variable re_count_other : string -> string -> result nat.

Abbreviation run_cmd :=
  (main json_dumps json_loads frame_other sort_values_desc re_count_other).

Lemma main_is_fetch sv w now command rest :
  PyStr.lower command = "fetch" ->
  run_cmd sv w now (command :: rest) = main_fetch json_dumps sv w now (command :: rest).
Proof. intros H. unfold main. rewrite H. reflexivity. Qed.

Lemma ask_first_entry sv w later command question loc entry df ctx :
  PyStr.lower command = "ask" ->
  load_data_from_storage json_loads frame_other w loc = Ok (entry :: df) ->
  df_empty (entry :: df) = false ->
  select_context entry = Ok ctx ->
  run_cmd sv w later [command; question; loc]
  = (w, Ok (Asked (context_outcome (qa_pipeline sv) question ctx))).
Proof.
  intros Hc Hl He Hs. rewrite main_is_ask by exact Hc. unfold main_ask.
  cbn [List.nth_error number_or rbind]. rewrite Hl. cbn [rbind]. rewrite He.
  cbn [negb List.length].
  replace (0 <? Z.of_nat (S (List.length df)))%Z with true by (symmetry; apply Z.ltb_lt; lia).
  cbn [Z.leb Z.compare andb]. change (Z.to_nat 0) with 0. cbn [List.nth_error].
  unfold ask_entry, context_outcome. rewrite Hs. cbn [rbind].
  destruct (PyStr.nonempty ctx); [|reflexivity].
  destruct (ask_ai_question (qa_pipeline sv) question ctx); reflexivity.
Qed.

(** X19.  The two commands in sequence, with the defaults of both.  After
    [fetch github <query>] has stored a collection, [ask <question>
    <locator>] works on the first repository the search yielded: the
    context is its README as stored (cut to 200,000 characters) if that
    has a character that is not white space, else its description; and
    after [fetch reddit <subreddit> <query>] on the first post: its body,
    else its title.  The fetch asks for 10 items, sorted by relevance, of
    all time. *)
Theorem fetch_then_ask_first_entry
    (sv : services) (w : world) (now later : datetime)
    (fetch_command ask_command source question : string) :
  PyStr.lower fetch_command = "fetch" ->
  PyStr.lower ask_command = "ask" ->
  (forall search query w' loc,
      PyStr.lower source = "github" -> g sv = Some search ->
      json_loads (json_dumps (json_of_records (collected_repos search query 10)))
      = Ok (json_of_records (collected_repos search query 10)) ->
      run_cmd sv w now [fetch_command; source; query] = (w', Ok (FetchFinished (Some loc))) ->
      exists repo rest,
        yielded (search query) = repo :: rest
        /\ run_cmd sv w' later [ask_command; question; loc]
           = (w', Ok (Asked (context_outcome (qa_pipeline sv) question
                               (first_usable [stored_readme repo;
                                              text_or_empty (repo_description repo)])))))
  /\ (forall search sub query w' loc,
      PyStr.lower source = "reddit" -> reddit sv = Some search ->
      json_loads (json_dumps (json_of_records
                                (collected_posts search sub query 10 "relevance" "all")))
      = Ok (json_of_records (collected_posts search sub query 10 "relevance" "all")) ->
      run_cmd sv w now [fetch_command; source; sub; query]
      = (w', Ok (FetchFinished (Some loc))) ->
      exists p rest,
        yielded (search sub query 10%Z "relevance" "all") = p :: rest
        /\ run_cmd sv w' later [ask_command; question; loc]
           = (w', Ok (Asked (context_outcome (qa_pipeline sv) question
                               (first_usable [sub_selftext p; sub_title p]))))).
Proof.
  intros Hf Ha. split.
  - intros search query w' loc Hs Hg Hcodec H.
    rewrite main_is_fetch in H by exact Hf. unfold main_fetch in H. rewrite Hs, Hg in H.
    cbn [List.nth_error number_or] in H.
    change (String.eqb "github" "github") with true in H. cbv iota in H.
    destruct (fetch_github_data json_dumps (Some search) w now query 10) as [w1 p] eqn:E.
    injection H as <- ->.
    destruct (fetch_github_loaded _ json_loads frame_other _ _ _ _ _ _ _ Hcodec E)
      as (Hne & _ & Hload & Hsame).
    remember (frame_of_records (collected_repos search query 10)) as df eqn:Edf.
    clear Edf E Hcodec. unfold collected_repos in Hne, Hsame.
    destruct (yielded (search query)) as [|repo rest]; [now elim Hne|].
    exists repo, rest. split; [reflexivity|].
    change (Z.to_nat 10) with 10 in Hsame. cbn [List.firstn List.map] in Hsame.
    inversion Hsame as [|? r' ? df' Hrow _]; subst.
    assert (He : df_empty (r' :: df') = false).
    { pose proof (same_row_keys _ _ Hrow) as K. destruct r'; [discriminate|reflexivity]. }
    refine (ask_first_entry sv w1 later ask_command question loc r' df' _ Ha Hload He _).
    rewrite (select_context_same _ _ Hrow). apply select_context_github.
  - intros search sub query w' loc Hs Hg Hcodec H.
    rewrite main_is_fetch in H by exact Hf. unfold main_fetch in H. rewrite Hs, Hg in H.
    cbn [List.nth_error number_or arg_or] in H.
    change (String.eqb "reddit" "github") with false in H.
    change (String.eqb "reddit" "reddit") with true in H. cbv iota in H.
    destruct (fetch_reddit_data json_dumps (Some search) w now sub query 10
                "relevance" "all") as [w1 p] eqn:E.
    injection H as <- ->.
    destruct (fetch_reddit_loaded _ json_loads frame_other _ _ _ _ _ _ _ _ _ _ Hcodec E)
      as (Hne & _ & Hload & Hsame).
    remember (frame_of_records (collected_posts search sub query 10 "relevance" "all"))
      as df eqn:Edf.
    clear Edf E Hcodec. unfold collected_posts in Hne, Hsame.
    destruct (yielded (search sub query 10%Z "relevance" "all")) as [|p0 rest];
      [now elim Hne|].
    exists p0, rest. split; [reflexivity|].
    cbn [List.map] in Hsame.
    inversion Hsame as [|? r' ? df' Hrow _]; subst.
    assert (He : df_empty (r' :: df') = false).
    { pose proof (same_row_keys _ _ Hrow) as K. destruct r'; [discriminate|reflexivity]. }
    refine (ask_first_entry sv w1 later ask_command question loc r' df' _ Ha Hload He _).
    rewrite (select_context_same _ _ Hrow). apply select_context_reddit.
Qed.

End FetchThenAsk.

Definition full_services : services :=
  {| g := Some (fun _ => stream_of [popular_repo; bare_repo] None);
     reddit := Some github_subreddit_search;
     qa_pipeline := Some echo_pipeline |}.

Definition fetch_run : world * result outcome :=
  main RefJson.dumps RefJson.loads RefJson.frame_other ref_sort_values_desc
    ref_re_count_other full_services online_world a_moment ["fetch"; "GitHub"; "hello world"].

(** The README of the first repository found is the context. *)
Lemma fetch_then_ask_first_entry_example :
  exists repo rest,
    yielded (stream_of [popular_repo; bare_repo] None) = repo :: rest
    /\ main RefJson.dumps RefJson.loads RefJson.frame_other ref_sort_values_desc
         ref_re_count_other full_services (fst fetch_run) a_moment
         ["ask"; "What is it?";
          "s3://insight-bucket/github_data/github_hello_world_20240102030405.json"]
       = (fst fetch_run,
          Ok (Asked (context_outcome (qa_pipeline full_services) "What is it?"
                       (first_usable [stored_readme repo;
                                      text_or_empty (repo_description repo)])))).
Proof.
  apply (proj1 (fetch_then_ask_first_entry RefJson.dumps RefJson.loads RefJson.frame_other
                  ref_sort_values_desc ref_re_count_other full_services online_world
                  a_moment a_moment "fetch" "ask" "GitHub" "What is it?" eq_refl eq_refl)
           (fun _ => stream_of [popular_repo; bare_repo] None) "hello world").
  - reflexivity.
  - reflexivity.
  - vm_compute. reflexivity.
  - vm_compute. reflexivity.
Defined.

(** ** [main.py]'s ranking report *)

Definition has_description (repo : repo_item) : bool :=
  match repo_description repo with
  | Some _ => true
  | None => false
  end.

(** The values of the line [main.py] prints for a repository. *)
Definition mainpy_printed (repo : repo_item) : json * json * json :=
  (JStr (full_name repo), JInt (stargazers_count repo),
   JStr (PyStr.take 100 (text_or_empty (repo_description repo)))).

Lemma stable_sort_desc_ext {A} (k1 k2 : A -> Z) (l : list A) :
  (forall a, k1 a = k2 a) -> stable_sort_desc k1 l = stable_sort_desc k2 l.
Proof.
  intros H. induction l as [|x l IH]; [reflexivity|].
  simpl. rewrite IH. generalize (stable_sort_desc k2 l).
  intros s. induction s as [|y s IHs]; [reflexivity|].
  simpl. rewrite !H. destruct (k2 x <? k2 y)%Z; [now rewrite IHs|reflexivity].
Qed.

Lemma uniform_mainpy repos : uniform (List.map MainPy.github_record repos).
Proof.
  exists (row_keys (MainPy.github_record long_readme_repo)). split.
  - apply NoDup_ListNoDup. repeat constructor; simpl; intuition discriminate.
  - intros r Hr. apply List.in_map_iff in Hr as (repo & <- & _). reflexivity.
Qed.

Lemma int_mixed_mainpy repos : int_mixed (List.map MainPy.github_record repos) = false.
Proof.
  apply (int_mixed_ints_at ["stars"; "forks"]); [apply uniform_mainpy|].
  intros r Hr. apply List.in_map_iff in Hr as (repo & <- & _).
  unfold ints_at, MainPy.github_record.
  destruct (repo_description repo), (repo_language repo); reflexivity.
Qed.

(** The row of a frame of rows [rows] for a record of [main.py]. *)
Definition mainpy_loaded (rows : list row) (repo : repo_item) : row :=
  convert_row rows (MainPy.github_record repo).

Lemma mainpy_frame repos :
  frame_of_records (List.map MainPy.github_record repos)
  = List.map (mainpy_loaded (List.map MainPy.github_record repos)) repos.
Proof.
  unfold frame_of_records. rewrite (aligned_records_uniform _ (uniform_mainpy repos)).
  now rewrite List.map_map.
Qed.

Lemma mainpy_loaded_stars rows repo :
  row_get "stars" (mainpy_loaded rows repo) = Some (JInt (stargazers_count repo)).
Proof. reflexivity. Qed.

Lemma mainpy_loaded_line slice_other rows repo :
  mainpy_repo_line slice_other (mainpy_loaded rows repo)
  = if has_description repo then Ok (mainpy_printed repo) else Raise TypeError.
Proof.
  unfold mainpy_repo_line, mainpy_printed, has_description, mainpy_cell.
  change (row_get "name" (mainpy_loaded rows repo)) with (Some (JStr (full_name repo))).
  rewrite mainpy_loaded_stars.
  change (numeric_row (mainpy_loaded rows repo)) with false.
  change (row_get "description" (mainpy_loaded rows repo))
    with (Some (convert_cell (column "description" rows)
                  (json_opt (repo_description repo)))).
  cbn [rbind]. destruct (repo_description repo) as [d|]; [reflexivity|].
  unfold convert_cell. cbn [json_opt is_null andb].
  destruct (float_column _ || str_column _); reflexivity.
Qed.

Lemma mainpy_loaded_lines slice_other rows repos :
  each (mainpy_repo_line slice_other) (List.map (mainpy_loaded rows) repos)
  = if List.forallb has_description repos then Ok (List.map mainpy_printed repos)
    else Raise TypeError.
Proof.
  induction repos as [|repo repos IH]; [reflexivity|].
  cbn [List.map each List.forallb]. rewrite IH, mainpy_loaded_line.
  destruct (has_description repo); cbn [rbind andb]; [|reflexivity].
  destruct (List.forallb _ repos); reflexivity.
Qed.

Lemma mainpy_loaded_same rows repos :
  same_records (List.map MainPy.github_record repos)
    (List.map (mainpy_loaded rows) repos).
Proof.
  induction repos as [|repo repos IH]; cbn [List.map]; constructor; [|exact IH].
  apply convert_row_same.
Qed.

(** X20.  [main.py]'s report of the top repositories, on the frame built
    from the records its own fetch stores, when the star counts are
    integers of 64 bits.  The rows ranked are those of the five
    repositories of most stars (ties in stored order), a missing
    description or language possibly as NaN.  If each of the five has a
    description, each is printed with its description cut to 100
    characters and the report is made; if one of those five has no
    description, the report ends in a [TypeError] (the slice of [None] or
    of NaN).  Repositories below the first five do not matter. *)
Theorem mainpy_top_repositories_needs_descriptions
    (sort_values_desc : list (row * nat) -> list (row * nat))
    (re_count_other : string -> string -> result nat)
    (slice_other : json -> result json) (frame_other : json -> result DataFrame)
    (repos : list repo_item) (df : DataFrame) :
  repos <> [] ->
  (forall repo, In repo repos -> fits_int64 (stargazers_count repo) = true) ->
  pd_DataFrame frame_other (json_of_records (List.map MainPy.github_record repos)) = Ok df ->
  same_records
    (List.map MainPy.github_record (List.firstn 5 (stable_sort_desc stargazers_count repos)))
    (List.firstn 5 (stable_sort_desc (int_field "stars") df))
  /\ each (mainpy_repo_line slice_other) (List.firstn 5 (stable_sort_desc (int_field "stars") df))
     = (if List.forallb has_description
             (List.firstn 5 (stable_sort_desc stargazers_count repos))
        then Ok (List.map mainpy_printed
                   (List.firstn 5 (stable_sort_desc stargazers_count repos)))
        else Raise TypeError)
  /\ ((forall repo, In repo (List.firstn 5 (stable_sort_desc stargazers_count repos)) ->
                    repo_description repo <> None) ->
      mainpy_analyze_data sort_values_desc re_count_other slice_other df "github" None
      = Ok (Report {| top := Ranked (List.firstn 5
                                       (stable_sort_desc (int_field "stars") df));
                      mentioned := None |}))
  /\ ((exists repo, In repo (List.firstn 5 (stable_sort_desc stargazers_count repos))
                    /\ repo_description repo = None) ->
      mainpy_analyze_data sort_values_desc re_count_other slice_other df "github" None
      = Raise TypeError).
Proof.
  intros Hne Hfit Hdf.
  rewrite (pd_DataFrame_records _ _ (int_mixed_mainpy repos)), mainpy_frame in Hdf.
  injection Hdf as <-.
  set (rows := List.map MainPy.github_record repos).
  assert (Hsort : List.firstn 5 (stable_sort_desc (int_field "stars")
                                   (List.map (mainpy_loaded rows) repos))
                  = List.map (mainpy_loaded rows)
                      (List.firstn 5 (stable_sort_desc stargazers_count repos))).
  { rewrite (stable_sort_desc_map (mainpy_loaded rows) (int_field "stars")).
    rewrite (stable_sort_desc_ext _ stargazers_count) by reflexivity.
    now rewrite List.firstn_map. }
  assert (Hint : forall r, In r (List.map (mainpy_loaded rows) repos) -> has_int "stars" r).
  { intros r Hr. apply List.in_map_iff in Hr as (repo & <- & Hr).
    exists (stargazers_count repo). split; [apply mainpy_loaded_stars|auto]. }
  assert (Hne' : List.map (mainpy_loaded rows) repos <> [])
    by (destruct repos; [congruence|discriminate]).
  assert (E : mainpy_analyze_data sort_values_desc re_count_other slice_other
                (List.map (mainpy_loaded rows) repos) "github" None
              = let! _ := each (mainpy_repo_line slice_other)
                            (List.firstn 5 (stable_sort_desc (int_field "stars")
                                              (List.map (mainpy_loaded rows) repos))) in
                Ok (Report {| top := Ranked (List.firstn 5
                                               (stable_sort_desc (int_field "stars")
                                                  (List.map (mainpy_loaded rows) repos)));
                              mentioned := None |})).
  { unfold mainpy_analyze_data.
    rewrite (df_empty_has_col "stars" _ Hne' Hint), (nlargest_int 5 "stars" _ Hint).
    change (String.eqb "github" "github") with true. cbn [rbind mainpy_mentions].
    destruct (each _ _); reflexivity. }
  assert (L : each (mainpy_repo_line slice_other)
                (List.firstn 5 (stable_sort_desc (int_field "stars")
                                  (List.map (mainpy_loaded rows) repos)))
              = if List.forallb has_description
                     (List.firstn 5 (stable_sort_desc stargazers_count repos))
                then Ok (List.map mainpy_printed
                           (List.firstn 5 (stable_sort_desc stargazers_count repos)))
                else Raise TypeError)
    by (rewrite Hsort; apply mainpy_loaded_lines).
  split; [rewrite Hsort; apply mainpy_loaded_same|]. split; [exact L|].
  rewrite E, L. split.
  - intros H.
    replace (List.forallb has_description
               (List.firstn 5 (stable_sort_desc stargazers_count repos))) with true;
      [reflexivity|].
    symmetry. apply List.forallb_forall. intros repo Hin. specialize (H repo Hin).
    unfold has_description. destruct (repo_description repo); congruence.
  - intros (repo & Hin & Hnone).
    destruct (List.forallb has_description
                (List.firstn 5 (stable_sort_desc stargazers_count repos))) eqn:F;
      [|reflexivity].
    rewrite List.forallb_forall in F. specialize (F repo Hin).
    unfold has_description in F. rewrite Hnone in F. discriminate.
Qed.

(** The second of two repositories has no description. *)
Lemma mainpy_top_repositories_needs_descriptions_example :
  mainpy_analyze_data ref_sort_values_desc ref_re_count_other (fun _ => Raise TypeError)
    (frame_of_records (List.map MainPy.github_record [popular_repo; bare_repo]))
    "github" None
  = Raise TypeError.
Proof.
  apply (proj2 (proj2 (proj2
           (mainpy_top_repositories_needs_descriptions ref_sort_values_desc
              ref_re_count_other (fun _ => Raise TypeError) RefJson.frame_other
              [popular_repo; bare_repo] _ ltac:(discriminate)
              ltac:(intros repo [<-|[<-|[]]]; reflexivity) eq_refl)))).
  exists bare_repo. split; [right; left; reflexivity|reflexivity].
Defined.

(** ** Collections persisted at different times *)

(** A date of the calendar, in a year of four digits. *)
Definition calendar (t : datetime) : bool :=
  ((1000 <=? year t) && (year t <? 10 * 1000) && (1 <=? month t) && (month t <=? 12)
   && (1 <=? day t) && (day t <=? 31) && (hour t <? 24) && (minute t <? 60)
   && (second t <? 60))%nat.

Lemma str_length_app a b : String.length (a ++ b) = String.length a + String.length b.
Proof.
  induction a as [|c a IH]; [now rewrite app_empty|].
  rewrite app_cons. cbn [String.length]. now rewrite IH.
Qed.

Lemma str_app_inv_len a1 b1 a2 b2 :
  String.length a1 = String.length a2 -> a1 ++ b1 = a2 ++ b2 -> a1 = a2 /\ b1 = b2.
Proof.
  revert a2. induction a1 as [|c a1 IH]; intros [|d a2] Hl H; try discriminate.
  - rewrite !app_empty in H. auto.
  - rewrite !app_cons in H. injection H as -> H. injection Hl as Hl.
    destruct (IH a2 Hl H) as [-> ->]. auto.
Qed.

Lemma str_app_inv_suffix x1 s1 x2 s2 :
  String.length s1 = String.length s2 -> x1 ++ s1 = x2 ++ s2 -> x1 = x2 /\ s1 = s2.
Proof.
  intros Hl H. apply str_app_inv_len; [|exact H].
  apply (f_equal String.length) in H. rewrite !str_length_app in H. lia.
Qed.

Lemma decimal_inj n m : decimal n = decimal m -> n = m.
Proof.
  unfold decimal. intros H. apply Unsigned.to_uint_inj.
  pose proof (NilEmpty.usu (Nat.to_uint n)) as Hn.
  pose proof (NilEmpty.usu (Nat.to_uint m)) as Hm.
  rewrite H in Hn. rewrite Hn in Hm. now injection Hm.
Qed.

Lemma decimal_year_length n : 1000 <= n < 10 * 1000 -> String.length (decimal n) = 4.
Proof.
  intros H.
  assert (A : List.forallb (fun k => (String.length (decimal k) =? 4)%nat)
                (List.seq 1000 (9 * 1000)) = true) by (vm_compute; reflexivity).
  rewrite List.forallb_forall in A. apply Nat.eqb_eq, A, List.in_seq. lia.
Qed.

Lemma pad2_length n : n < 100 -> String.length (pad2 n) = 2.
Proof.
  intros H.
  assert (A : List.forallb (fun k => (String.length (pad2 k) =? 2)%nat)
                (List.seq 0 100) = true) by (vm_compute; reflexivity).
  rewrite List.forallb_forall in A. apply Nat.eqb_eq, A, List.in_seq. lia.
Qed.

Lemma pad2_inj n m : n < 100 -> m < 100 -> pad2 n = pad2 m -> n = m.
Proof.
  intros Hn Hm H.
  assert (A : List.forallb
                (fun a => List.forallb
                            (fun b => implb (String.eqb (pad2 a) (pad2 b)) (a =? b)%nat)
                            (List.seq 0 100))
                (List.seq 0 100) = true) by (vm_compute; reflexivity).
  rewrite List.forallb_forall in A.
  specialize (A n ltac:(apply List.in_seq; lia)).
  rewrite List.forallb_forall in A.
  specialize (A m ltac:(apply List.in_seq; lia)).
  rewrite H, String.eqb_refl in A. now apply Nat.eqb_eq.
Qed.

Lemma calendar_bounds t :
  calendar t = true ->
  1000 <= year t < 10 * 1000 /\ month t < 100 /\ day t < 100 /\ hour t < 100
  /\ minute t < 100 /\ second t < 100.
Proof.
  unfold calendar. intros H.
  repeat (apply andb_prop in H as [H ?]).
  repeat match goal with
         | K : (_ <=? _)%nat = true |- _ => apply Nat.leb_le in K
         | K : (_ <? _)%nat = true |- _ => apply Nat.ltb_lt in K
         end.
  lia.
Qed.

Lemma strftime_compact_length t :
  calendar t = true -> String.length (strftime_compact t) = 14.
Proof.
  intros H. apply calendar_bounds in H as (Hy & Hm & Hd & Hh & Hi & Hs).
  unfold strftime_compact. rewrite !str_length_app.
  rewrite (decimal_year_length _ Hy), !pad2_length by assumption. reflexivity.
Qed.

(** Within the calendar the stamp of the file name tells the seconds apart. *)
Lemma strftime_compact_inj t1 t2 :
  calendar t1 = true -> calendar t2 = true ->
  strftime_compact t1 = strftime_compact t2 -> t1 = t2.
Proof.
  intros H1 H2 H.
  apply calendar_bounds in H1 as (Hy1 & Hm1 & Hd1 & Hh1 & Hi1 & Hs1).
  apply calendar_bounds in H2 as (Hy2 & Hm2 & Hd2 & Hh2 & Hi2 & Hs2).
  unfold strftime_compact in H.
  apply str_app_inv_len in H as [Ey H];
    [|now rewrite !decimal_year_length by assumption].
  apply str_app_inv_len in H as [Em H]; [|now rewrite !pad2_length by assumption].
  apply str_app_inv_len in H as [Ed H]; [|now rewrite !pad2_length by assumption].
  apply str_app_inv_len in H as [Eh H]; [|now rewrite !pad2_length by assumption].
  apply str_app_inv_len in H as [Ei Es]; [|now rewrite !pad2_length by assumption].
  apply decimal_inj in Ey. apply pad2_inj in Em, Ed, Eh, Ei, Es; try assumption.
  destruct t1, t2. cbn in *. congruence.
Qed.

Lemma stamped_names_differ x1 x2 t1 t2 :
  calendar t1 = true -> calendar t2 = true -> t1 <> t2 ->
  x1 ++ strftime_compact t1 ++ ".json" <> x2 ++ strftime_compact t2 ++ ".json".
Proof.
  intros H1 H2 Hne E. apply Hne.
  apply str_app_inv_suffix in E as [_ E].
  - apply str_app_inv_len in E as [E _];
      [now apply strftime_compact_inj|now rewrite !strftime_compact_length].
  - now rewrite !str_length_app, !strftime_compact_length.
Qed.

Lemma s3_keys_differ now1 now2 t1 q1 t2 q2 :
  calendar now1 = true -> calendar now2 = true -> now1 <> now2 ->
  s3_key now1 t1 q1 <> s3_key now2 t2 q2.
Proof.
  intros H1 H2 Hne. unfold s3_key, base_filename.
  replace ((t1 ++ "_data/") ++ t1 ++ "_" ++ sanitize_for_filename q1 ++ "_"
           ++ strftime_compact now1 ++ ".json")
    with (((t1 ++ "_data/") ++ t1 ++ "_" ++ sanitize_for_filename q1 ++ "_")
          ++ strftime_compact now1 ++ ".json") by (now rewrite !str_app_assoc).
  replace ((t2 ++ "_data/") ++ t2 ++ "_" ++ sanitize_for_filename q2 ++ "_"
           ++ strftime_compact now2 ++ ".json")
    with (((t2 ++ "_data/") ++ t2 ++ "_" ++ sanitize_for_filename q2 ++ "_")
          ++ strftime_compact now2 ++ ".json") by (now rewrite !str_app_assoc).
  now apply stamped_names_differ.
Qed.

Lemma local_paths_differ now1 now2 t1 q1 t2 q2 :
  calendar now1 = true -> calendar now2 = true -> now1 <> now2 ->
  local_path now1 t1 q1 <> local_path now2 t2 q2.
Proof.
  intros H1 H2 Hne.
  assert (S : forall now t q, exists x,
             local_path now t q = x ++ strftime_compact now ++ ".json").
  { intros now t q. unfold local_path, PyStrOps.os_path_join, base_filename.
    destruct (PyStr.startswith "/" _).
    - exists (t ++ "_" ++ sanitize_for_filename q ++ "_"). now rewrite !str_app_assoc.
    - exists (DATA_DIR ++ "/" ++ t ++ "_" ++ sanitize_for_filename q ++ "_").
      now rewrite !str_app_assoc. }
  destruct (S now1 t1 q1) as [x1 ->]. destruct (S now2 t2 q2) as [x2 ->].
  now apply stamped_names_differ.
Qed.

Lemma put_object_other_key r b k body r' b' k' :
  put_object r b k body = Ok r' -> k' <> k ->
  get_object r' b' k' = get_object r b' k'.
Proof.
  unfold put_object. destruct (valid_bucket_name b) eqn:Hv; [|discriminate].
  destruct (online r) eqn:Ho; [|discriminate]. cbn [negb].
  destruct (buckets r !! b) as [objs|] eqn:Hb; [|discriminate].
  destruct (access_granted r) eqn:Ha; [|discriminate]. cbn [negb].
  intros [= <-] Hk. unfold get_object. cbn [online access_granted buckets].
  destruct (negb (valid_bucket_name b')); [reflexivity|]. rewrite Ho. cbn [negb].
  destruct (decide (b' = b)) as [->|Hne].
  - rewrite lookup_insert_eq, Hb, Ha. cbn [negb].
    now rewrite lookup_insert_ne by (intros E; apply Hk; now symmetry).
  - rewrite lookup_insert_ne by (intros E; apply Hne; now symmetry).
    rewrite Ha. reflexivity.
Qed.

Lemma save_local_other_path json_dumps w now data t q p :
  p <> local_path now t q ->
  os_path_exists (fs (fst (save_local json_dumps w now data t q))) p
  = os_path_exists (fs w) p
  /\ read_file (fs (fst (save_local json_dumps w now data t q))) p = read_file (fs w) p.
Proof.
  intros Hp. unfold save_local. fold (local_path now t q).
  destruct (open_w (fs w) (local_path now t q)) as [f1|e] eqn:Ho; [|split; reflexivity].
  apply open_w_ok in Ho as [_ ->]. unfold write_close. cbn [free dirs files].
  destruct (String.length _ <=? free (fs w))%nat;
    cbn [fst set_fs fs]; unfold os_path_exists, read_file, is_dir; cbn [dirs files];
    rewrite !lookup_insert_ne by (intros E; apply Hp; now symmetry); split; reflexivity.
Qed.

(** What a later [persist] leaves as it was. *)
Lemma save_frame json_dumps w now data t q :
  s3_client (fst (save_data_to_storage json_dumps w now data t q)) = s3_client w
  /\ S3_BUCKET_NAME (fst (save_data_to_storage json_dumps w now data t q)) = S3_BUCKET_NAME w
  /\ (forall b k, k <> s3_key now t q ->
        get_object (s3 (fst (save_data_to_storage json_dumps w now data t q))) b k
        = get_object (s3 w) b k)
  /\ (forall p, p <> local_path now t q ->
        os_path_exists (fs (fst (save_data_to_storage json_dumps w now data t q))) p
        = os_path_exists (fs w) p
        /\ read_file (fs (fst (save_data_to_storage json_dumps w now data t q))) p
           = read_file (fs w) p).
Proof.
  unfold save_data_to_storage.
  destruct (save_remote json_dumps w now data t q) as [[w1 uri]|] eqn:Hr.
  - apply save_remote_shape in Hr as (b & r' & Hc & Hb & Hp & -> & ->).
    cbn [fst set_s3 s3_client S3_BUCKET_NAME s3 fs].
    split; [reflexivity|]. split; [reflexivity|]. split; [|auto].
    intros b' k Hk. exact (put_object_other_key _ _ _ _ _ b' k Hp Hk).
  - destruct (save_local_remote_untouched json_dumps w now data t q) as (H1 & H2 & H3 & _).
    split; [exact H2|]. split; [exact H3|]. split.
    + intros b k _. now rewrite H1.
    + intros p Hp. now apply save_local_other_path.
Qed.

Lemma load_frame json_loads frame_other w w' loc :
  s3_client w' = s3_client w -> S3_BUCKET_NAME w' = S3_BUCKET_NAME w ->
  get_object (s3 w') (s3_bucket_of loc) (s3_key_of loc)
  = get_object (s3 w) (s3_bucket_of loc) (s3_key_of loc) ->
  os_path_exists (fs w') loc = os_path_exists (fs w) loc ->
  read_file (fs w') loc = read_file (fs w) loc ->
  load_data_from_storage json_loads frame_other w' loc
  = load_data_from_storage json_loads frame_other w loc.
Proof.
  intros Hc Hb Hg Hx Hr.
  assert (Hconf : configured w' = configured w)
    by (unfold configured, bucket_name; now rewrite Hc, Hb).
  destruct (PyStr.startswith "s3://" loc) eqn:Hs.
  - destruct (configured w) eqn:E.
    + rewrite !load_remote_eq by congruence. now rewrite Hg.
    + now rewrite !load_unconfigured by congruence.
  - rewrite !load_local_eq by exact Hs. now rewrite Hx, Hr.
Qed.

(** X10.  A collection that was persisted is not touched by a [persist] at
    another second, whatever the later call stores, under whatever source
    type and label, and in whichever tier it ends: the later call does not
    return the earlier locator, a load of the earlier locator gives after
    it what it gave before, and that is the earlier collection, a null
    possibly as NaN.  (Both times are dates of the calendar in a year of
    four digits; the JSON text of the collection is assumed to parse back
    to it, and no column of it to hold integers beside floats or nulls.) *)
Theorem persisted_collection_survives_later_persist
    (json_dumps : json -> string) (json_loads : string -> result json)
    (frame_other : json -> result DataFrame)
    (w : world) (now1 now2 : datetime) (first second : list row)
    (source_type query_details source_type2 query_details2 : string)
    (w1 w2 : world) (loc1 : string) (returned : option string) :
  calendar now1 = true -> calendar now2 = true -> now1 <> now2 ->
  uniform first ->
  int_mixed first = false ->
  json_loads (json_dumps (json_of_records first)) = Ok (json_of_records first) ->
  PyStrOps.contains "s3://" source_type = false ->
  save_data_to_storage json_dumps w now1 first source_type query_details
  = (w1, Some loc1) ->
  save_data_to_storage json_dumps w1 now2 second source_type2 query_details2
  = (w2, returned) ->
  returned <> Some loc1
  /\ load_data_from_storage json_loads frame_other w2 loc1
     = load_data_from_storage json_loads frame_other w1 loc1
  /\ loads_as json_loads frame_other w2 loc1 first.
Proof.
  intros Hc1 Hc2 Hne Hu Hmix Hcodec Ht H1 H2.
  pose proof (saved_then_loaded json_dumps json_loads frame_other w now1 first
                source_type query_details w1 loc1 Hmix Hcodec Ht H1) as Hload.
  pose proof (frame_of_records_same first Hu) as Hsame.
  enough (K : returned <> Some loc1
              /\ load_data_from_storage json_loads frame_other w2 loc1
                 = load_data_from_storage json_loads frame_other w1 loc1).
  { destruct K as [K1 K2]. split; [exact K1|]. split; [exact K2|].
    exists (frame_of_records first). split; [now rewrite K2|exact Hsame]. }
  clear Hload Hsame.
  pose proof (save_frame json_dumps w1 now2 second source_type2 query_details2)
    as (Fc & Fb & Fg & Ff).
  rewrite H2 in Fc, Fb, Fg, Ff. cbn [fst] in Fc, Fb, Fg, Ff.
  pose proof (s3_keys_differ now1 now2 source_type query_details source_type2
                query_details2 Hc1 Hc2 Hne) as Hk.
  pose proof (local_paths_differ now1 now2 source_type query_details source_type2
                query_details2 Hc1 Hc2 Hne) as Hp.
  (* where the first call stored, and where the second may have *)
  assert (Hret : forall loc2, returned = Some loc2 ->
            (exists b, loc2 = "s3://" ++ b ++ "/" ++ s3_key now2 source_type2 query_details2)
            \/ loc2 = local_path now2 source_type2 query_details2).
  { intros loc2 ->. unfold save_data_to_storage in H2.
    destruct (save_remote json_dumps w1 now2 second source_type2 query_details2)
      as [[w3 uri]|] eqn:Hr.
    - injection H2 as <- <-.
      apply save_remote_shape in Hr as (b & r' & _ & _ & _ & _ & ->). left. now exists b.
    - right.
      destruct (save_local_remote_untouched json_dumps w1 now2 second source_type2
                  query_details2) as (_ & _ & _ & H4).
      rewrite H2 in H4. cbn [snd] in H4. now apply H4. }
  unfold save_data_to_storage in H1.
  destruct (save_remote json_dumps w now1 first source_type query_details)
    as [[w3 uri]|] eqn:Hr.
  - (* the first collection is in the bucket *)
    injection H1 as <- <-.
    apply save_remote_shape in Hr as (b & r' & _ & Hb & Hput & -> & ->).
    apply put_then_get in Hput as [Hv _].
    destruct (parse_remote_locator b now1 source_type query_details Hv Ht) as [Eb Ek].
    split.
    + intros E. destruct (Hret _ E) as [(b2 & E2)|E2].
      * change ("s3://" ++ b ++ "/" ++ s3_key now1 source_type query_details)
          with (String "s" (String "3" (String ":" (String "/" (String "/"
                  (b ++ "/" ++ s3_key now1 source_type query_details)))))) in E2.
        change ("s3://" ++ b2 ++ "/" ++ s3_key now2 source_type2 query_details2)
          with (String "s" (String "3" (String ":" (String "/" (String "/"
                  (b2 ++ "/" ++ s3_key now2 source_type2 query_details2)))))) in E2.
        injection E2 as E2.
        unfold s3_key, base_filename in E2.
        apply (stamped_names_differ
                 (b ++ "/" ++ (source_type ++ "_data/") ++ source_type ++ "_"
                  ++ sanitize_for_filename query_details ++ "_")
                 (b2 ++ "/" ++ (source_type2 ++ "_data/") ++ source_type2 ++ "_"
                  ++ sanitize_for_filename query_details2 ++ "_")
                 now1 now2 Hc1 Hc2 Hne).
        rewrite !str_app_assoc in *. exact E2.
      * pose proof (local_path_not_remote now2 source_type2 query_details2) as L.
        rewrite <- E2 in L. discriminate.
    + apply load_frame; try assumption.
      * rewrite Eb, Ek. apply Fg. exact Hk.
      * unfold os_path_exists, is_dir.
        destruct (Ff ("s3://" ++ b ++ "/" ++ s3_key now1 source_type query_details))
          as [Hx _]; [|exact Hx].
        intros E. pose proof (local_path_not_remote now2 source_type2 query_details2) as L.
        rewrite <- E in L. discriminate.
      * destruct (Ff ("s3://" ++ b ++ "/" ++ s3_key now1 source_type query_details))
          as [_ Hx]; [|exact Hx].
        intros E. pose proof (local_path_not_remote now2 source_type2 query_details2) as L.
        rewrite <- E in L. discriminate.
  - (* the first collection is in a local file *)
    destruct (save_local_remote_untouched json_dumps w now1 first source_type
                query_details) as (_ & _ & _ & H4).
    rewrite H1 in H4. cbn [snd] in H4. pose proof (H4 loc1 eq_refl) as ->.
    pose proof (local_path_not_remote now1 source_type query_details) as L1.
    split.
    + intros E. destruct (Hret _ E) as [(b2 & E2)|E2].
      * rewrite E2 in L1. discriminate.
      * now apply Hp.
    + destruct (Ff (local_path now1 source_type query_details) Hp) as [Hx Hrd].
      rewrite !load_local_eq by exact L1. now rewrite Hx, Hrd.
Qed.

Definition next_moment : datetime :=
  {| year := 2024; month := 1; day := 2; hour := 3; minute := 4; second := 6 |}.

(** The same query a second later: the first locator still gives the
    first collection. *)
Lemma persisted_collection_survives_later_persist_example :
  Some "s3://insight-bucket/github_data/github_hello_20240102030406.json"
  <> Some "s3://insight-bucket/github_data/github_hello_20240102030405.json"
  /\ load_data_from_storage RefJson.loads RefJson.frame_other
       (fst (save_data_to_storage RefJson.dumps
               (fst (save_data_to_storage RefJson.dumps online_world a_moment
                       ranking_example "github" "hello"))
               next_moment other_records "github" "hello"))
       "s3://insight-bucket/github_data/github_hello_20240102030405.json"
     = load_data_from_storage RefJson.loads RefJson.frame_other
         (fst (save_data_to_storage RefJson.dumps online_world a_moment
                 ranking_example "github" "hello"))
         "s3://insight-bucket/github_data/github_hello_20240102030405.json"
  /\ loads_as RefJson.loads RefJson.frame_other
       (fst (save_data_to_storage RefJson.dumps
               (fst (save_data_to_storage RefJson.dumps online_world a_moment
                       ranking_example "github" "hello"))
               next_moment other_records "github" "hello"))
       "s3://insight-bucket/github_data/github_hello_20240102030405.json"
       ranking_example.
Proof.
  apply (persisted_collection_survives_later_persist RefJson.dumps RefJson.loads
           RefJson.frame_other online_world a_moment next_moment ranking_example
           other_records "github" "hello" "github" "hello"
           (fst (save_data_to_storage RefJson.dumps online_world a_moment
                   ranking_example "github" "hello"))).
  - reflexivity.
  - reflexivity.
  - discriminate.
  - exact uniform_ranking_example.
  - reflexivity.
  - vm_compute. reflexivity.
  - reflexivity.
  - vm_compute. reflexivity.
  - vm_compute. reflexivity.
Defined.
